(** * Colorado Holiday Markets 2025: ingestion and query engine

    A shallow embedding of the data path of [script.js]: the CSV record
    builder ([parseCSV], [parseCSVLine]), the address heuristic
    ([extractCityFromAddress]), the date-range grammar ([parseMarketDates],
    [parseDateWithMonth], [parseSimpleDate]) and the catalogue queries
    ([applyFilters], [sortFilteredMarkets], [marketIsOpenOnDate],
    [calculateWeekendDates]).

    Conventions of the embedding.
    - A JavaScript string is a [string]; its characters stand for UTF-16
      code units below 256 (Latin-1).
    - A number produced by [parseFloat] is kept as the decimal literal that
      was read ([JSNumber]); only its truthiness is observed by the program.
    - A [Date] object is recorded by its local time value (its time value
      plus the offset of the local zone at that time), or is
      [Date.Invalid]: the calendar accessors, [new Date(y, m, d)] and
      [setDate] work on it, and so do the comparisons of two dates. Where
      the program computes with time values ([Date.now()], [getTime()]
      plus a number of milliseconds), the time value is kept and a
      [Date.Zone], the offset of local time from UTC at each time value,
      gives the date. The range of valid time values is checked on the
      value at hand.
    - [parseInt] on a run of digits is exact; a double would round only
      beyond 2^53, where the date built from it is invalid either way.
    - An exception is an explicit [Throw] result. *)

From Stdlib Require Import ZArith List String Ascii Bool Lia Permutation Sorted.
Import ListNotations.
Local Open Scope string_scope.
Local Open Scope Z_scope.

(** ** Built-ins of the language, as far as the program uses them *)

Module JS.

Definition code (c : ascii) : Z := Z.of_N (N_of_ascii c).

(** [\s] of regular expressions and the characters removed by [trim]
    (WhiteSpace and LineTerminator below U+0100). *)
Definition isWhiteSpace (c : ascii) : bool :=
  ((9 <=? code c) && (code c <=? 13)) || (code c =? 32) || (code c =? 160).

Definition isDigit (c : ascii) : bool := (48 <=? code c) && (code c <=? 57).
Definition isUpper (c : ascii) : bool := (65 <=? code c) && (code c <=? 90).
Definition isLower (c : ascii) : bool := (97 <=? code c) && (code c <=? 122).

(** [\w]: letters, digits and the underscore. *)
Definition isWordChar (c : ascii) : bool :=
  isDigit c || isUpper c || isLower c || (code c =? 95).

Definition dquote : ascii := ascii_of_nat 34.
Definition newline : ascii := ascii_of_nat 10.

Definition isEmpty (s : string) : bool :=
  match s with EmptyString => true | String _ _ => false end.

Definition head (s : string) : option ascii :=
  match s with EmptyString => None | String c _ => Some c end.

Fixpoint trimStart (s : string) : string :=
  match s with
  | EmptyString => EmptyString
  | String c r => if isWhiteSpace c then trimStart r else s
  end.

Fixpoint trimEnd (s : string) : string :=
  match s with
  | EmptyString => EmptyString
  | String c r =>
      match trimEnd r with
      | EmptyString => if isWhiteSpace c then EmptyString else String c EmptyString
      | r' => String c r'
      end
  end.

(** [String.prototype.trim]. *)
Definition trim (s : string) : string := trimEnd (trimStart s).

(** [s.split(sep)] for a one-character separator. *)
Fixpoint split (sep : ascii) (s : string) : list string :=
  match s with
  | EmptyString => [EmptyString]
  | String c r =>
      if Ascii.eqb c sep then EmptyString :: split sep r
      else match split sep r with
           | h :: t => String c h :: t
           | [] => [String c EmptyString]
           end
  end.

(** [s.includes(sub)]. *)
Fixpoint includes (s sub : string) : bool :=
  String.prefix sub s ||
  match s with
  | EmptyString => false
  | String _ r => includes r sub
  end.

(** [s.lastIndexOf(c)] for a one-character argument; [-1] when absent. *)
Fixpoint lastIndexOf (c : ascii) (s : string) : Z :=
  match s with
  | EmptyString => -1
  | String a r =>
      let k := lastIndexOf c r in
      if 0 <=? k then k + 1 else if Ascii.eqb a c then 0 else -1
  end.

(** [s.substring(from, to)] and [s.substring(from)] for indices inside
    the string, as the program calls them. *)
Definition substring (s : string) (from to : Z) : string :=
  String.substring (Z.to_nat from) (Z.to_nat (to - from)) s.

Definition substringFrom (s : string) (from : Z) : string :=
  String.substring (Z.to_nat from) (String.length s - Z.to_nat from) s.

(** Longest prefix of decimal digits, and what follows it. *)
Fixpoint spanDigits (s : string) : string * string :=
  match s with
  | EmptyString => (EmptyString, EmptyString)
  | String c r =>
      if isDigit c then let '(d, rest) := spanDigits r in (String c d, rest)
      else (EmptyString, s)
  end.

Fixpoint digitsValue (acc : Z) (ds : string) : Z :=
  match ds with
  | EmptyString => acc
  | String c r => digitsValue (10 * acc + (code c - 48)) r
  end.

(** [parseInt(ds)] on a string of decimal digits (a [\d+] capture). *)
Definition parseInt (ds : string) : Z := digitsValue 0 ds.

(** *** Numbers read by [parseFloat] *)

(** The decimal literal [mant * 10^exp10], before rounding to a double. *)
Inductive JSNumber : Type :=
| NaN
| Infinity (neg : bool)
| Decimal (neg : bool) (mant : Z) (exp10 : Z).

(** A literal rounds to (plus or minus) zero exactly when its value is at
    most [2^-1075], half of the smallest subnormal double. *)
Definition roundsToZero (mant exp10 : Z) : bool :=
  (mant =? 0) || ((exp10 <? 0) && (mant * 2 ^ 1075 <=? 10 ^ (- exp10))).

(** ToBoolean on a number: [NaN] and zero are falsy. *)
Definition truthy (n : JSNumber) : bool :=
  match n with
  | NaN => false
  | Infinity _ => true
  | Decimal _ m e => negb (roundsToZero m e)
  end.

Definition readSign (s : string) : bool * string :=
  match s with
  | String "-" r => (true, r)
  | String "+" r => (false, r)
  | _ => (false, s)
  end.

(** ExponentPart, when one is present and well formed. *)
Definition readExponent (s : string) : Z :=
  match s with
  | String c r =>
      if Ascii.eqb c "e" || Ascii.eqb c "E" then
        let '(neg, r') := readSign r in
        let '(ds, _) := spanDigits r' in
        if isEmpty ds then 0
        else if neg then - digitsValue 0 ds else digitsValue 0 ds
      else 0
  | EmptyString => 0
  end.

(** [parseFloat(s)]: leading white space is skipped and the longest
    prefix that is a StrDecimalLiteral is read. *)
Definition parseFloat (s : string) : JSNumber :=
  let '(neg, r) := readSign (trimStart s) in
  if String.prefix "Infinity" r then Infinity neg
  else
    let '(ip, r1) := spanDigits r in
    match r1 with
    | String "." r2 =>
        let '(fp, r3) := spanDigits r2 in
        if isEmpty ip && isEmpty fp then NaN
        else Decimal neg (digitsValue 0 (ip ++ fp))
               (readExponent r3 - Z.of_nat (String.length fp))
    | _ =>
        if isEmpty ip then NaN
        else Decimal neg (digitsValue 0 ip) (readExponent r1)
    end.

(** [x || null] on a number. *)
Definition orNull (n : JSNumber) : option JSNumber :=
  if truthy n then Some n else None.

(** [values[i]?.trim() || dflt]. *)
Definition fieldOr (values : list string) (i : nat) (dflt : string) : string :=
  match nth_error values i with
  | Some v => if isEmpty (trim v) then dflt else trim v
  | None => dflt
  end.

(** *** Exceptions *)

Inductive Completion (A : Type) : Type :=
| Normal (a : A)
| Throw.   (* a TypeError: a property read on [undefined] *)
Arguments Normal {A} a.
Arguments Throw {A}.

Definition bind {A B : Type} (c : Completion A) (k : A -> Completion B) : Completion B :=
  match c with
  | Normal a => k a
  | Throw => Throw
  end.

(** [xs.some(f)] for a callback that may throw. *)
Fixpoint some {A : Type} (f : A -> Completion bool) (xs : list A) : Completion bool :=
  match xs with
  | [] => Normal false
  | x :: r => bind (f x) (fun b => if b then Normal true else some f r)
  end.

(** [xs.filter(f)] for a callback that may throw. *)
Fixpoint filter {A : Type} (f : A -> Completion bool) (xs : list A) : Completion (list A) :=
  match xs with
  | [] => Normal []
  | x :: r =>
      bind (f x) (fun b =>
      bind (filter f r) (fun r' => Normal (if b then x :: r' else r')))
  end.

(** [xs.sort(cmp)]: the sort is stable, so for a consistent comparator
    its result is the one stable ordering; insertion from the right
    computes it. [cmp x y <= 0] keeps [x] in front of [y]. *)
Fixpoint insertSorted {A : Type} (cmp : A -> A -> Z) (x : A) (sorted : list A) : list A :=
  match sorted with
  | [] => [x]
  | y :: r => if cmp x y <=? 0 then x :: sorted else y :: insertSorted cmp x r
  end.

Definition sort {A : Type} (cmp : A -> A -> Z) (xs : list A) : list A :=
  fold_right (insertSorted cmp) [] xs.

End JS.

Notation "x <- c ;; k" := (JS.bind c (fun x => k))
  (at level 61, c at next level, right associativity).

(** ** Date objects *)

Module Date.

Definition msPerDay : Z := 86400000.

(** Time values range over 100,000,000 days on either side of the epoch. *)
Definition maxTime : Z := 8640000000000000.

Inductive JSDate : Type :=
| Ms (time : Z)
| Invalid.

Definition timeClip (time : Z) : JSDate :=
  if Z.abs time <=? maxTime then Ms time else Invalid.

(** Day number of the first of month [mn] (0 = January) of year [y],
    counted from 1 January 1970 in the proleptic Gregorian calendar. *)
Definition dayFromYearMonth (y mn : Z) : Z :=
  let y' := if mn <=? 1 then y - 1 else y in
  let era := y' / 400 in
  let yoe := y' - era * 400 in
  let mp := if 2 <=? mn then mn - 2 else mn + 10 in
  let doy := (153 * mp + 2) / 5 in
  let doe := yoe * 365 + yoe / 4 - yoe / 100 + doy in
  era * 146097 + doe - 719468.

(** MakeDay(year, month, date). *)
Definition makeDay (year month date : Z) : Z :=
  dayFromYearMonth (year + month / 12) (month mod 12) + date - 1.

(** Year, month (0 = January) and day of the month of a day number. *)
Definition civilFromDay (z : Z) : Z * Z * Z :=
  let z' := z + 719468 in
  let era := z' / 146097 in
  let doe := z' - era * 146097 in
  let yoe := (doe - doe / 1460 + doe / 36524 - doe / 146096) / 365 in
  let doy := doe - (365 * yoe + yoe / 4 - yoe / 100) in
  let mp := (5 * doy + 2) / 153 in
  let d := doy - (153 * mp + 2) / 5 + 1 in
  let mn := if mp <? 10 then mp + 2 else mp - 10 in
  let y := yoe + era * 400 + (if mn <=? 1 then 1 else 0) in
  (y, mn, d).

(** A time zone: the offset of local time from UTC, in milliseconds, at
    each time value. *)
Definition Zone : Type := Z -> Z.

Definition utc : Zone := fun _ => 0.

(** TimeClip on a time value; [None] is NaN. *)
Definition clip (time : option Z) : option Z :=
  match time with
  | Some t => if Z.abs t <=? maxTime then Some t else None
  | None => None
  end.

(** The accessors return [None] for NaN, on an invalid date. *)
Definition getFullYear (d : JSDate) : option Z :=
  match d with
  | Ms t => let '(y, _, _) := civilFromDay (t / msPerDay) in Some y
  | Invalid => None
  end.

Definition getMonth (d : JSDate) : option Z :=
  match d with
  | Ms t => let '(_, m, _) := civilFromDay (t / msPerDay) in Some m
  | Invalid => None
  end.

Definition getDate (d : JSDate) : option Z :=
  match d with
  | Ms t => let '(_, _, dd) := civilFromDay (t / msPerDay) in Some dd
  | Invalid => None
  end.

(** Day of the week, 0 = Sunday; 1 January 1970 was a Thursday. *)
Definition getDay (d : JSDate) : option Z :=
  match d with
  | Ms t => Some ((t / msPerDay + 4) mod 7)
  | Invalid => None
  end.

(** [new Date(year, month, date)]: local midnight of that day; a year
    from 0 to 99 means 1900 + year. *)
Definition make (year month date : option Z) : JSDate :=
  match year, month, date with
  | Some y, Some m, Some d =>
      let yr := if (0 <=? y) && (y <=? 99) then 1900 + y else y in
      timeClip (makeDay yr m d * msPerDay)
  | _, _, _ => Invalid
  end.

(** [new Date(ms)] for a time value [ms], in [zone]. *)
Definition ofTime (zone : Zone) (ms : option Z) : JSDate :=
  match clip ms with
  | Some t => Ms (t + zone t)
  | None => Invalid
  end.

(** [a === b] on numbers: NaN equals nothing. *)
Definition numEq (a b : option Z) : bool :=
  match a, b with
  | Some x, Some y => x =? y
  | _, _ => false
  end.

(** [d <= e] on dates: both sides become time values; false on NaN. *)
Definition leq (d e : JSDate) : bool :=
  match d, e with
  | Ms a, Ms b => a <=? b
  | _, _ => false
  end.

(** [d.setDate(d.getDate() + 1)]: the same local time on the next day. *)
Definition nextDay (d : JSDate) : JSDate :=
  match d with
  | Ms t => timeClip (t + msPerDay)
  | Invalid => Invalid
  end.

(** The comparison the program writes out three times:
    [a.getFullYear() === b.getFullYear() && a.getMonth() === b.getMonth()
     && a.getDate() === b.getDate()]. *)
Definition sameDay (a b : JSDate) : bool :=
  numEq (getFullYear a) (getFullYear b)
  && numEq (getMonth a) (getMonth b)
  && numEq (getDate a) (getDate b).

(** Number of times the body of
    [for (let d = new Date(start); d <= end; d.setDate(d.getDate() + 1))]
    runs. *)
Definition tripCount (start end_ : JSDate) : nat :=
  match start, end_ with
  | Ms s, Ms e => Z.to_nat ((e - s) / msPerDay + 1)
  | _, _ => O
  end.

Fixpoint forEachDay (n : nat) (d end_ : JSDate) : list JSDate :=
  match n with
  | O => []
  | S k => if leq d end_ then d :: forEachDay k (nextDay d) end_ else []
  end.

(** The dates pushed by that loop. *)
Definition daysFromTo (start end_ : JSDate) : list JSDate :=
  forEachDay (tripCount start end_) start end_.

(** Year, month and day of a valid date, for reading results. *)
Definition ymd (d : JSDate) : option (Z * Z * Z) :=
  match d with
  | Ms t => Some (civilFromDay (t / msPerDay))
  | Invalid => None
  end.

End Date.

(** ** Address city extractor *)

Module City.
Import JS.

Definition wordAt (c : option ascii) : bool :=
  match c with Some a => isWordChar a | None => false end.

(** [\b] between the characters [before] and [after]. *)
Definition wordBoundary (before after : option ascii) : bool :=
  xorb (wordAt before) (wordAt after).

(** [\d{5}] at the head of [s]. *)
Definition fiveDigits (s : string) : bool :=
  match s with
  | String a (String b (String c (String d (String e _)))) =>
      isDigit a && isDigit b && isDigit c && isDigit d && isDigit e
  | _ => false
  end.

(** [/\b[A-Z]{2}\b\s*\d{5}/] matched at the head of [s], the character
    before it being [before]. *)
Definition stateZipAt (before : option ascii) (s : string) : bool :=
  match s with
  | String a (String b r) =>
      wordBoundary before (Some a) && isUpper a && isUpper b
      && wordBoundary (Some b) (head r) && fiveDigits (trimStart r)
  | _ => false
  end.

Fixpoint stateZipFrom (before : option ascii) (s : string) : bool :=
  stateZipAt before s ||
  match s with
  | EmptyString => false
  | String c r => stateZipFrom (Some c) r
  end.

(** [/\b[A-Z]{2}\b\s*\d{5}/.test(part)]. *)
Definition stateZip (part : string) : bool := stateZipFrom None part.

(** [/^[A-Z]{2}$/.test(part)]. *)
Definition bareState (part : string) : bool :=
  match part with
  | String a (String b EmptyString) => isUpper a && isUpper b
  | _ => false
  end.

(** [/[A-Z]{2}\s*\d{5}/] matched at the head of [s]. *)
Definition looseStateZipAt (s : string) : bool :=
  match s with
  | String a (String b r) => isUpper a && isUpper b && fiveDigits (trimStart r)
  | _ => false
  end.

(** [/[A-Z]{2}\s*\d{5}/.test(part)]. *)
Fixpoint looseStateZip (part : string) : bool :=
  looseStateZipAt part ||
  match part with
  | EmptyString => false
  | String _ r => looseStateZip r
  end.

(** [part.match(/^\d+\s/)] is not null. *)
Definition streetNumber (part : string) : bool :=
  let '(ds, r) := spanDigits part in
  negb (isEmpty ds) &&
  match r with
  | String c _ => isWhiteSpace c
  | EmptyString => false
  end.

(** [cityPart && !cityPart.match(/^\d+\s/) && cityPart.length > 0]. *)
Definition cityLike (cityPart : string) : bool :=
  negb (isEmpty cityPart) && negb (streetNumber cityPart)
  && (0 <? Z.of_nat (String.length cityPart)).

(** The loop from the last part down to the first, on the parts in
    reverse order: [Some city] when it returns, [None] when it breaks or
    runs out. *)
Fixpoint scanFromEnd (reversed : list string) : option string :=
  match reversed with
  | [] => None
  | part :: before =>
      if stateZip part || bareState part then
        match before with
        | cityPart :: _ => if cityLike cityPart then Some cityPart else None
        | [] => None
        end
      else scanFromEnd before
  end.

(** The fallback on the last two parts. *)
Definition fallback (reversed : list string) : option string :=
  match reversed with
  | lastPart :: before :: _ =>
      if looseStateZip lastPart || bareState lastPart then
        let cityPart := trim before in
        if cityLike cityPart then Some cityPart else None
      else None
  | _ => None
  end.

Definition extractCityFromAddress (address : string) : string :=
  if isEmpty address || isEmpty (trim address) then "Unknown"
  else
    let parts := map trim (split "," address) in
    match scanFromEnd (rev parts) with
    | Some city => city
    | None =>
        match fallback (rev parts) with
        | Some city => city
        | None => "Unknown"
        end
    end.

End City.

(** ** Date-range grammar *)

Module Dates.
Import JS Date.

Definition monthMap : list (string * Z) :=
  [("jan", 0); ("feb", 1); ("mar", 2); ("apr", 3); ("may", 4); ("jun", 5);
   ("jul", 6); ("aug", 7); ("sep", 8); ("oct", 9); ("nov", 10); ("dec", 11)].

(** [monthMap[key]]; [None] is [undefined]. *)
Fixpoint lookup (key : string) (m : list (string * Z)) : option Z :=
  match m with
  | [] => None
  | (k, v) :: r => if String.eqb k key then Some v else lookup key r
  end.

(** [toLowerCase] on the letters A to Z, the only characters a month
    capture can hold. *)
Definition lowerLetter (c : ascii) : ascii :=
  if isUpper c then ascii_of_N (Z.to_N (code c + 32)) else c.

Fixpoint lowerLetters (s : string) : string :=
  match s with
  | EmptyString => EmptyString
  | String c r => String (lowerLetter c) (lowerLetters r)
  end.

(** The group [(jan|feb|mar|apr|may|jun|jul|aug|sep|oct|nov|dec)] under
    the [i] flag at the head of [s]: the capture and what follows. *)
Definition monthAt (s : string) : option (string * string) :=
  match s with
  | String a (String b (String c r)) =>
      let m := String a (String b (String c EmptyString)) in
      if existsb (fun kv => String.eqb (fst kv) (lowerLetters m)) monthMap
      then Some (m, r) else None
  | _ => None
  end.

(** [\s+(\d+)] at the head of [s]: the digits captured. *)
Definition spacesThenDigits (s : string) : option string :=
  match s with
  | String c _ =>
      if isWhiteSpace c then
        let '(ds, _) := spanDigits (trimStart s) in
        if isEmpty ds then None else Some ds
      else None
  | EmptyString => None
  end.

(** [/(jan|...|dec)\.?\s+(\d+)/i] at the head of [s]: captures 1 and 2. *)
Definition dateWithMonthAt (s : string) : option (string * string) :=
  match monthAt s with
  | Some (m, r) =>
      let r' := match r with String "." r1 => r1 | _ => r end in
      match spacesThenDigits r' with
      | Some ds => Some (m, ds)
      | None => None
      end
  | None => None
  end.

(** [/(jan|...|dec)\s+(\d+)/i] at the head of [s]. *)
Definition simpleDateAt (s : string) : option (string * string) :=
  match monthAt s with
  | Some (m, r) =>
      match spacesThenDigits r with
      | Some ds => Some (m, ds)
      | None => None
      end
  | None => None
  end.

(** [/(\d+)/] at the head of [s]. *)
Definition digitsAt (s : string) : option string :=
  let '(ds, _) := spanDigits s in
  if isEmpty ds then None else Some ds.

(** [s.match(re)]: the leftmost position where the pattern matches. *)
Fixpoint search {A : Type} (at_head : string -> option A) (s : string) : option A :=
  match at_head s with
  | Some r => Some r
  | None =>
      match s with
      | EmptyString => None
      | String _ r => search at_head r
      end
  end.

(** What both date readers do with a match. *)
Definition dateOfMatch (m : option (string * string)) : option JSDate :=
  match m with
  | Some (m1, m2) =>
      let monthStr := String.substring 0 3 (lowerLetters m1) in
      let month := lookup monthStr monthMap in
      let day := parseInt m2 in
      match month with
      | Some mo => Some (Date.make (Some 2025) (Some mo) (Some day))
      | None => None
      end
  | None => None
  end.

Definition parseDateWithMonth (dateStr : string) : option JSDate :=
  dateOfMatch (search dateWithMonthAt dateStr).

Definition parseSimpleDate (dateStr : string) : option JSDate :=
  dateOfMatch (search simpleDateAt dateStr).

(** The pipe branch of the loop body. *)
Definition parsePipe (range : string) : list JSDate :=
  match map trim (split "|" range) with
  | startStr :: endStr :: _ =>
      if negb (isEmpty startStr) && negb (isEmpty endStr) then
        match parseSimpleDate startStr, parseSimpleDate endStr with
        | Some startDate, Some endDate => daysFromTo startDate endDate
        | _, _ => []
        end
      else []
  | _ => []
  end.

(** The end of a dash range: a full date, or else a bare day in the
    month of the start date. *)
Definition parseEnd (startDate : option JSDate) (endStr : string) : option JSDate :=
  match parseDateWithMonth endStr with
  | Some endDate => Some endDate
  | None =>
      match search digitsAt endStr, startDate with
      | Some ds, Some sd =>
          Some (Date.make (Some 2025) (getMonth sd) (Some (parseInt ds)))
      | _, _ => None
      end
  end.

(** The dash branch of the loop body. *)
Definition parseDash (range : string) : list JSDate :=
  let dashPos := lastIndexOf "-" range in
  if 0 <? dashPos then
    let startStr := trim (JS.substring range 0 dashPos) in
    let endStr := trim (substringFrom range (dashPos + 1)) in
    let startDate := parseDateWithMonth startStr in
    let endDate := parseEnd startDate endStr in
    match startDate, endDate with
    | Some sd, Some ed => daysFromTo sd ed
    | _, _ => []
    end
  else [].

(** One turn of [for (const range of ranges)]: the dates it pushes. *)
Definition parseRange (range : string) : list JSDate :=
  if includes range "|" then parsePipe range
  else if includes range "-" then parseDash range
  else
    match parseDateWithMonth range with
    | Some singleDate => [singleDate]
    | None => []
    end.

Definition parseMarketDates (dateString : string) : list JSDate :=
  flat_map parseRange (map trim (split "," dateString)).

End Dates.

(** ** Market record builder *)

Module Csv.
Import JS.

Fixpoint parseCSVLine_from (line current : string) (insideQuotes : bool)
    (result : list string) : list string :=
  match line with
  | EmptyString => result ++ [current]
  | String char rest =>
      if Ascii.eqb char dquote then
        match rest with
        | String nextChar rest' =>
            if insideQuotes && Ascii.eqb nextChar dquote
            then parseCSVLine_from rest' (current ++ String dquote EmptyString)
                   insideQuotes result
            else parseCSVLine_from rest current (negb insideQuotes) result
        | EmptyString => parseCSVLine_from rest current (negb insideQuotes) result
        end
      else if Ascii.eqb char "," && negb insideQuotes then
        parseCSVLine_from rest EmptyString insideQuotes (result ++ [current])
      else parseCSVLine_from rest (current ++ String char EmptyString)
             insideQuotes result
  end.

Definition parseCSVLine (line : string) : list string :=
  parseCSVLine_from line EmptyString false [].

Record Market : Type := {
  name : string;
  lat : option JSNumber;
  lon : option JSNumber;
  region : string;
  city : string;
  zipCode : string;
  address : string;
  date : string;
  cost : string;
  website : string;
  description : string;
  dates : list Date.JSDate
}.

(** One turn of the loop over the data lines: the record pushed, if any. *)
Definition parseRow (line : string) : option Market :=
  let values := parseCSVLine line in
  if (Z.of_nat (List.length values) <? 3) || isEmpty (trim (nth 0 values EmptyString))
  then None
  else
    let address := fieldOr values 5 "" in
    let city := City.extractCityFromAddress address in
    let lat := orNull (parseFloat (nth 1 values EmptyString)) in
    let lon := orNull (parseFloat (nth 2 values EmptyString)) in
    let date := fieldOr values 6 "" in
    match lat, lon with
    | Some _, Some _ =>
        Some {| name := fieldOr values 0 "";
                lat := lat;
                lon := lon;
                region := fieldOr values 3 "Unknown";
                city := city;
                zipCode := fieldOr values 4 "";
                address := address;
                date := date;
                cost := fieldOr values 7 "Free";
                website := fieldOr values 8 "";
                description := fieldOr values 9 "";
                dates := Dates.parseMarketDates date |}
    | _, _ => None
    end.

Definition optionToList {A : Type} (o : option A) : list A :=
  match o with Some a => [a] | None => [] end.

Definition parseCSV (csv : string) : list Market :=
  let lines := split newline (trim csv) in
  if Z.of_nat (List.length lines) <? 2 then []
  else flat_map (fun line => optionToList (parseRow line)) (tl lines).

End Csv.

(** ** Catalogue: session state, filters and sort *)

Module Filters.
Record t : Type := {
  search : string;
  city : string;
  dateFilter : string
}.
End Filters.

Module Catalog.
Import JS Date.

Definition Market := Csv.Market.

(** The fields of [state] the queries read or write; [None] is [null]. *)
Record State : Type := {
  markets : list Market;
  filteredMarkets : list Market;
  sortColumn : string;
  sortAscending : bool;
  currentFilters : Filters.t;
  today : JSDate;
  tomorrow : JSDate;
  weekendStart : option JSDate;
  weekendEnd : option JSDate
}.

(** [state] as the script creates it when the clock ([Date.now()]) reads
    [now], in [zone]. *)
Definition initialState (zone : Zone) (now : Z) : State :=
  {| markets := [];
     filteredMarkets := [];
     sortColumn := "name";
     sortAscending := true;
     currentFilters := {| Filters.search := ""; Filters.city := ""; Filters.dateFilter := "" |};
     today := ofTime zone (Some now);
     tomorrow := ofTime zone (Some (now + 86400000));
     weekendStart := None;
     weekendEnd := None |}.

Definition setWeekend (st : State) (ws we : JSDate) : State :=
  {| markets := markets st;
     filteredMarkets := filteredMarkets st;
     sortColumn := sortColumn st;
     sortAscending := sortAscending st;
     currentFilters := currentFilters st;
     today := today st;
     tomorrow := tomorrow st;
     weekendStart := Some ws;
     weekendEnd := Some we |}.

Definition setFilteredMarkets (st : State) (ms : list Market) : State :=
  {| markets := markets st;
     filteredMarkets := ms;
     sortColumn := sortColumn st;
     sortAscending := sortAscending st;
     currentFilters := currentFilters st;
     today := today st;
     tomorrow := tomorrow st;
     weekendStart := weekendStart st;
     weekendEnd := weekendEnd st |}.

(** [(6 - dayOfWeek + 7) % 7 || 7]. *)
Definition daysUntilSaturday (dayOfWeek : option Z) : option Z :=
  match dayOfWeek with
  | Some dow => let r := Z.rem (6 - dow + 7) 7 in Some (if r =? 0 then 7 else r)
  | None => Some 7
  end.

Definition plus (a b : option Z) : option Z :=
  match a, b with
  | Some x, Some y => Some (x + y)
  | _, _ => None
  end.

Definition times (a b : option Z) : option Z :=
  match a, b with
  | Some x, Some y => Some (x * y)
  | _, _ => None
  end.

(** [calculateWeekendDates()], run in [zone] when the clock reads [now].
    [todayTime] is [today.getTime()] and [startTime] is
    [state.weekendStart.getTime()]: the sums are sums of time values, and
    the dates are what these time values are in [zone]. *)
Definition calculateWeekendDates (zone : Zone) (now : Z) (st : State) : State :=
  let todayTime := clip (Some now) in
  let today := ofTime zone todayTime in
  let dayOfWeek := getDay today in
  let startTime :=
    clip (plus todayTime (times (daysUntilSaturday dayOfWeek) (Some 86400000))) in
  let endTime := plus startTime (Some 86400000) in
  setWeekend st (ofTime zone startTime) (ofTime zone endTime).

(** [new Date(x)] and [d <= x] for a field that may still be [null]:
    both read [null] as time 0. *)
Definition orEpoch (d : option JSDate) : JSDate :=
  match d with Some x => x | None => Ms 0 end.

Definition marketIsOpenOnDate (st : State) (market : Market) (dateFilter : string)
    : Completion bool :=
  if Nat.eqb (List.length (Csv.dates market)) 0 then Normal true
  else
    (* the final [market.dates.some(...)], [targetDate] possibly undefined *)
    let onTarget (targetDate : option JSDate) :=
      JS.some (fun d =>
                 match targetDate with
                 | Some t => Normal (sameDay d t)
                 | None => Throw
                 end) (Csv.dates market) in
    if String.eqb dateFilter "today" then
      onTarget (Some (make (getFullYear (today st)) (getMonth (today st))
                        (getDate (today st))))
    else if String.eqb dateFilter "tomorrow" then
      onTarget (Some (make (getFullYear (tomorrow st)) (getMonth (tomorrow st))
                        (getDate (tomorrow st))))
    else if String.eqb dateFilter "weekend" then
      let dates := daysFromTo (orEpoch (weekendStart st)) (orEpoch (weekendEnd st)) in
      Normal (existsb (fun d => existsb (fun md => sameDay md d) (Csv.dates market)) dates)
    else onTarget None.

Section Queries.

(** [String.prototype.toLowerCase], which the queries apply to free
    text; it is left unspecified. *)
Variable toLowerCase : string -> string.

Definition matchesSearch (st : State) (market : Market) : bool :=
  let needle := toLowerCase (Filters.search (currentFilters st)) in
  includes (toLowerCase (Csv.name market)) needle
  || includes (toLowerCase (Csv.address market)) needle
  || includes (toLowerCase (Csv.description market)) needle.

Definition matchesCity (st : State) (market : Market) : bool :=
  isEmpty (Filters.city (currentFilters st))
  || String.eqb (Csv.city market) (Filters.city (currentFilters st)).

Definition matchesDate (st : State) (market : Market) : Completion bool :=
  if isEmpty (Filters.dateFilter (currentFilters st)) then Normal true
  else marketIsOpenOnDate st market (Filters.dateFilter (currentFilters st)).

(** The callback of [state.markets.filter]. *)
Definition keeps (st : State) (market : Market) : Completion bool :=
  let bySearch := matchesSearch st market in
  let byCity := matchesCity st market in
  byDate <- matchesDate st market ;;
  Normal (bySearch && byCity && byDate).

(** The key the comparator reads for a sort column; [None] is the
    [default] case. *)
Definition sortKey (column : string) (m : Market) : option string :=
  if String.eqb column "name" then Some (toLowerCase (Csv.name m))
  else if String.eqb column "date" then Some (toLowerCase (Csv.date m))
  else if String.eqb column "city" then Some (toLowerCase (Csv.city m))
  else None.

(** The comparator passed to [sort]. *)
Definition compareMarkets (st : State) (a b : Market) : Z :=
  match sortKey (sortColumn st) a, sortKey (sortColumn st) b with
  | Some aVal, Some bVal =>
      if String.ltb aVal bVal then (if sortAscending st then -1 else 1)
      else if String.ltb bVal aVal then (if sortAscending st then 1 else -1)
      else 0
  | _, _ => 0
  end.

Definition sortFilteredMarkets (st : State) : State :=
  setFilteredMarkets st (JS.sort (compareMarkets st) (filteredMarkets st)).

Definition applyFilters (st : State) : Completion State :=
  kept <- JS.filter (keeps st) (markets st) ;;
  Normal (sortFilteredMarkets (setFilteredMarkets st kept)).

End Queries.

End Catalog.

(** ** Vocabulary of the statements *)

(** [a] occurs somewhere before [b] in [l]. *)
Definition before {A : Type} (a b : A) (l : list A) : Prop :=
  exists l1 l2 l3, l = (l1 ++ a :: l2 ++ b :: l3)%list.

(** The date-filter kinds the page can set: empty, or one of its three
    quick-filter buttons. *)
Definition quickFilters : list string := ["today"; "tomorrow"; "weekend"].
Definition knownKinds : list string := "" :: quickFilters.

(** A record passes all three filters of [applyFilters]. *)
Definition passes (toLowerCase : string -> string) (st : Catalog.State)
    (m : Catalog.Market) : bool :=
  match Catalog.keeps toLowerCase st m with
  | JS.Normal b => b
  | JS.Throw => false
  end.

(** Two sort keys are the same (both absent in the [default] case). *)
Definition sameKey (k1 k2 : option string) : bool :=
  match k1, k2 with
  | Some a, Some b => String.eqb a b
  | None, None => true
  | _, _ => false
  end.

(** Every character of [s] satisfies [p]. *)
Fixpoint forallChars (p : ascii -> bool) (s : string) : bool :=
  match s with
  | EmptyString => true
  | String c r => p c && forallChars p r
  end.

(** A non-empty string of decimal digits. *)
Definition numeral (s : string) : bool :=
  negb (JS.isEmpty s) && forallChars JS.isDigit s.

(** Length of month [month] (0 = January) in 2025. *)
Definition daysInMonth (month : Z) : Z :=
  nth (Z.to_nat month) [31; 28; 31; 30; 31; 30; 31; 31; 30; 31; 30; 31] 0.

Definition dayInRange (run : option Z) : bool :=
  match run with
  | Some n => (1 <=? n) && (n <=? 31)
  | None => true
  end.

Definition runValue (run : option Z) : Z :=
  match run with Some n => n | None => 0 end.

(** Every maximal run of decimal digits of [s] reads as a number from 1
    to 31; [run] is the value of the run that the head of [s] continues,
    if any. *)
Fixpoint dayRunsInRange (run : option Z) (s : string) : bool :=
  match s with
  | EmptyString => dayInRange run
  | String c r =>
      if JS.isDigit c
      then dayRunsInRange (Some (10 * runValue run + (JS.code c - 48))) r
      else dayInRange run && dayRunsInRange None r
  end.

Definition dayNumbersInRange (s : string) : bool := dayRunsInRange None s.

(** The invariant of a leftmost search: the text after the digits at the
    head, if any, has all its day numbers in range. *)
Definition tailInRange (s : string) : Prop :=
  dayNumbersInRange (snd (JS.spanDigits s)) = true.

(** What a month-and-day match denotes: a day from 1 to 31 of a month. *)
Definition monthAndDay (x : string * string) : Prop :=
  exists mo,
    Dates.lookup (String.substring 0 3 (Dates.lowerLetters (fst x))) Dates.monthMap
    = Some mo
    /\ 0 <= mo <= 11 /\ 1 <= JS.parseInt (snd x) <= 31.

(** The fragment [<Mon>. <startDay>-<endDay>], with or without the period
    after the month. *)
Definition sameMonthRange (mon : string) (period : bool) (startDay endDay : string)
    : string :=
  mon ++ (if period then ". " else " ") ++ startDay ++ "-" ++ endDay.

(** The left side of that fragment. *)
Definition leftSide (mon : string) (period : bool) (startDay : string) : string :=
  mon ++ (if period then ". " else " ") ++ startDay.

(** [mon] abbreviates month [mo], in any letter case. *)
Definition abbreviates (mon : string) (mo : Z) : Prop :=
  Dates.lookup (Dates.lowerLetters mon) Dates.monthMap = Some mo.

(** A letter of a month abbreviation. *)
Definition monthLetter (c : ascii) : bool := JS.isLower (Dates.lowerLetter c).

(** A valid date of the year 2025: 1 January 2025 is day 20089. *)
Definition in2025 (d : Date.JSDate) : Prop :=
  exists t, d = Date.Ms t
            /\ 20089 * Date.msPerDay <= t < 20454 * Date.msPerDay.

(** ** A small session, for the worked examples *)

Module Sample.
Import JS.

(** Noon of Saturday 13 December 2025, local time. *)
Definition noonDec13 : Z := 20435 * 86400000 + 43200000.

Definition marketA : Csv.Market :=
  {| Csv.name := "Cherry Creek Holiday Market";
     Csv.lat := Some (Decimal false 397170 (-4));
     Csv.lon := Some (Decimal true 1049540 (-4));
     Csv.region := "Metro";
     Csv.city := "Denver";
     Csv.zipCode := "80206";
     Csv.address := "2500 E 1st Ave, Denver, CO 80206";
     Csv.date := "Dec. 13";
     Csv.cost := "Free";
     Csv.website := "";
     Csv.description := "";
     Csv.dates := Dates.parseMarketDates "Dec. 13" |}.

Definition marketB : Csv.Market :=
  {| Csv.name := "Cherry Creek Holiday Market";
     Csv.lat := Some (Decimal false 400150 (-4));
     Csv.lon := Some (Decimal true 1052705 (-4));
     Csv.region := "Front Range";
     Csv.city := "Boulder";
     Csv.zipCode := "80302";
     Csv.address := "1303 Pearl St, Boulder, CO 80302";
     Csv.date := "";
     Csv.cost := "Free";
     Csv.website := "";
     Csv.description := "";
     Csv.dates := [] |}.

Definition session (cityFilter kind : string) : Catalog.State :=
  {| Catalog.markets := [marketA; marketB];
     Catalog.filteredMarkets := [];
     Catalog.sortColumn := "name";
     Catalog.sortAscending := true;
     Catalog.currentFilters :=
       {| Filters.search := ""; Filters.city := cityFilter; Filters.dateFilter := kind |};
     Catalog.today := Date.Ms noonDec13;
     Catalog.tomorrow := Date.Ms (noonDec13 + 86400000);
     Catalog.weekendStart := None;
     Catalog.weekendEnd := None |}.

(** A record with the date text [date]. *)
Definition heldOn (date : string) : Csv.Market :=
  {| Csv.name := "Cherry Creek Holiday Market";
     Csv.lat := Some (Decimal false 397170 (-4));
     Csv.lon := Some (Decimal true 1049540 (-4));
     Csv.region := "Metro";
     Csv.city := "Denver";
     Csv.zipCode := "80206";
     Csv.address := "2500 E 1st Ave, Denver, CO 80206";
     Csv.date := date;
     Csv.cost := "Free";
     Csv.website := "";
     Csv.description := "";
     Csv.dates := Dates.parseMarketDates date |}.

(** Local time in Denver in 2025: daylight time (UTC-6) from 9 March,
    09:00 UTC, to 2 November, 08:00 UTC, and standard time (UTC-7)
    otherwise. *)
Definition denver : Date.Zone :=
  fun t =>
    if (20156 * 86400000 + 9 * 3600000 <=? t)
       && (t <? 20394 * 86400000 + 8 * 3600000)
    then - (6 * 3600000)
    else - (7 * 3600000).

(** Saturday 1 November 2025, 00:30 in Denver (06:30 UTC). *)
Definition satNov1 : Z := 20393 * 86400000 + 6 * 3600000 + 30 * 60000.

(** Wednesday 29 October 2025, noon in Denver (18:00 UTC). *)
Definition wedOct29 : Z := 20390 * 86400000 + 18 * 3600000.

(** Saturday 13 December 2025, noon in Denver (19:00 UTC). *)
Definition denverNoonDec13 : Z := noonDec13 + 7 * 3600000.

(** The session after [calculateWeekendDates] has run in Denver when the
    clock read [now]. *)
Definition denverSession (now : Z) : Catalog.State :=
  Catalog.calculateWeekendDates denver now (session "" "weekend").

(** A sheet whose only data row lies on the equator. *)
Definition equatorRow : string := "Equator Market,0,-105.5".
Definition equatorCsv : string :=
  "Name,Latitude,Longitude" ++ String newline equatorRow.

End Sample.

(** ** The rest of the page script

    The listeners are followed as far as they read and write [state].
    The document is taken to hold the elements the script looks up, so
    that the calls that only draw (markers, table rows, option elements)
    complete; they write none of the fields modelled here. *)

Module Page.
Import JS Date Catalog.

(** [(jan|...|dec)] under the [i] flag at the head of [s]: the capture. *)
Definition monthNameAt (s : string) : option string :=
  match Dates.monthAt s with
  | Some (m, _) => Some m
  | None => None
  end.

(** [getMonthFromString(dateStr, monthMap)]; [None] is [null]. *)
Definition getMonthFromString (dateStr : string) : option Z :=
  match Dates.search monthNameAt dateStr with
  | Some m1 =>
      let monthStr := String.substring 0 3 (Dates.lowerLetters m1) in
      Dates.lookup monthStr Dates.monthMap
  | None => None
  end.

(** [[...new Set(xs)]]: the first occurrence of each value, in order;
    [seen] holds the values already in the set. *)
Fixpoint distinct (seen xs : list string) : list string :=
  match xs with
  | [] => []
  | x :: r =>
      if existsb (String.eqb x) seen then distinct seen r
      else x :: distinct (x :: seen) r
  end.

(** The order of [sort()] without a comparator: strings by code units. *)
Definition defaultCompare (a b : string) : Z :=
  if String.ltb a b then -1 else if String.ltb b a then 1 else 0.

(** [populateRegionFilter()]: the option values it appends to the city
    control, in order. *)
Definition populateRegionFilter (st : State) : list string :=
  JS.sort defaultCompare (distinct [] (map Csv.city (markets st))).

Definition setMarkets (st : State) (ms : list Market) : State :=
  {| markets := ms;
     filteredMarkets := filteredMarkets st;
     sortColumn := sortColumn st;
     sortAscending := sortAscending st;
     currentFilters := currentFilters st;
     today := today st;
     tomorrow := tomorrow st;
     weekendStart := weekendStart st;
     weekendEnd := weekendEnd st |}.

Definition setFilters (st : State) (f : Filters.t) : State :=
  {| markets := markets st;
     filteredMarkets := filteredMarkets st;
     sortColumn := sortColumn st;
     sortAscending := sortAscending st;
     currentFilters := f;
     today := today st;
     tomorrow := tomorrow st;
     weekendStart := weekendStart st;
     weekendEnd := weekendEnd st |}.

Definition setSort (st : State) (column : string) (ascending : bool) : State :=
  {| markets := markets st;
     filteredMarkets := filteredMarkets st;
     sortColumn := column;
     sortAscending := ascending;
     currentFilters := currentFilters st;
     today := today st;
     tomorrow := tomorrow st;
     weekendStart := weekendStart st;
     weekendEnd := weekendEnd st |}.

Definition setSearch (st : State) (text : string) : State :=
  setFilters st {| Filters.search := text;
                   Filters.city := Filters.city (currentFilters st);
                   Filters.dateFilter := Filters.dateFilter (currentFilters st) |}.

Definition setCity (st : State) (city : string) : State :=
  setFilters st {| Filters.search := Filters.search (currentFilters st);
                   Filters.city := city;
                   Filters.dateFilter := Filters.dateFilter (currentFilters st) |}.

Definition setDateFilter (st : State) (kind : string) : State :=
  setFilters st {| Filters.search := Filters.search (currentFilters st);
                   Filters.city := Filters.city (currentFilters st);
                   Filters.dateFilter := kind |}.

(** The test of the response body in [fetchAndProcessData]:
    [!csv || csv.includes('<!DOCTYPE') || csv.includes('<html')]. *)
Definition looksLikeHtml (csv : string) : bool :=
  isEmpty csv || includes csv "<!DOCTYPE" || includes csv "<html".

(** What the listeners react to: the response of the fetch, and the
    controls wired by [setupEventListeners]. *)
Inductive Event : Type :=
| DataReceived (responseOk : bool) (body : string)
| SearchInput (text : string)
| CityChange (city : string)
| HeaderClick (column : string)
| TodayClick
| TomorrowClick
| WeekendClick.

Section Handlers.

Variable toLowerCase : string -> string.

(** [updateDisplay()], as far as the state goes: it recomputes the view
    and throws when [applyFilters] does. *)
Definition updateDisplay (st : State) : Completion State :=
  applyFilters toLowerCase st.

(** [fetchAndProcessData()] once the response has arrived: [responseOk] is
    [response.ok] and [body] its text. Every exception is caught inside
    the function; [state.markets] is assigned before the view is
    recomputed. *)
Definition fetchAndProcessData (responseOk : bool) (body : string) (st : State)
    : State :=
  if negb responseOk then st
  else if looksLikeHtml body then st
  else
    let st1 := setMarkets st (Csv.parseCSV body) in
    match updateDisplay st1 with
    | Normal st2 => st2
    | Throw => st1
    end.

(** The assignments of [toggleQuickFilter(filter, button)]. *)
Definition toggledFilter (filter : string) (st : State) : State :=
  if String.eqb (Filters.dateFilter (currentFilters st)) filter
  then setDateFilter st ""
  else setDateFilter st filter.

Definition toggleQuickFilter (filter : string) (st : State) : Completion State :=
  updateDisplay (toggledFilter filter st).

(** The assignments of the click listener of a sortable header. *)
Definition sortedBy (column : string) (st : State) : State :=
  if String.eqb (sortColumn st) column
  then setSort st (sortColumn st) (negb (sortAscending st))
  else setSort st column true.

(** The state a listener has written when it reaches [updateDisplay]. *)
Definition assigned (ev : Event) (st : State) : State :=
  match ev with
  | DataReceived _ _ => st
  | SearchInput text => setSearch st text
  | CityChange city => setCity st city
  | HeaderClick column => sortedBy column st
  | TodayClick => toggledFilter "today" st
  | TomorrowClick => toggledFilter "tomorrow" st
  | WeekendClick => toggledFilter "weekend" st
  end.

(** One listener, run to its end. *)
Definition handle (ev : Event) (st : State) : Completion State :=
  match ev with
  | DataReceived responseOk body => Normal (fetchAndProcessData responseOk body st)
  | _ => updateDisplay (assigned ev st)
  end.

(** The listeners run one after the other; an exception that escapes a
    listener leaves the state as the listener had written it. *)
Fixpoint dispatch (evs : list Event) (st : State) : State :=
  match evs with
  | [] => st
  | ev :: rest =>
      match handle ev st with
      | Normal st' => dispatch rest st'
      | Throw => dispatch rest (assigned ev st)
      end
  end.

(** No listener of the run lets an exception escape. *)
Fixpoint completes (evs : list Event) (st : State) : bool :=
  match evs with
  | [] => true
  | ev :: rest =>
      match handle ev st with
      | Normal st' => completes rest st'
      | Throw => false
      end
  end.

End Handlers.

(** The state when the listeners are installed: created when the clock
    read [loaded], weekend computed when it read [ready]. *)
Definition startup (zone : Zone) (loaded ready : Z) : State :=
  calculateWeekendDates zone ready (initialState zone loaded).

End Page.

(** ** The calendar of the details panel *)

Module Calendar.
Import JS Date Catalog.

Definition minus (a b : option Z) : option Z :=
  match a, b with
  | Some x, Some y => Some (x - y)
  | _, _ => None
  end.

(** [d.setDate(date)]: the day of the month is replaced, the local time
    of day is kept. *)
Definition setDate (d : JSDate) (date : option Z) : JSDate :=
  match d, date with
  | Ms t, Some dt =>
      let '(y, m, _) := civilFromDay (t / msPerDay) in
      timeClip (makeDay y m dt * msPerDay + t mod msPerDay)
  | _, _ => Invalid
  end.

(** [a.toDateString() === b.toDateString()]: the strings spell weekday,
    month, day and year, and [Invalid Date] for an invalid date. *)
Definition sameDateString (a b : JSDate) : bool :=
  match a, b with
  | Ms s, Ms t =>
      let '(y1, m1, d1) := civilFromDay (s / msPerDay) in
      let '(y2, m2, d2) := civilFromDay (t / msPerDay) in
      (y1 =? y2) && (m1 =? m2) && (d1 =? d2)
  | Invalid, Invalid => true
  | _, _ => false
  end.

(** A [calendar-day] element: its text and its classes, in order. *)
Record Cell : Type := {
  label : option Z;
  classes : list string
}.

(** The dates the loop
    [while (currentDate <= monthEnd || currentDate.getDay() !== 0)]
    visits; [None] when [fuel] turns do not reach its end. *)
Fixpoint gridDays (fuel : nat) (currentDate monthEnd : JSDate)
    : option (list JSDate) :=
  match fuel with
  | O => None
  | S k =>
      if leq currentDate monthEnd || negb (numEq (getDay currentDate) (Some 0))
      then
        match gridDays k (nextDay currentDate) monthEnd with
        | Some rest => Some (currentDate :: rest)
        | None => None
        end
      else Some []
  end.

(** The body of that loop: the element added for [currentDate]. *)
Definition cell (st : State) (month : Z) (marketDates : list JSDate)
    (currentDate : JSDate) : Cell :=
  let otherMonth := negb (numEq (getMonth currentDate) (Some month)) in
  let isMarketDate := existsb (fun d => sameDay d currentDate) marketDates in
  let isToday := sameDateString currentDate (today st) in
  {| label := getDate currentDate;
     classes := ((if otherMonth then ["other-month"] else [])
                 ++ (if isMarketDate then ["highlight"] else [])
                 ++ (if isToday then ["today"] else []))%list |}.

Definition firstDay (month : Z) : JSDate := make (Some 2025) (Some month) (Some 1).

Definition startDate (month : Z) : JSDate :=
  setDate (firstDay month) (minus (getDate (firstDay month)) (getDay (firstDay month))).

Definition monthEnd (month : Z) : JSDate :=
  make (Some 2025) (Some (month + 1)) (Some 0).

(** [generateMonthCalendar(month, marketDates)]: the day elements of the
    grid, in order. *)
Definition generateMonthCalendar (fuel : nat) (st : State) (month : Z)
    (marketDates : list JSDate) : option (list Cell) :=
  match gridDays fuel (startDate month) (monthEnd month) with
  | Some days => Some (map (cell st month marketDates) days)
  | None => None
  end.

End Calendar.

(** ** Vocabulary of the further statements *)

(** A field with its double quotes doubled. *)
Fixpoint doubleQuotes (s : string) : string :=
  match s with
  | EmptyString => EmptyString
  | String c r =>
      if Ascii.eqb c JS.dquote
      then String JS.dquote (String JS.dquote (doubleQuotes r))
      else String c (doubleQuotes r)
  end.

(** A field written between double quotes. *)
Definition quoted (field : string) : string :=
  String JS.dquote (doubleQuotes field ++ String JS.dquote EmptyString).

Fixpoint joinWith (sep : string) (xs : list string) : string :=
  match xs with
  | [] => EmptyString
  | x :: r =>
      match r with
      | [] => x
      | _ :: _ => x ++ sep ++ joinWith sep r
      end
  end.

(** A line of a sheet with every field quoted. *)
Definition csvLine (fields : list string) : string :=
  joinWith "," (map quoted fields).

(** No character of [s] is [c]. *)
Definition without (c : ascii) (s : string) : bool :=
  forallChars (fun a => negb (Ascii.eqb a c)) s.

(** No character of [s] is a decimal digit. *)
Definition noDigits (s : string) : bool :=
  forallChars (fun a => negb (JS.isDigit a)) s.



(** Days [first], [first + 1], ... ([count] of them) of month [mo] of
    2025, as the triples [Date.ymd] returns. *)
Definition daysOfMonth (mo first : Z) (count : nat) : list (option (Z * Z * Z)) :=
  map (fun i => Some (2025, mo, first + Z.of_nat i)) (seq 0 count).

(** A record as the record builder leaves it. *)
Definition wellFormed (m : Csv.Market) : Prop :=
  Csv.name m <> ""
  /\ (exists x, Csv.lat m = Some x /\ JS.truthy x = true)
  /\ (exists y, Csv.lon m = Some y /\ JS.truthy y = true)
  /\ Csv.region m <> ""
  /\ Csv.cost m <> ""
  /\ Csv.city m = City.extractCityFromAddress (Csv.address m)
  /\ Csv.city m <> ""
  /\ Csv.dates m = Dates.parseMarketDates (Csv.date m).

(** The view is what the filters and the sort order make of the records,
    and the date filter is one the page can set. *)
Definition inSync (toLowerCase : string -> string) (st : Catalog.State) : Prop :=
  In (Filters.dateFilter (Catalog.currentFilters st)) knownKinds
  /\ Catalog.filteredMarkets st
     = JS.sort (Catalog.compareMarkets toLowerCase st)
         (List.filter (passes toLowerCase st) (Catalog.markets st)).

(** The dates of [days] that lie in month [month]. *)
Definition inMonth (month : Z) (days : list Date.JSDate) : list Date.JSDate :=
  List.filter (fun d => Date.numEq (Date.getMonth d) (Some month)) days.

(** ** Proof steps on boolean tests *)

(** Turn the boolean comparisons in the hypotheses into propositions. *)
Ltac bool_to_prop :=
  repeat match goal with
         | H : _ && _ = true |- _ => apply andb_true_iff in H; destruct H
         | H : _ || _ = true |- _ => apply orb_true_iff in H
         | H : (_ <=? _) = true |- _ => apply Z.leb_le in H
         | H : (_ =? _) = true |- _ => apply Z.eqb_eq in H
         | H : (_ <=? _) = false |- _ => apply Z.leb_gt in H
         end.

(** The same, splitting the disjunctions into cases. *)
Ltac bool_cases :=
  repeat match goal with
         | H : _ && _ = true |- _ => apply andb_true_iff in H; destruct H
         | H : _ || _ = true |- _ => apply orb_true_iff in H; destruct H
         | H : (_ <=? _) = true |- _ => apply Z.leb_le in H
         | H : (_ =? _) = true |- _ => apply Z.eqb_eq in H
         | H : (_ <=? _) = false |- _ => apply Z.leb_gt in H
         end.

(** * Properties *)

(** ** Callbacks that do not throw *)

Section Completions.
Import JS.
Context {A : Type}.

Lemma some_total (f : A -> bool) (xs : list A) :
  JS.some (fun x => Normal (f x)) xs = Normal (existsb f xs).
Proof.
  induction xs as [|x r IH]; simpl; [reflexivity|].
  destruct (f x); simpl; [reflexivity | exact IH].
Qed.

Lemma some_throws (xs : list A) :
  xs <> [] -> JS.some (fun _ : A => @Throw bool) xs = Throw.
Proof.
  destruct xs as [|x r]; [congruence | reflexivity].
Qed.

Lemma filter_total (f : A -> Completion bool) (g : A -> bool) (xs : list A) :
  (forall x, In x xs -> f x = Normal (g x)) ->
  JS.filter f xs = Normal (List.filter g xs).
Proof.
  induction xs as [|x r IH]; intros Hf; simpl; [reflexivity|].
  rewrite (Hf x (or_introl eq_refl)); simpl.
  rewrite IH by (intros y Hy; apply Hf; right; exact Hy).
  simpl. destruct (g x); reflexivity.
Qed.

End Completions.

(** ** The sort *)

Section Sorting.
Import JS.
Context {A : Type}.
Variable cmp : A -> A -> Z.

Lemma insertSorted_perm (x : A) (l : list A) :
  Permutation (x :: l) (insertSorted cmp x l).
Proof.
  induction l as [|y r IH]; simpl; [apply Permutation_refl|].
  destruct (cmp x y <=? 0); [apply Permutation_refl|].
  eapply perm_trans; [apply perm_swap|].
  apply perm_skip, IH.
Qed.

Lemma sort_perm (l : list A) : Permutation l (JS.sort cmp l).
Proof.
  induction l as [|x r IH]; simpl; [constructor|].
  eapply perm_trans; [apply perm_skip, IH | apply insertSorted_perm].
Qed.

Lemma sort_In (l : list A) (x : A) : In x (JS.sort cmp l) <-> In x l.
Proof.
  split; apply Permutation_in;
    [apply Permutation_sym|]; apply sort_perm.
Qed.

(** Inserting [x] only moves it past elements that compare strictly
    below it; a class [p] of elements that all tie with [x] is therefore
    left in its order. *)
Lemma insertSorted_class (p : A -> bool) (x : A) (l : list A) :
  p x = true ->
  (forall y, p y = true -> cmp x y <= 0) ->
  List.filter p (insertSorted cmp x l) = x :: List.filter p l.
Proof.
  intros Hx Hties.
  induction l as [|y r IH]; simpl.
  - rewrite Hx. reflexivity.
  - destruct (cmp x y <=? 0) eqn:Hc; simpl.
    + rewrite Hx. reflexivity.
    + destruct (p y) eqn:Hy.
      * apply Hties in Hy. apply Z.leb_gt in Hc. lia.
      * exact IH.
Qed.

Lemma insertSorted_other (p : A -> bool) (x : A) (l : list A) :
  p x = false ->
  List.filter p (insertSorted cmp x l) = List.filter p l.
Proof.
  intros Hx.
  induction l as [|y r IH]; simpl.
  - rewrite Hx. reflexivity.
  - destruct (cmp x y <=? 0); simpl.
    + rewrite Hx. reflexivity.
    + rewrite IH. reflexivity.
Qed.

(** Stability: a class of elements that tie pairwise keeps its order. *)
Lemma sort_stable (p : A -> bool) (l : list A) :
  (forall x y, p x = true -> p y = true -> cmp x y <= 0) ->
  List.filter p (JS.sort cmp l) = List.filter p l.
Proof.
  intros Hties.
  induction l as [|x r IH]; simpl; [reflexivity|].
  destruct (p x) eqn:Hx.
  - rewrite insertSorted_class by auto. rewrite IH. reflexivity.
  - rewrite insertSorted_other by exact Hx. exact IH.
Qed.

(** The result is in order, for a comparator that never puts two
    elements each strictly after the other. *)
Lemma insertSorted_sorted (x : A) (l : list A) :
  (forall a b, 0 < cmp a b -> cmp b a <= 0) ->
  Sorted (fun a b => cmp a b <= 0) l ->
  Sorted (fun a b => cmp a b <= 0) (insertSorted cmp x l).
Proof.
  intros Hanti. induction l as [|y r IH]; intros Hs; simpl.
  - repeat constructor.
  - destruct (cmp x y <=? 0) eqn:E.
    + apply Z.leb_le in E. constructor; [exact Hs | constructor; exact E].
    + apply Z.leb_gt in E. inversion Hs as [|? ? Hr Hhd]; subst.
      constructor; [apply IH, Hr|].
      destruct r as [|z r']; simpl.
      * constructor. apply Hanti, E.
      * destruct (cmp x z <=? 0).
        -- constructor. apply Hanti, E.
        -- inversion Hhd; subst. constructor. assumption.
Qed.

Lemma sort_sorted (l : list A) :
  (forall a b, 0 < cmp a b -> cmp b a <= 0) ->
  Sorted (fun a b => cmp a b <= 0) (JS.sort cmp l).
Proof.
  intros Hanti. induction l as [|x r IH]; simpl; [constructor|].
  apply insertSorted_sorted; assumption.
Qed.

End Sorting.

Lemma before_filter {A : Type} (p : A -> bool) (a b : A) (l : list A) :
  p a = true -> p b = true -> before a b l -> before a b (List.filter p l).
Proof.
  intros Ha Hb (l1 & l2 & l3 & ->).
  exists (List.filter p l1), (List.filter p l2), (List.filter p l3).
  rewrite filter_app. simpl. rewrite Ha, filter_app. simpl. rewrite Hb.
  reflexivity.
Qed.

Lemma before_cons {A : Type} (a b x : A) (l : list A) :
  before a b l -> before a b (x :: l).
Proof.
  intros (l1 & l2 & l3 & ->). exists (x :: l1), l2, l3. reflexivity.
Qed.

Lemma filter_before {A : Type} (p : A -> bool) (a b : A) (l : list A) :
  before a b (List.filter p l) -> before a b l.
Proof.
  induction l as [|x r IH]; simpl; intros H.
  - destruct H as (l1 & l2 & l3 & H). destruct l1; discriminate.
  - destruct (p x) eqn:Hx.
    + destruct H as (l1 & l2 & l3 & H).
      destruct l1 as [|z l1]; simpl in H.
      * injection H as -> Hr.
        assert (Hb : In b (List.filter p r)).
        { rewrite Hr. apply in_or_app. right. left. reflexivity. }
        apply filter_In in Hb. destruct Hb as [Hb _].
        apply in_split in Hb. destruct Hb as (m1 & m2 & ->).
        exists [], m1, m2. reflexivity.
      * injection H as -> Hr.
        apply before_cons, IH. exists l1, l2, l3. exact Hr.
    + apply before_cons, IH, H.
Qed.

(** ** Date filter *)

Section DateFilter.
Import JS Date Catalog.

Lemma timeClip_valid (t : Z) : - maxTime <= t <= maxTime -> timeClip t = Ms t.
Proof.
  intros H. unfold timeClip.
  replace (Z.abs t <=? maxTime) with true; [reflexivity|].
  symmetry. apply Z.leb_le. lia.
Qed.

Lemma clip_valid (t : Z) : - maxTime <= t <= maxTime -> clip (Some t) = Some t.
Proof.
  intros H. unfold clip.
  replace (Z.abs t <=? maxTime) with true; [reflexivity|].
  symmetry. apply Z.leb_le. lia.
Qed.

Lemma marketIsOpenOnDate_empty (st : State) (m : Market) (kind : string) :
  Csv.dates m = [] -> marketIsOpenOnDate st m kind = Normal true.
Proof.
  intros H. unfold marketIsOpenOnDate. rewrite H. reflexivity.
Qed.

Lemma marketIsOpenOnDate_quick (st : State) (m : Market) (kind : string) :
  In kind quickFilters -> exists b, marketIsOpenOnDate st m kind = Normal b.
Proof.
  intros Hk. unfold marketIsOpenOnDate.
  destruct (Nat.eqb (List.length (Csv.dates m)) 0); [eauto|].
  destruct Hk as [<- | [<- | [<- | []]]]; simpl;
    try rewrite some_total; eauto.
Qed.

Lemma marketIsOpenOnDate_other (st : State) (m : Market) (kind : string) :
  ~ In kind quickFilters -> Csv.dates m <> [] ->
  marketIsOpenOnDate st m kind = Throw.
Proof.
  intros Hk Hd. unfold marketIsOpenOnDate.
  destruct (Csv.dates m) as [|d r] eqn:E; [congruence|].
  cbn [List.length Nat.eqb].
  assert (H1 : String.eqb kind "today" = false).
  { apply String.eqb_neq. intros ->. apply Hk. simpl. auto. }
  assert (H2 : String.eqb kind "tomorrow" = false).
  { apply String.eqb_neq. intros ->. apply Hk. simpl. auto. }
  assert (H3 : String.eqb kind "weekend" = false).
  { apply String.eqb_neq. intros ->. apply Hk. simpl. auto. }
  rewrite H1, H2, H3. reflexivity.
Qed.

Lemma matchesDate_known (st : State) (m : Market) :
  In (Filters.dateFilter (currentFilters st)) knownKinds ->
  exists b, matchesDate st m = Normal b.
Proof.
  intros [E | Hk]; unfold matchesDate.
  - rewrite <- E. simpl. eauto.
  - destruct (isEmpty _); [eauto|]. apply marketIsOpenOnDate_quick, Hk.
Qed.

Lemma keeps_known (toLowerCase : string -> string) (st : State) (m : Market) :
  In (Filters.dateFilter (currentFilters st)) knownKinds ->
  keeps toLowerCase st m = Normal (passes toLowerCase st m).
Proof.
  intros Hk. unfold passes, keeps.
  destruct (matchesDate_known st m Hk) as [b ->]. reflexivity.
Qed.

Lemma applyFilters_known (toLowerCase : string -> string) (st : State) :
  In (Filters.dateFilter (currentFilters st)) knownKinds ->
  applyFilters toLowerCase st =
  Normal (setFilteredMarkets st
            (JS.sort (compareMarkets toLowerCase st)
               (List.filter (passes toLowerCase st) (markets st)))).
Proof.
  intros Hk. unfold applyFilters.
  rewrite (filter_total _ (passes toLowerCase st))
    by (intros; apply keeps_known, Hk).
  reflexivity.
Qed.

(** Whenever the filter callback completes on every record, what is
    kept is the sub-list of the records that pass. *)
Lemma filter_normal {A : Type} (f : A -> Completion bool) (xs kept : list A) :
  JS.filter f xs = Normal kept ->
  kept = List.filter (fun x => match f x with Normal b => b | Throw => false end) xs.
Proof.
  revert kept. induction xs as [|x r IH]; simpl; intros kept H.
  - congruence.
  - destruct (f x) as [b|]; simpl in H; [|discriminate].
    destruct (JS.filter f r) as [r'|]; simpl in H; [|discriminate].
    injection H as <-. rewrite (IH r' eq_refl). destruct b; reflexivity.
Qed.

Lemma applyFilters_normal (toLowerCase : string -> string) (st st' : State) :
  applyFilters toLowerCase st = Normal st' ->
  filteredMarkets st' =
  JS.sort (compareMarkets toLowerCase st)
    (List.filter (passes toLowerCase st) (markets st)).
Proof.
  unfold applyFilters. intros H.
  destruct (JS.filter (keeps toLowerCase st) (markets st)) as [kept|] eqn:E;
    simpl in H; [|discriminate].
  injection H as <-. apply filter_normal in E. subst kept. reflexivity.
Qed.

End DateFilter.

(** C6. A record whose [dates] is empty passes the date filter whatever
    its kind ("today", "tomorrow", "weekend" or any other string), and
    whatever the session state: [marketIsOpenOnDate] returns [true], and so
    does the date test of [applyFilters]. *)
Theorem empty_dates_always_open :
  forall (st : Catalog.State) (m : Catalog.Market) (kind : string),
    Csv.dates m = [] ->
    Catalog.marketIsOpenOnDate st m kind = JS.Normal true
    /\ Catalog.matchesDate st m = JS.Normal true.
Proof.
  intros st m kind H. split.
  - apply marketIsOpenOnDate_empty, H.
  - unfold Catalog.matchesDate. destruct (JS.isEmpty _); [reflexivity|].
    apply marketIsOpenOnDate_empty, H.
Qed.

Lemma empty_dates_always_open_witness :
  Catalog.marketIsOpenOnDate (Sample.session "" "weekend") Sample.marketB "weekend"
  = JS.Normal true
  /\ Catalog.matchesDate (Sample.session "" "weekend") Sample.marketB = JS.Normal true.
Proof.
  apply (empty_dates_always_open (Sample.session "" "weekend") Sample.marketB "weekend").
  reflexivity.
Defined.

(** C10. [marketIsOpenOnDate] returns normally for the three kinds
    "today", "tomorrow" and "weekend"; the empty kind is answered by
    [applyFilters] without calling it, so that [applyFilters] completes for
    the four kinds the page sets; for any other kind it throws on every
    record whose [dates] is not empty (the final [some] reads a property of
    the undefined [targetDate]), and [applyFilters] throws with it. *)
Theorem marketIsOpenOnDate_partial :
  forall (toLowerCase : string -> string) (st : Catalog.State)
         (m : Catalog.Market) (kind : string),
    (In kind quickFilters -> exists b, Catalog.marketIsOpenOnDate st m kind = JS.Normal b)
    /\ (Filters.dateFilter (Catalog.currentFilters st) = "" ->
        Catalog.matchesDate st m = JS.Normal true)
    /\ (In (Filters.dateFilter (Catalog.currentFilters st)) knownKinds ->
        exists st', Catalog.applyFilters toLowerCase st = JS.Normal st')
    /\ (~ In kind quickFilters -> Csv.dates m <> [] ->
        Catalog.marketIsOpenOnDate st m kind = JS.Throw)
    /\ (~ In (Filters.dateFilter (Catalog.currentFilters st)) knownKinds ->
        In m (Catalog.markets st) -> Csv.dates m <> [] ->
        Catalog.applyFilters toLowerCase st = JS.Throw).
Proof.
  intros toLowerCase st m kind. repeat split.
  - apply marketIsOpenOnDate_quick.
  - intros E. unfold Catalog.matchesDate. rewrite E. reflexivity.
  - intros Hk. eexists. apply applyFilters_known, Hk.
  - apply marketIsOpenOnDate_other.
  - intros Hk Hin Hd.
    assert (Hm : Catalog.keeps toLowerCase st m = JS.Throw).
    { unfold Catalog.keeps, Catalog.matchesDate.
      destruct (JS.isEmpty _) eqn:E.
      - exfalso. apply Hk. left.
        destruct (Filters.dateFilter _); [reflexivity | discriminate].
      - rewrite marketIsOpenOnDate_other; [reflexivity | | exact Hd].
        intros Hq. apply Hk. right. exact Hq. }
    unfold Catalog.applyFilters.
    assert (Hf : JS.filter (Catalog.keeps toLowerCase st) (Catalog.markets st) = JS.Throw).
    { induction (Catalog.markets st) as [|x r IH]; [destruct Hin|].
      simpl. destruct Hin as [-> | Hin].
      - rewrite Hm. reflexivity.
      - destruct (Catalog.keeps toLowerCase st x); simpl; [|reflexivity].
        rewrite (IH Hin). reflexivity. }
    rewrite Hf. reflexivity.
Qed.

Lemma marketIsOpenOnDate_partial_witness :
  (exists b, Catalog.marketIsOpenOnDate (Sample.session "" "") Sample.marketA "today"
             = JS.Normal b)
  /\ Catalog.marketIsOpenOnDate (Sample.session "" "") Sample.marketA "next week"
     = JS.Throw.
Proof.
  split.
  - apply (marketIsOpenOnDate_partial Dates.lowerLetters (Sample.session "" "")
             Sample.marketA "today").
    simpl. auto.
  - apply (marketIsOpenOnDate_partial Dates.lowerLetters (Sample.session "" "")
             Sample.marketA "next week").
    + simpl. intros [H | [H | [H | []]]]; discriminate H.
    + discriminate.
Defined.

(** ** The day loop and the weekend window *)

Section DayLoop.
Import JS Date.

Lemma msPerDay_pos : 0 < msPerDay.
Proof. reflexivity. Qed.

Lemma forEachDay_invalid (n : nat) (e : JSDate) : forEachDay n Invalid e = [].
Proof. destruct n; reflexivity. Qed.

Lemma timeClip_Ms (t u : Z) : timeClip t = Ms u -> u = t.
Proof.
  unfold timeClip. destruct (Z.abs t <=? maxTime); congruence.
Qed.

(** Every date the loop pushes lies between its two ends. *)
Lemma forEachDay_bounds (n : nat) (d e x : JSDate) :
  In x (forEachDay n d e) ->
  exists td te t, d = Ms td /\ e = Ms te /\ x = Ms t /\ td <= t <= te.
Proof.
  revert d. induction n as [|k IH]; intros d H; simpl in H; [destruct H|].
  destruct (leq d e) eqn:L; [|destruct H].
  destruct d as [td|], e as [te|]; simpl in L; try discriminate.
  apply Z.leb_le in L.
  destruct H as [<- | H].
  - exists td, te, td. repeat split; lia.
  - apply IH in H. destruct H as (td' & te' & t & Hd & He & Hx & Hb).
    simpl in Hd. apply timeClip_Ms in Hd. injection He as <-.
    pose proof msPerDay_pos.
    exists td, te, t. repeat split; try assumption; lia.
Qed.

Lemma tripCount_succ (s e : Z) :
  s <= e ->
  tripCount (Ms s) (Ms e) = S (tripCount (Ms (s + msPerDay)) (Ms e)).
Proof.
  intros H. unfold tripCount. pose proof msPerDay_pos.
  replace (e - s) with ((e - (s + msPerDay)) + 1 * msPerDay) by lia.
  rewrite Z.div_add by lia.
  assert (-1 <= (e - (s + msPerDay)) / msPerDay).
  { apply Z.div_le_lower_bound; lia. }
  rewrite <- Z2Nat.inj_succ by lia. f_equal; lia.
Qed.

Lemma tripCount_zero (s e : Z) : e < s -> tripCount (Ms s) (Ms e) = O.
Proof.
  intros H. unfold tripCount. pose proof msPerDay_pos.
  assert ((e - s) / msPerDay < 0) by (apply Z.div_lt_upper_bound; lia).
  lia.
Qed.

(** The loop equation: the trip count is exactly the number of turns the
    test [d <= end] allows. *)
Lemma daysFromTo_unfold (s e : Z) :
  e <= maxTime ->
  daysFromTo (Ms s) (Ms e) =
  if s <=? e then Ms s :: daysFromTo (nextDay (Ms s)) (Ms e) else [].
Proof.
  intros He. unfold daysFromTo.
  destruct (s <=? e) eqn:L.
  - apply Z.leb_le in L. rewrite tripCount_succ by exact L.
    cbn [forEachDay leq]. rewrite (proj2 (Z.leb_le s e) L).
    f_equal. cbn [nextDay]. unfold timeClip.
    destruct (Z.abs (s + msPerDay) <=? maxTime) eqn:V; [reflexivity|].
    rewrite !forEachDay_invalid. reflexivity.
  - apply Z.leb_gt in L. rewrite tripCount_zero by exact L. reflexivity.
Qed.

Lemma daysFromTo_reversed (d e : JSDate) : leq d e = false -> daysFromTo d e = [].
Proof.
  intros L. unfold daysFromTo.
  destruct (tripCount d e); simpl; [reflexivity|]. rewrite L. reflexivity.
Qed.

(** The dates pushed, in closed form. *)
Lemma daysFromTo_closed (s e : Z) :
  - maxTime <= s -> e <= maxTime ->
  daysFromTo (Ms s) (Ms e) =
  map (fun i => Ms (s + Z.of_nat i * msPerDay))
      (seq 0 (Z.to_nat ((e - s) / msPerDay + 1))).
Proof.
  intros Hs He. pose proof msPerDay_pos as Hpos.
  remember (Z.to_nat ((e - s) / msPerDay + 1)) as n eqn:En.
  revert s Hs En. induction n as [|k IH]; intros s Hs En.
  - rewrite daysFromTo_unfold by exact He.
    destruct (s <=? e) eqn:L; [|reflexivity].
    apply Z.leb_le in L.
    assert (0 <= (e - s) / msPerDay) by (apply Z.div_pos; lia). lia.
  - assert (L : s <= e).
    { destruct (Z_le_gt_dec s e) as [|G]; [assumption|].
      assert ((e - s) / msPerDay < 0) by (apply Z.div_lt_upper_bound; lia).
      lia. }
    rewrite daysFromTo_unfold by exact He.
    rewrite (proj2 (Z.leb_le s e) L).
    cbn [seq map]. f_equal; [f_equal; lia|].
    cbn [nextDay]. unfold timeClip.
    destruct (Z.abs (s + msPerDay) <=? maxTime) eqn:V.
    + apply Z.leb_le in V.
      rewrite IH.
      * rewrite <- seq_shift, map_map. apply map_ext.
        intros i. f_equal. lia.
      * lia.
      * replace (e - s) with ((e - (s + msPerDay)) + 1 * msPerDay) in En by lia.
        rewrite Z.div_add in En by lia.
        assert (-1 <= (e - (s + msPerDay)) / msPerDay)
          by (apply Z.div_le_lower_bound; lia).
        lia.
    + apply Z.leb_gt in V.
      assert (Hlt : e - s < msPerDay) by lia.
      assert ((e - s) / msPerDay = 0) by (apply Z.div_small; lia).
      assert (k = O) by lia. subst k. reflexivity.
Qed.

Lemma daysFromTo_two (s : Z) :
  - maxTime <= s -> s + msPerDay <= maxTime ->
  daysFromTo (Ms s) (Ms (s + msPerDay)) = [Ms s; Ms (s + msPerDay)].
Proof.
  intros Hs He. rewrite daysFromTo_closed by assumption.
  replace (s + msPerDay - s) with (1 * msPerDay) by lia.
  rewrite Z.div_mul by (pose proof msPerDay_pos; lia).
  change (Z.to_nat (1 + 1)) with 2%nat. cbn [seq map].
  replace (s + Z.of_nat 0 * msPerDay) with s by lia.
  replace (s + Z.of_nat 1 * msPerDay) with (s + msPerDay) by lia.
  reflexivity.
Qed.

End DayLoop.

Section Weekend.
Import JS Date Catalog.

Lemma daysUntilSaturday_spec (dow : Z) :
  0 <= dow < 7 ->
  exists k, daysUntilSaturday (Some dow) = Some k
            /\ 1 <= k <= 7
            /\ (dow + k) mod 7 = 6
            /\ (dow = 6 -> k = 7)
            /\ (forall j, 1 <= j < k -> (dow + j) mod 7 <> 6).
Proof.
  intros H.
  assert (C : dow = 0 \/ dow = 1 \/ dow = 2 \/ dow = 3 \/ dow = 4 \/ dow = 5 \/ dow = 6)
    by lia.
  destruct C as [-> | [-> | [-> | [-> | [-> | [-> | ->]]]]]];
    (eexists; split; [vm_compute; reflexivity|];
     split; [lia|]; split; [reflexivity|]; split; [intros; lia|];
     intros j Hj; Z.div_mod_to_equations; lia).
Qed.

Lemma getDay_shift (t k : Z) :
  getDay (Ms (t + k * msPerDay)) =
  Some (((t / msPerDay + 4) mod 7 + k) mod 7).
Proof.
  simpl. rewrite Z.div_add by (pose proof msPerDay_pos; lia).
  rewrite Zplus_mod_idemp_l. f_equal. f_equal. lia.
Qed.

End Weekend.

(** C4. [calculateWeekendDates], run when the clock reads [now], sets
    the window start to the time value [now + k * 86,400,000] where [k],
    between 1 and 7, is the number of days from today's day of the week
    to Saturday, 7 when today is a Saturday; the window end is the time
    value 86,400,000 ms later. When the offset of local time does not
    change from [now] to the window end, the start falls on a Saturday, no
    earlier day after today does, the end falls on the Sunday after it, and
    a record with a non-empty [dates] passes the "weekend" filter exactly
    when one of its dates has the year, month and day of that Saturday or
    of that Sunday. *)
Theorem weekend_window :
  forall (zone : Date.Zone) (now : Z) (st : Catalog.State),
    - Date.maxTime <= now <= Date.maxTime - 8 * Date.msPerDay ->
    - Date.maxTime <= now + zone now <= Date.maxTime - 8 * Date.msPerDay ->
    exists k : Z,
      let st' := Catalog.calculateWeekendDates zone now st in
      1 <= k <= 7
      /\ (Date.getDay (Date.ofTime zone (Some now)) = Some 6 -> k = 7)
      /\ Catalog.weekendStart st'
         = Some (Date.ofTime zone (Some (now + k * 86400000)))
      /\ Catalog.weekendEnd st'
         = Some (Date.ofTime zone (Some (now + k * 86400000 + 86400000)))
      /\ ((forall e : Z, 0 <= e <= (k + 1) * 86400000 -> zone (now + e) = zone now) ->
          let saturday := Date.Ms (now + zone now + k * Date.msPerDay) in
          let sunday := Date.Ms (now + zone now + k * Date.msPerDay + Date.msPerDay) in
          Catalog.weekendStart st' = Some saturday
          /\ Catalog.weekendEnd st' = Some sunday
          /\ Date.getDay saturday = Some 6
          /\ Date.getDay sunday = Some 0
          /\ (forall j, 1 <= j < k ->
                Date.getDay (Date.Ms (now + zone now + j * Date.msPerDay)) <> Some 6)
          /\ (forall m : Catalog.Market,
                Csv.dates m <> [] ->
                (Catalog.marketIsOpenOnDate st' m "weekend" = JS.Normal true <->
                 exists md, In md (Csv.dates m)
                            /\ (Date.sameDay md saturday = true
                                \/ Date.sameDay md sunday = true)))).
Proof.
  intros zone now st Hnow Hloc.
  pose proof msPerDay_pos as Hpos.
  assert (Hday : Date.msPerDay = 86400000) by reflexivity.
  assert (Hmax : Date.maxTime = 100000000 * Date.msPerDay) by reflexivity.
  remember (((now + zone now) / Date.msPerDay + 4) mod 7) as dow eqn:Edow.
  assert (Hd : 0 <= dow < 7) by (subst dow; apply Z.mod_pos_bound; lia).
  destruct (daysUntilSaturday_spec dow Hd) as (k & Ek & Hk & Hsat & H6 & Hnext).
  exists k. intros st'.
  assert (Htoday : Date.ofTime zone (Some now) = Date.Ms (now + zone now)).
  { unfold Date.ofTime. rewrite clip_valid by lia. reflexivity. }
  assert (Hst : st' = Catalog.setWeekend st
                        (Date.ofTime zone (Some (now + k * 86400000)))
                        (Date.ofTime zone (Some (now + k * 86400000 + 86400000)))).
  { subst st'. unfold Catalog.calculateWeekendDates.
    rewrite (clip_valid now) by lia. rewrite Htoday.
    cbn [Date.getDay]. rewrite <- Edow, Ek.
    cbn [Catalog.times Catalog.plus].
    rewrite (clip_valid (now + k * 86400000)) by lia.
    reflexivity. }
  rewrite Hst. cbn [Catalog.weekendStart Catalog.weekendEnd Catalog.setWeekend].
  split; [exact Hk|].
  split.
  { rewrite Htoday. cbn [Date.getDay]. rewrite <- Edow.
    intros E. injection E as E. apply H6, E. }
  split; [reflexivity|]. split; [reflexivity|].
  intros Hconst.
  set (saturday := Date.Ms (now + zone now + k * Date.msPerDay)).
  set (sunday := Date.Ms (now + zone now + k * Date.msPerDay + Date.msPerDay)).
  assert (Es : Date.ofTime zone (Some (now + k * 86400000)) = saturday).
  { unfold Date.ofTime. rewrite clip_valid by lia.
    rewrite (Hconst (k * 86400000)) by lia.
    subst saturday. f_equal. lia. }
  assert (Ee : Date.ofTime zone (Some (now + k * 86400000 + 86400000)) = sunday).
  { unfold Date.ofTime. rewrite clip_valid by lia.
    replace (now + k * 86400000 + 86400000) with (now + (k + 1) * 86400000) by lia.
    rewrite (Hconst ((k + 1) * 86400000)) by lia.
    subst sunday. f_equal. lia. }
  rewrite Es, Ee.
  split; [reflexivity|]. split; [reflexivity|].
  split.
  { subst saturday. rewrite getDay_shift, <- Edow. f_equal. exact Hsat. }
  split.
  { subst sunday.
    replace (now + zone now + k * Date.msPerDay + Date.msPerDay)
      with (now + zone now + (k + 1) * Date.msPerDay) by lia.
    rewrite getDay_shift, <- Edow. f_equal.
    clear - Hsat Hd Hk. revert Hsat. Z.div_mod_to_equations. lia. }
  split.
  { intros j Hj. rewrite getDay_shift, <- Edow. intros E.
    injection E as E. exact (Hnext j Hj E). }
  intros m Hm. unfold Catalog.marketIsOpenOnDate.
  destruct (Nat.eqb (List.length (Csv.dates m)) 0) eqn:Ed.
  { apply Nat.eqb_eq, length_zero_iff_nil in Ed. contradiction. }
  change (String.eqb "weekend" "today") with false.
  change (String.eqb "weekend" "tomorrow") with false.
  change (String.eqb "weekend" "weekend") with true.
  cbn iota. cbn [Catalog.orEpoch Catalog.weekendStart Catalog.weekendEnd Catalog.setWeekend].
  subst saturday sunday.
  rewrite daysFromTo_two by lia.
  cbn [existsb]. rewrite orb_false_r.
  split.
  - intros H. injection H as H. apply orb_true_iff in H.
    destruct H as [H | H]; apply existsb_exists in H;
      destruct H as (md & Hin & Hs); exists md; auto.
  - intros (md & Hin & [Hs | Hs]); f_equal; apply orb_true_iff;
      [left | right]; apply existsb_exists; exists md; auto.
Qed.

Lemma weekend_window_witness :
  Catalog.weekendStart (Sample.denverSession Sample.denverNoonDec13)
  = Some (Date.Ms (Sample.noonDec13 + 7 * Date.msPerDay))
  /\ Date.ymd (Date.Ms (Sample.noonDec13 + 7 * Date.msPerDay)) = Some (2025, 11, 20)
  /\ Catalog.marketIsOpenOnDate (Sample.denverSession Sample.denverNoonDec13)
       (Sample.heldOn "Dec. 21") "weekend"
     = JS.Normal true.
Proof.
  destruct (weekend_window Sample.denver Sample.denverNoonDec13
              (Sample.session "" "weekend"))
    as (k & Hk & H7 & _ & _ & Hcal).
  - split; vm_compute; discriminate.
  - split; vm_compute; discriminate.
  - assert (E : k = 7) by (apply H7; reflexivity). subst k.
    destruct Hcal as (Hs & _ & _ & _ & _ & Hopen).
    + intros e He. unfold Sample.denver, Sample.denverNoonDec13, Sample.noonDec13.
      replace (_ <? _) with false by (symmetry; apply Z.ltb_ge; lia).
      replace (_ <? _) with false by (symmetry; apply Z.ltb_ge; lia).
      rewrite !andb_false_r. reflexivity.
    + split; [exact Hs|]. split; [reflexivity|].
      apply (Hopen (Sample.heldOn "Dec. 21")); [discriminate|].
      eexists. split; [left; reflexivity|]. right. reflexivity.
Defined.

(** In Denver the clocks go back on Sunday 2 November 2025. Run on
    Saturday 1 November at 00:30, [calculateWeekendDates] puts the window
    start seven times 86,400,000 ms later, which is Friday 7 November,
    23:30: a record held on that Friday only passes the "weekend" filter
    and a record held on Sunday 9 November only does not. Run on Wednesday
    29 October at noon, the window runs from Saturday 1 November, noon, to
    Sunday 2 November, 11:00, and a record held on that Sunday only does
    not pass. *)
Lemma weekend_window_across_clock_change :
  Date.ymd (Date.ofTime Sample.denver (Some Sample.satNov1)) = Some (2025, 10, 1)
  /\ Date.getDay (Date.ofTime Sample.denver (Some Sample.satNov1)) = Some 6
  /\ option_map Date.ymd (Catalog.weekendStart (Sample.denverSession Sample.satNov1))
     = Some (Some (2025, 10, 7))
  /\ option_map Date.getDay (Catalog.weekendStart (Sample.denverSession Sample.satNov1))
     = Some (Some 5)
  /\ Catalog.marketIsOpenOnDate (Sample.denverSession Sample.satNov1)
       (Sample.heldOn "Nov. 7") "weekend" = JS.Normal true
  /\ Catalog.marketIsOpenOnDate (Sample.denverSession Sample.satNov1)
       (Sample.heldOn "Nov. 9") "weekend" = JS.Normal false
  /\ option_map Date.ymd (Catalog.weekendStart (Sample.denverSession Sample.wedOct29))
     = Some (Some (2025, 10, 1))
  /\ option_map Date.ymd (Catalog.weekendEnd (Sample.denverSession Sample.wedOct29))
     = Some (Some (2025, 10, 2))
  /\ option_map Date.getDay (Catalog.weekendEnd (Sample.denverSession Sample.wedOct29))
     = Some (Some 0)
  /\ Catalog.marketIsOpenOnDate (Sample.denverSession Sample.wedOct29)
       (Sample.heldOn "Nov. 2") "weekend" = JS.Normal false
  /\ ~ (forall (zone : Date.Zone) (now : Z) (st : Catalog.State) (m : Catalog.Market),
           - Date.maxTime <= now <= Date.maxTime - 8 * Date.msPerDay ->
           Csv.dates m <> [] ->
           exists saturday,
             Catalog.weekendStart (Catalog.calculateWeekendDates zone now st)
             = Some saturday
             /\ Date.getDay saturday = Some 6
             /\ (Catalog.marketIsOpenOnDate
                   (Catalog.calculateWeekendDates zone now st) m "weekend"
                 = JS.Normal true
                 <-> exists md, In md (Csv.dates m)
                                /\ (Date.sameDay md saturday = true
                                    \/ Date.sameDay md (Date.nextDay saturday) = true))).
Proof.
  do 10 (split; [vm_compute; reflexivity|]).
  intros H.
  destruct (H Sample.denver Sample.satNov1 (Sample.session "" "weekend")
              (Sample.heldOn "Nov. 7"))
    as (saturday & Hs & Hd & _).
  - split; vm_compute; discriminate.
  - discriminate.
  - vm_compute in Hs. injection Hs as <-. vm_compute in Hd. discriminate Hd.
Qed.

(** ** Filters *)

Section FilterFacts.
Import JS Catalog.

Lemma includes_empty (s : string) : includes s "" = true.
Proof. destruct s; reflexivity. Qed.

Lemma isEmpty_true (s : string) : isEmpty s = true <-> s = "".
Proof. destruct s; simpl; split; congruence. Qed.

Lemma matchesCity_iff (st : State) (m : Market) :
  matchesCity st m = true <->
  Filters.city (currentFilters st) = ""
  \/ Csv.city m = Filters.city (currentFilters st).
Proof.
  unfold matchesCity. rewrite orb_true_iff, isEmpty_true, String.eqb_eq.
  reflexivity.
Qed.

Lemma passes_iff (toLowerCase : string -> string) (st : State) (m : Market) :
  passes toLowerCase st m = true <->
  matchesSearch toLowerCase st m = true
  /\ matchesCity st m = true
  /\ matchesDate st m = Normal true.
Proof.
  unfold passes, keeps.
  destruct (matchesDate st m) as [b|]; simpl.
  - rewrite !andb_true_iff. split.
    + intros [[H1 H2] H3]. subst b. auto.
    + intros (H1 & H2 & H3). injection H3 as ->. auto.
  - split; [discriminate | intros (_ & _ & H); discriminate H].
Qed.

End FilterFacts.

(** C2. Whenever [applyFilters] recomputes the view, and it does so for
    each of the four date-filter kinds the page sets, a record is in the
    view exactly when it is one of the ingested records and passes the
    search test, the city test and the date test together. The search test
    is a substring test on the lower-cased name, address or description,
    and an empty search text passes every record; the city test is
    equality with the record's city, or an empty filter. A record with no
    dates passes the date test and is still left out when the city filter
    is set to another city. *)
Theorem filters_are_conjunctive :
  forall (toLowerCase : string -> string) (st : Catalog.State),
    toLowerCase "" = "" ->
    (In (Filters.dateFilter (Catalog.currentFilters st)) knownKinds ->
     exists st', Catalog.applyFilters toLowerCase st = JS.Normal st')
    /\ (forall st',
          Catalog.applyFilters toLowerCase st = JS.Normal st' ->
          (forall m,
              In m (Catalog.filteredMarkets st') <->
              In m (Catalog.markets st)
              /\ Catalog.matchesSearch toLowerCase st m = true
              /\ Catalog.matchesCity st m = true
              /\ Catalog.matchesDate st m = JS.Normal true)
          /\ (forall m,
                Csv.dates m = [] ->
                Catalog.matchesDate st m = JS.Normal true
                /\ (Filters.city (Catalog.currentFilters st) <> "" ->
                    Csv.city m <> Filters.city (Catalog.currentFilters st) ->
                    ~ In m (Catalog.filteredMarkets st'))))
    /\ (forall m,
          Catalog.matchesSearch toLowerCase st m = true <->
          let needle := toLowerCase (Filters.search (Catalog.currentFilters st)) in
          JS.includes (toLowerCase (Csv.name m)) needle = true
          \/ JS.includes (toLowerCase (Csv.address m)) needle = true
          \/ JS.includes (toLowerCase (Csv.description m)) needle = true)
    /\ (Filters.search (Catalog.currentFilters st) = "" ->
        forall m, Catalog.matchesSearch toLowerCase st m = true)
    /\ (forall m,
          Catalog.matchesCity st m = true <->
          Filters.city (Catalog.currentFilters st) = ""
          \/ Csv.city m = Filters.city (Catalog.currentFilters st)).
Proof.
  intros toLowerCase st Hlow.
  split.
  { intros Hkind. eexists. apply applyFilters_known, Hkind. }
  split.
  { intros st' Hrun. apply applyFilters_normal in Hrun.
    assert (Hview : forall m,
              In m (Catalog.filteredMarkets st') <->
              In m (Catalog.markets st)
              /\ Catalog.matchesSearch toLowerCase st m = true
              /\ Catalog.matchesCity st m = true
              /\ Catalog.matchesDate st m = JS.Normal true).
    { intros m. rewrite Hrun, sort_In, filter_In, passes_iff. reflexivity. }
    split; [exact Hview|].
    intros m Hd.
    assert (Hdate : Catalog.matchesDate st m = JS.Normal true).
    { unfold Catalog.matchesDate. destruct (JS.isEmpty _); [reflexivity|].
      apply marketIsOpenOnDate_empty, Hd. }
    split; [exact Hdate|].
    intros Hc Hne Hin. apply Hview in Hin.
    destruct Hin as (_ & _ & Hcity & _).
    apply matchesCity_iff in Hcity. tauto. }
  split.
  { intros m. unfold Catalog.matchesSearch. cbv zeta.
    rewrite !orb_true_iff. tauto. }
  split.
  { intros E m. unfold Catalog.matchesSearch. rewrite E, Hlow, includes_empty.
    reflexivity. }
  apply matchesCity_iff.
Qed.

Lemma filters_are_conjunctive_witness :
  exists st',
    Catalog.applyFilters Dates.lowerLetters (Sample.session "Denver" "today")
    = JS.Normal st'
    /\ In Sample.marketA (Catalog.filteredMarkets st')
    /\ ~ In Sample.marketB (Catalog.filteredMarkets st').
Proof.
  destruct (filters_are_conjunctive Dates.lowerLetters (Sample.session "Denver" "today"))
    as (Hruns & Hview & _).
  - reflexivity.
  - destruct Hruns as [st' Hrun]; [simpl; auto|].
    exists st'. split; [exact Hrun|].
    destruct (Hview st' Hrun) as [Hin Hopen]. split.
    + apply Hin. repeat split; try reflexivity. simpl. auto.
    + apply (Hopen Sample.marketB); [reflexivity | discriminate | discriminate].
Defined.

(** The example of the conjunction: with the city filter on Denver and the
    date filter on today, 13 December, the view is record A alone. *)
Example filter_conjunction_example :
  forall toLowerCase : string -> string,
    toLowerCase "" = "" ->
    exists st',
      Catalog.applyFilters toLowerCase (Sample.session "Denver" "today") = JS.Normal st'
      /\ Catalog.filteredMarkets st' = [Sample.marketA].
Proof.
  intros toLowerCase Hlow. eexists. split.
  - apply applyFilters_known. simpl. auto.
  - cbn [Catalog.filteredMarkets Catalog.setFilteredMarkets Sample.session
           Catalog.markets List.filter].
    assert (HA : passes toLowerCase (Sample.session "Denver" "today") Sample.marketA = true).
    { apply passes_iff. repeat split.
      unfold Catalog.matchesSearch. simpl. rewrite Hlow, includes_empty. reflexivity. }
    assert (HB : passes toLowerCase (Sample.session "Denver" "today") Sample.marketB = false).
    { apply not_true_is_false. rewrite passes_iff. intros (_ & H & _). discriminate H. }
    fold (Sample.session "Denver" "today").
    rewrite HA, HB. reflexivity.
Qed.

(** ** Sort stability *)

Section SortFacts.
Import JS Catalog.
Variable toLowerCase : string -> string.

Lemma ltb_irrefl (s : string) : String.ltb s s = false.
Proof.
  unfold String.ltb. pose proof (String.compare_antisym s s) as H.
  destruct (String.compare s s); simpl in H; congruence.
Qed.

(** Records with the same key tie under the comparator. *)
Lemma compareMarkets_tie (st : State) (a b : Market) :
  sortKey toLowerCase (sortColumn st) a = sortKey toLowerCase (sortColumn st) b ->
  compareMarkets toLowerCase st a b = 0.
Proof.
  intros E. unfold compareMarkets. rewrite E.
  destruct (sortKey toLowerCase (sortColumn st) b) as [k|]; [|reflexivity].
  rewrite ltb_irrefl. reflexivity.
Qed.

Lemma ltb_asym (s t : string) : String.ltb s t = true -> String.ltb t s = false.
Proof.
  unfold String.ltb. pose proof (String.compare_antisym s t) as H.
  destruct (String.compare s t), (String.compare t s); simpl in H; congruence.
Qed.

(** The comparator never puts two records each strictly after the
    other, so the view is in comparator order. *)
Lemma compareMarkets_antisym (st : State) (a b : Market) :
  0 < compareMarkets toLowerCase st a b -> compareMarkets toLowerCase st b a <= 0.
Proof.
  unfold compareMarkets.
  destruct (sortKey toLowerCase (sortColumn st) a) as [ka|];
    destruct (sortKey toLowerCase (sortColumn st) b) as [kb|]; try lia.
  destruct (String.ltb ka kb) eqn:E1.
  - rewrite (ltb_asym ka kb E1). destruct (sortAscending st); lia.
  - destruct (String.ltb kb ka) eqn:E2; destruct (sortAscending st); lia.
Qed.

Lemma view_sorted (st : State) :
  Sorted (fun a b => compareMarkets toLowerCase st a b <= 0)
    (filteredMarkets (sortFilteredMarkets toLowerCase st)).
Proof.
  unfold sortFilteredMarkets. cbn [filteredMarkets setFilteredMarkets].
  apply sort_sorted. apply compareMarkets_antisym.
Qed.

Lemma sameKey_eq (k1 k2 : option string) : sameKey k1 k2 = true <-> k1 = k2.
Proof.
  destruct k1 as [a|], k2 as [b|]; simpl; try rewrite String.eqb_eq;
    split; congruence.
Qed.

Lemma sort_keeps_key_classes (st : State) (key : option string) (l : list Market) :
  let inClass m := sameKey (sortKey toLowerCase (sortColumn st) m) key in
  List.filter inClass (JS.sort (compareMarkets toLowerCase st) l)
  = List.filter inClass l.
Proof.
  intros inClass. apply sort_stable.
  intros x y Hx Hy. apply sameKey_eq in Hx, Hy.
  rewrite compareMarkets_tie by congruence. lia.
Qed.

End SortFacts.

(** C7. Whatever the sort column and direction, the view that
    [applyFilters] computes keeps, within every class of records with the
    same lower-cased sort key, the order these records have among the
    ingested records that pass the filters; so of two records of the view
    with equal keys, one that comes before the other in the ingested
    sequence also comes before it in the view. The same holds for
    [sortFilteredMarkets] on any list. *)
Theorem sort_is_stable :
  forall (toLowerCase : string -> string) (st st' : Catalog.State),
    Catalog.applyFilters toLowerCase st = JS.Normal st' ->
    let keyOf := Catalog.sortKey toLowerCase (Catalog.sortColumn st) in
    (forall key : option string,
        List.filter (fun m => sameKey (keyOf m) key) (Catalog.filteredMarkets st')
        = List.filter (fun m => sameKey (keyOf m) key)
            (List.filter (passes toLowerCase st) (Catalog.markets st)))
    /\ (forall a b : Catalog.Market,
          keyOf a = keyOf b ->
          In a (Catalog.filteredMarkets st') ->
          In b (Catalog.filteredMarkets st') ->
          before a b (Catalog.markets st) ->
          before a b (Catalog.filteredMarkets st'))
    /\ (forall (s : Catalog.State) (key : option string),
          let keyOf' := Catalog.sortKey toLowerCase (Catalog.sortColumn s) in
          List.filter (fun m => sameKey (keyOf' m) key)
            (Catalog.filteredMarkets (Catalog.sortFilteredMarkets toLowerCase s))
          = List.filter (fun m => sameKey (keyOf' m) key) (Catalog.filteredMarkets s)).
Proof.
  intros toLowerCase st st' Hrun keyOf.
  apply applyFilters_normal in Hrun.
  assert (Hclass : forall key : option string,
            List.filter (fun m => sameKey (keyOf m) key) (Catalog.filteredMarkets st')
            = List.filter (fun m => sameKey (keyOf m) key)
                (List.filter (passes toLowerCase st) (Catalog.markets st))).
  { intros key. rewrite Hrun. apply sort_keeps_key_classes. }
  split; [exact Hclass|]. split.
  - intros a b Hkey Ha Hb Hab.
    assert (Pa : passes toLowerCase st a = true).
    { rewrite Hrun in Ha. apply sort_In, filter_In in Ha. apply Ha. }
    assert (Pb : passes toLowerCase st b = true).
    { rewrite Hrun in Hb. apply sort_In, filter_In in Hb. apply Hb. }
    apply (filter_before (fun m => sameKey (keyOf m) (keyOf a))).
    rewrite Hclass.
    apply before_filter; [apply sameKey_eq; reflexivity
                         | apply sameKey_eq; congruence |].
    apply before_filter; assumption.
  - intros s key keyOf'. unfold Catalog.sortFilteredMarkets.
    cbn [Catalog.filteredMarkets Catalog.setFilteredMarkets].
    apply sort_keeps_key_classes.
Qed.

Lemma sort_is_stable_witness :
  before Sample.marketA Sample.marketB
    (Catalog.filteredMarkets
       (Catalog.sortFilteredMarkets Dates.lowerLetters
          (Catalog.setFilteredMarkets (Sample.session "" "")
             [Sample.marketA; Sample.marketB]))).
Proof.
  refine (proj1 (proj2 (sort_is_stable Dates.lowerLetters (Sample.session "" "") _ _))
            Sample.marketA Sample.marketB _ _ _ _).
  - reflexivity.
  - reflexivity.
  - simpl. auto.
  - simpl. auto.
  - exists [], [], []. reflexivity.
Defined.

(** ** City extraction *)

Section CityFacts.
Import JS City.

Lemma scanFromEnd_no_state (parts : list string) :
  (forall p, In p parts -> stateZip p = false /\ bareState p = false) ->
  scanFromEnd parts = None.
Proof.
  induction parts as [|p r IH]; intros H; simpl; [reflexivity|].
  destruct (H p (or_introl eq_refl)) as [-> ->]. simpl.
  apply IH. intros q Hq. apply H. right. exact Hq.
Qed.

Lemma scanFromEnd_some (parts : list string) (c : string) :
  scanFromEnd parts = Some c -> In c parts /\ cityLike c = true.
Proof.
  induction parts as [|p r IH]; simpl; [discriminate|].
  destruct (stateZip p || bareState p).
  - destruct r as [|q r']; [discriminate|].
    destruct (cityLike q) eqn:Eq; [|discriminate].
    intros H. injection H as <-. split; [right; left; reflexivity | exact Eq].
  - intros H. apply IH in H. destruct H. split; [right|]; assumption.
Qed.

Lemma fallback_some (parts : list string) (c : string) :
  fallback parts = Some c ->
  (exists p, In p parts /\ c = trim p) /\ cityLike c = true.
Proof.
  unfold fallback. destruct parts as [|l [|b r]]; try discriminate.
  destruct (looseStateZip l || bareState l); [|discriminate].
  destruct (cityLike (trim b)) eqn:E; [|discriminate].
  intros H. injection H as <-. split; [|exact E].
  exists b. split; [right; left|]; reflexivity.
Qed.

Lemma cityLike_nonempty (c : string) : cityLike c = true -> c <> "".
Proof.
  intros H ->. discriminate H.
Qed.

End CityFacts.

(** C8. [extractCityFromAddress] is a total function from strings to
    strings. It answers "Unknown" on an empty or blank address, and on any
    address none of whose comma-separated parts matches one of the state
    patterns it tests (state code and five-digit zip between word
    boundaries, a bare two-letter state code, or the fallback's state code
    and zip); any other answer is a non-empty part of the address. On the
    four sample addresses it answers "Denver", "Denver", "Unknown" and
    "Unknown". *)
Theorem extractCity_total :
  (forall address : string,
      JS.trim address = "" -> City.extractCityFromAddress address = "Unknown")
  /\ (forall address : string,
        (forall part, In part (map JS.trim (JS.split "," address)) ->
                      City.stateZip part = false
                      /\ City.bareState part = false
                      /\ City.looseStateZip part = false) ->
        City.extractCityFromAddress address = "Unknown")
  /\ (forall address : string,
        City.extractCityFromAddress address = "Unknown"
        \/ (City.extractCityFromAddress address <> ""
            /\ exists part, In part (map JS.trim (JS.split "," address))
                            /\ (City.extractCityFromAddress address = part
                                \/ City.extractCityFromAddress address = JS.trim part)))
  /\ City.extractCityFromAddress "123 Main St, Denver, CO 80211" = "Denver"
  /\ City.extractCityFromAddress
       "Civic Center Park, 101 W 14th Ave Pkwy, Denver, CO 80202" = "Denver"
  /\ City.extractCityFromAddress "" = "Unknown"
  /\ City.extractCityFromAddress "No State Info Here" = "Unknown".
Proof.
  split.
  { intros address H. unfold City.extractCityFromAddress. rewrite H.
    rewrite orb_true_r. reflexivity. }
  split.
  { intros address H. unfold City.extractCityFromAddress.
    destruct (JS.isEmpty address || JS.isEmpty (JS.trim address)); [reflexivity|].
    rewrite scanFromEnd_no_state.
    - unfold City.fallback.
      destruct (rev (map JS.trim (JS.split "," address))) as [|l [|b r]] eqn:E;
        try reflexivity.
      assert (Hl : In l (map JS.trim (JS.split "," address))).
      { apply in_rev. rewrite E. left. reflexivity. }
      destruct (H l Hl) as (_ & -> & ->). reflexivity.
    - intros p Hp. apply in_rev in Hp. destruct (H p Hp) as (? & ? & _). auto. }
  split.
  { intros address. unfold City.extractCityFromAddress.
    destruct (JS.isEmpty address || JS.isEmpty (JS.trim address)); [left; reflexivity|].
    destruct (City.scanFromEnd _) as [c|] eqn:Es.
    - right. apply scanFromEnd_some in Es. destruct Es as [Hin Hc].
      split; [apply cityLike_nonempty, Hc|].
      exists c. split; [apply in_rev, Hin | left; reflexivity].
    - destruct (City.fallback _) as [c|] eqn:Ef; [|left; reflexivity].
      right. apply fallback_some in Ef. destruct Ef as [(p & Hin & ->) Hc].
      split; [apply cityLike_nonempty, Hc|].
      exists p. split; [apply in_rev, Hin | right; reflexivity]. }
  repeat split.
Qed.

Lemma extractCity_total_witness :
  City.extractCityFromAddress "   " = "Unknown"
  /\ City.extractCityFromAddress "Main Street, Denver, Colorado" = "Unknown".
Proof.
  split.
  - apply (proj1 extractCity_total "   "). reflexivity.
  - apply (proj1 (proj2 extractCity_total) "Main Street, Denver, Colorado").
    intros part H. simpl in H.
    destruct H as [<- | [<- | [<- | []]]]; repeat split.
Defined.

(** ** Record builder *)

Section CsvFacts.
Import JS Csv.

(** What the loop body of [parseCSV] decides: a row is pushed exactly
    when it has three tokens or more, a name that is not blank, and
    coordinates that both read as a number other than NaN and zero. *)
Lemma parseRow_kept_iff (line : string) :
  (exists m, parseRow line = Some m) <->
  (3 <= List.length (parseCSVLine line))%nat
  /\ trim (nth 0 (parseCSVLine line) "") <> ""
  /\ truthy (parseFloat (nth 1 (parseCSVLine line) "")) = true
  /\ truthy (parseFloat (nth 2 (parseCSVLine line) "")) = true.
Proof.
  unfold parseRow, orNull.
  set (values := parseCSVLine line).
  destruct (Z.of_nat (List.length values) <? 3) eqn:L; simpl.
  - apply Z.ltb_lt in L. split; [intros [m H]; discriminate|].
    intros (H & _). lia.
  - apply Z.ltb_ge in L.
    destruct (isEmpty (trim (nth 0 values ""))) eqn:N.
    + apply isEmpty_true in N. split; [intros [m H]; discriminate|].
      intros (_ & H & _). contradiction.
    + assert (N' : trim (nth 0 values "") <> "").
      { intros E. apply isEmpty_true in E. congruence. }
      destruct (truthy (parseFloat (nth 1 values ""))) eqn:T1;
        destruct (truthy (parseFloat (nth 2 values ""))) eqn:T2;
        split; try (intros [m H]; discriminate);
        try (intros (_ & _ & H1 & H2); discriminate).
      * intros _. repeat split; try assumption. lia.
      * intros _. eexists. reflexivity.
Qed.

Lemma parseCSV_In (csv : string) (m : Market) :
  In m (parseCSV csv) <->
  exists line, In line (tl (split newline (trim csv))) /\ parseRow line = Some m.
Proof.
  unfold parseCSV.
  destruct (Z.of_nat (List.length (split newline (trim csv))) <? 2) eqn:L.
  - apply Z.ltb_lt in L. split; [intros []|].
    intros (line & Hin & _).
    destruct (split newline (trim csv)) as [|h [|l r]]; simpl in *;
      try contradiction; lia.
  - rewrite in_flat_map. split.
    + intros (line & Hin & Hm). exists line. split; [exact Hin|].
      destruct (parseRow line); simpl in Hm; [|contradiction].
      destruct Hm as [-> | []]. reflexivity.
    + intros (line & Hin & Hm). exists line. split; [exact Hin|].
      rewrite Hm. left. reflexivity.
Qed.

End CsvFacts.

(** C1. The record builder keeps a data row exactly when the row has at
    least three tokens, a name that is not blank, and a latitude and a
    longitude that both read as a number other than NaN and other than
    zero: [parseFloat(..) || null] turns a coordinate 0 into [null]. The
    row "Equator Market,0,-105.5" has three tokens, a name and two
    coordinates that parse (0 and -105.5), and is dropped. *)
Theorem zero_coordinate_row_is_dropped :
  (forall csv m,
      In m (Csv.parseCSV csv) <->
      exists line, In line (tl (JS.split JS.newline (JS.trim csv)))
                   /\ Csv.parseRow line = Some m)
  /\ (forall line,
        (exists m, Csv.parseRow line = Some m) <->
        (3 <= List.length (Csv.parseCSVLine line))%nat
        /\ JS.trim (nth 0 (Csv.parseCSVLine line) "") <> ""
        /\ JS.truthy (JS.parseFloat (nth 1 (Csv.parseCSVLine line) "")) = true
        /\ JS.truthy (JS.parseFloat (nth 2 (Csv.parseCSVLine line) "")) = true)
  /\ Csv.parseCSVLine Sample.equatorRow = ["Equator Market"; "0"; "-105.5"]
  /\ JS.parseFloat "0" = JS.Decimal false 0 0
  /\ JS.parseFloat "-105.5" = JS.Decimal true 1055 (-1)
  /\ Csv.parseRow Sample.equatorRow = None
  /\ Csv.parseCSV Sample.equatorCsv = [].
Proof.
  split; [exact parseCSV_In|].
  split; [exact parseRow_kept_iff|].
  repeat split.
Qed.

(** ** Strings *)

Section CharFacts.
Import JS.

Lemma whiteSpace_not_digit (c : ascii) : isWhiteSpace c = true -> isDigit c = false.
Proof.
  unfold isWhiteSpace, isDigit. intros H.
  destruct ((48 <=? code c) && (code c <=? 57)) eqn:D; [|reflexivity].
  bool_to_prop. lia.
Qed.

Lemma digit_not_whiteSpace (c : ascii) : isDigit c = true -> isWhiteSpace c = false.
Proof.
  intros H. destruct (isWhiteSpace c) eqn:W; [|reflexivity].
  apply whiteSpace_not_digit in W. congruence.
Qed.

Lemma digit_not_upper (c : ascii) : isDigit c = true -> isUpper c = false.
Proof.
  unfold isUpper, isDigit. intros H.
  destruct ((65 <=? code c) && (code c <=? 90)) eqn:D; [|reflexivity].
  bool_to_prop. lia.
Qed.

Lemma digit_not_lower (c : ascii) : isDigit c = true -> isLower c = false.
Proof.
  unfold isLower, isDigit. intros H.
  destruct ((97 <=? code c) && (code c <=? 122)) eqn:D; [|reflexivity].
  bool_to_prop. lia.
Qed.

Lemma lower_letter_not_digit (c : ascii) :
  isLower (Dates.lowerLetter c) = true -> isDigit c = false.
Proof.
  intros H. destruct (isDigit c) eqn:D; [|reflexivity].
  unfold Dates.lowerLetter in H. rewrite (digit_not_upper c D) in H.
  rewrite (digit_not_lower c D) in H. discriminate.
Qed.

Lemma eqb_not_digit (c a : ascii) :
  isDigit c = false -> isDigit a = true -> Ascii.eqb a c = false.
Proof.
  intros Hc Ha. destruct (Ascii.eqb a c) eqn:E; [|reflexivity].
  apply Ascii.eqb_eq in E. congruence.
Qed.

End CharFacts.

Section StringFacts.
Import JS.

Lemma append_assoc (a b c : string) : (a ++ b) ++ c = a ++ (b ++ c).
Proof. induction a as [|x a IH]; simpl; [reflexivity | rewrite IH; reflexivity]. Qed.

Lemma append_empty_r (a : string) : a ++ "" = a.
Proof. induction a as [|x a IH]; simpl; [reflexivity | rewrite IH; reflexivity]. Qed.

Lemma length_append (a b : string) :
  String.length (a ++ b) = (String.length a + String.length b)%nat.
Proof. induction a as [|x a IH]; simpl; [reflexivity | rewrite IH; reflexivity]. Qed.

Lemma forallChars_append (p : ascii -> bool) (a b : string) :
  forallChars p (a ++ b) = forallChars p a && forallChars p b.
Proof.
  induction a as [|x a IH]; simpl; [reflexivity|].
  rewrite IH, andb_assoc. reflexivity.
Qed.

Lemma forallChars_impl (p q : ascii -> bool) (s : string) :
  (forall c, p c = true -> q c = true) ->
  forallChars p s = true -> forallChars q s = true.
Proof.
  intros Hpq. induction s as [|c r IH]; simpl; [reflexivity|].
  intros H. apply andb_true_iff in H. destruct H as [H1 H2].
  rewrite (Hpq c H1), (IH H2). reflexivity.
Qed.

(** *** Prefix of a string: [substring] *)

Lemma substring_prefix (a b : string) :
  String.substring 0 (String.length a) (a ++ b) = a.
Proof.
  induction a as [|x a IH]; simpl.
  - destruct b; reflexivity.
  - rewrite IH. reflexivity.
Qed.

Lemma substring_all (a : string) : String.substring 0 (String.length a) a = a.
Proof.
  induction a as [|x a IH]; simpl; [reflexivity | rewrite IH; reflexivity].
Qed.

Lemma substring_suffix (a b : string) (n : nat) :
  String.substring (String.length a) n (a ++ b) = String.substring 0 n b.
Proof.
  induction a as [|x a IH]; simpl; [reflexivity | exact IH].
Qed.

(** *** One-character searches *)

Lemma includes_char (c a : ascii) (r : string) :
  includes (String a r) (String c "") =
  Ascii.eqb c a || includes r (String c "").
Proof.
  simpl. destruct (ascii_dec c a) as [E | N].
  - subst. rewrite Ascii.eqb_refl. destruct r; reflexivity.
  - apply Ascii.eqb_neq in N. rewrite N. reflexivity.
Qed.

Lemma includes_char_iff (c : ascii) (s : string) :
  includes s (String c "") = negb (forallChars (fun a => negb (Ascii.eqb c a)) s).
Proof.
  induction s as [|a r IH]; [reflexivity|].
  rewrite includes_char, IH. cbn [forallChars].
  destruct (Ascii.eqb c a); reflexivity.
Qed.

Lemma includes_char_append (c : ascii) (a b : string) :
  includes (a ++ b) (String c "") =
  includes a (String c "") || includes b (String c "").
Proof.
  rewrite !includes_char_iff, forallChars_append, negb_andb. reflexivity.
Qed.

Lemma lastIndexOf_absent (c : ascii) (s : string) :
  includes s (String c "") = false -> lastIndexOf c s = -1.
Proof.
  induction s as [|a r IH]; [reflexivity|].
  rewrite includes_char. intros H. apply orb_false_iff in H. destruct H as [H1 H2].
  cbn [lastIndexOf]. rewrite (IH H2). cbn.
  rewrite Ascii.eqb_sym, H1. reflexivity.
Qed.

Lemma lastIndexOf_bounds (c : ascii) (s : string) :
  -1 <= lastIndexOf c s < Z.of_nat (String.length s).
Proof.
  induction s as [|a r IH]; cbn [lastIndexOf String.length]; [lia|].
  destruct (0 <=? lastIndexOf c r) eqn:E; [apply Z.leb_le in E; lia|].
  destruct (Ascii.eqb a c); lia.
Qed.

(** The last occurrence splits the string in two. *)
Lemma lastIndexOf_last (c : ascii) (a b : string) :
  includes b (String c "") = false ->
  lastIndexOf c (a ++ String c b) = Z.of_nat (String.length a).
Proof.
  intros Hb. induction a as [|x a IH].
  - cbn [append lastIndexOf String.length]. rewrite (lastIndexOf_absent c b Hb).
    cbn. rewrite Ascii.eqb_refl. reflexivity.
  - cbn [append lastIndexOf String.length]. rewrite IH.
    replace (0 <=? Z.of_nat (String.length a)) with true
      by (symmetry; apply Z.leb_le; lia).
    lia.
Qed.

Lemma lastIndexOf_split (c : ascii) (s : string) :
  0 <= lastIndexOf c s ->
  s = JS.substring s 0 (lastIndexOf c s)
      ++ String c (substringFrom s (lastIndexOf c s + 1)).
Proof.
  unfold JS.substring, substringFrom.
  induction s as [|a r IH]; cbn [lastIndexOf]; [lia|].
  pose proof (lastIndexOf_bounds c r) as Hb.
  destruct (0 <=? lastIndexOf c r) eqn:E.
  - apply Z.leb_le in E. intros _. specialize (IH E).
    replace (Z.to_nat (lastIndexOf c r + 1 - 0))
      with (S (Z.to_nat (lastIndexOf c r - 0))) by lia.
    replace (Z.to_nat (lastIndexOf c r + 1 + 1))
      with (S (Z.to_nat (lastIndexOf c r + 1))) by lia.
    cbn [String.substring String.length Z.to_nat append Nat.sub].
    f_equal. exact IH.
  - destruct (Ascii.eqb a c) eqn:A; [|lia].
    apply Ascii.eqb_eq in A. subst a. intros _.
    change (Z.to_nat (0 - 0)) with O. change (Z.to_nat (0 + 1)) with 1%nat.
    cbn [String.substring String.length append Nat.sub].
    rewrite Nat.sub_0_r.
    replace (String.substring 0 0 r) with "" by (destruct r; reflexivity).
    rewrite substring_all. reflexivity.
Qed.

Lemma split_absent (c : ascii) (s : string) :
  includes s (String c "") = false -> split c s = [s].
Proof.
  induction s as [|a r IH]; [reflexivity|].
  rewrite includes_char. intros H. apply orb_false_iff in H. destruct H as [H1 H2].
  cbn [split]. rewrite Ascii.eqb_sym, H1, (IH H2). reflexivity.
Qed.

(** *** Trimming *)

Lemma trimStart_id (c : ascii) (r : string) :
  isWhiteSpace c = false -> trimStart (String c r) = String c r.
Proof. intros H. simpl. rewrite H. reflexivity. Qed.

Lemma trimEnd_id (a : string) (c : ascii) :
  isWhiteSpace c = false -> trimEnd (a ++ String c "") = a ++ String c "".
Proof.
  intros H. induction a as [|x a IH]; cbn [append trimEnd].
  - rewrite H. reflexivity.
  - rewrite IH. destruct (a ++ String c "") eqn:E; [|reflexivity].
    destruct a; discriminate.
Qed.

(** A string that ends with a digit. *)
Lemma numeral_snoc (ds : string) :
  numeral ds = true ->
  exists a c, ds = a ++ String c "" /\ isDigit c = true.
Proof.
  unfold numeral. induction ds as [|x r IH]; [discriminate|].
  cbn. intros H. apply andb_true_iff in H. destruct H as [Hx Hr].
  destruct r as [|y r'].
  - exists "", x. auto.
  - destruct IH as (a & c & E & Hc); [exact Hr|].
    exists (String x a), c. rewrite E. auto.
Qed.

Lemma trimEnd_numeral (a ds : string) :
  numeral ds = true -> trimEnd (a ++ ds) = a ++ ds.
Proof.
  intros H. destruct (numeral_snoc ds H) as (b & c & -> & Hc).
  rewrite <- append_assoc. apply trimEnd_id, digit_not_whiteSpace, Hc.
Qed.

(** *** Digits *)

Lemma spanDigits_numeral (ds rest : string) :
  forallChars isDigit ds = true ->
  isDigit (match rest with String c _ => c | EmptyString => " "%char end) = false ->
  spanDigits (ds ++ rest) = (ds, rest).
Proof.
  intros H Hr. induction ds as [|x r IH]; cbn [append].
  - destruct rest as [|c r]; [reflexivity|]. cbn. rewrite Hr. reflexivity.
  - cbn in H. apply andb_true_iff in H. destruct H as [Hx Hds].
    cbn [spanDigits]. rewrite Hx, (IH Hds). reflexivity.
Qed.

End StringFacts.

(** ** Day numbers read from the text *)

Section DayRuns.
Import JS Dates.

Lemma runs_span (s : string) (run : option Z) :
  dayRunsInRange run s = true ->
  dayRunsInRange None (snd (spanDigits s)) = true
  /\ (if isEmpty (fst (spanDigits s)) then dayInRange run = true
      else 1 <= digitsValue (runValue run) (fst (spanDigits s)) <= 31).
Proof.
  revert run. induction s as [|c r IH]; intros run H; cbn [spanDigits].
  - cbn in *. auto.
  - cbn [dayRunsInRange] in H. destruct (isDigit c) eqn:D.
    + specialize (IH _ H). destruct (spanDigits r) as [d rest].
      cbn [fst snd isEmpty] in *. destruct IH as [IH1 IH2].
      split; [exact IH1|]. cbn [digitsValue].
      destruct d; cbn [isEmpty runValue digitsValue] in *; [|exact IH2].
      unfold dayInRange in IH2. bool_to_prop. lia.
    + cbn [fst snd isEmpty]. apply andb_true_iff in H. destruct H as [H1 H2].
      split; [|exact H1]. cbn [dayRunsInRange]. rewrite D. exact H2.
Qed.

Lemma runs_nondigit (c : ascii) (r : string) (run : option Z) :
  isDigit c = false ->
  dayRunsInRange run (String c r) = true ->
  dayInRange run = true /\ dayNumbersInRange r = true.
Proof.
  intros D H. cbn [dayRunsInRange] in H. rewrite D in H.
  apply andb_true_iff in H. exact H.
Qed.

Lemma runs_trimStart (s : string) :
  dayNumbersInRange s = true -> dayNumbersInRange (trimStart s) = true.
Proof.
  induction s as [|c r IH]; intros H; cbn [trimStart]; [exact H|].
  destruct (isWhiteSpace c) eqn:W; [|exact H].
  apply IH. apply (runs_nondigit c r None); [apply whiteSpace_not_digit, W | exact H].
Qed.

Lemma runs_trimEnd (s : string) (run : option Z) :
  dayRunsInRange run s = true -> dayRunsInRange run (trimEnd s) = true.
Proof.
  revert run. induction s as [|c r IH]; intros run H; cbn [trimEnd]; [exact H|].
  cbn [dayRunsInRange] in H. destruct (isDigit c) eqn:D.
  - specialize (IH _ H). rewrite (digit_not_whiteSpace c D).
    destruct (trimEnd r); cbn [dayRunsInRange]; rewrite D; exact IH.
  - apply andb_true_iff in H. destruct H as [H1 H2]. specialize (IH _ H2).
    destruct (trimEnd r) eqn:E.
    + destruct (isWhiteSpace c); cbn [dayRunsInRange]; [exact H1|].
      rewrite D, H1. reflexivity.
    + cbn [dayRunsInRange]. rewrite D, H1. exact IH.
Qed.

Lemma runs_trim (s : string) :
  dayNumbersInRange s = true -> dayNumbersInRange (trim s) = true.
Proof.
  intros H. unfold trim. apply runs_trimEnd, runs_trimStart, H.
Qed.

Lemma runs_append (c : ascii) (a b : string) (run : option Z) :
  isDigit c = false ->
  dayRunsInRange run (a ++ String c b) =
  dayRunsInRange run a && dayNumbersInRange b.
Proof.
  intros D. revert run. induction a as [|x a IH]; intros run;
    cbn [append dayRunsInRange].
  - rewrite D. reflexivity.
  - destruct (isDigit x); [apply IH|]. rewrite IH, andb_assoc. reflexivity.
Qed.

Lemma runs_split (sep : ascii) (s : string) (run : option Z) :
  isDigit sep = false ->
  dayRunsInRange run s = true ->
  exists h t, split sep s = h :: t
              /\ dayRunsInRange run h = true
              /\ Forall (fun p => dayNumbersInRange p = true) t.
Proof.
  intros Dsep. revert run. induction s as [|c r IH]; intros run H.
  - exists "", []. auto.
  - cbn [split]. destruct (Ascii.eqb c sep) eqn:E.
    + apply Ascii.eqb_eq in E. subst c.
      apply runs_nondigit in H; [|exact Dsep]. destruct H as [H1 H2].
      destruct (IH None H2) as (h & t & Es & Hh & Ht).
      exists "", (split sep r). split; [reflexivity|]. split; [exact H1|].
      rewrite Es. constructor; assumption.
    + cbn [dayRunsInRange] in H. destruct (isDigit c) eqn:D.
      * destruct (IH _ H) as (h & t & Es & Hh & Ht). rewrite Es.
        exists (String c h), t. split; [reflexivity|]. split; [|exact Ht].
        cbn [dayRunsInRange]. rewrite D. exact Hh.
      * apply andb_true_iff in H. destruct H as [H1 H2].
        destruct (IH None H2) as (h & t & Es & Hh & Ht). rewrite Es.
        exists (String c h), t. split; [reflexivity|]. split; [|exact Ht].
        cbn [dayRunsInRange]. rewrite D, H1. exact Hh.
Qed.

Lemma runs_split_all (sep : ascii) (s : string) :
  isDigit sep = false ->
  dayNumbersInRange s = true ->
  Forall (fun p => dayNumbersInRange p = true) (split sep s).
Proof.
  intros D H. destruct (runs_split sep s None D H) as (h & t & -> & Hh & Ht).
  constructor; assumption.
Qed.

Lemma tailInRange_start (s : string) : dayNumbersInRange s = true -> tailInRange s.
Proof. intros H. apply (runs_span s None H). Qed.

Lemma tailInRange_tail (c : ascii) (r : string) :
  tailInRange (String c r) -> tailInRange r.
Proof.
  unfold tailInRange. cbn [spanDigits]. destruct (isDigit c) eqn:D.
  - destruct (spanDigits r). exact (fun H => H).
  - cbn [snd]. intros H. apply (runs_nondigit c r None D) in H.
    apply (runs_span r None), H.
Qed.

Lemma search_in_range {A : Type} (f : string -> option A) (Q : A -> Prop) :
  (forall t x, f t = Some x ->
               isDigit (match t with String c _ => c | EmptyString => " "%char end)
               = false) ->
  (forall t x, dayNumbersInRange t = true -> f t = Some x -> Q x) ->
  forall s x, tailInRange s -> search f s = Some x -> Q x.
Proof.
  intros Hhead HQ. induction s as [|c r IH]; intros x Ht H; cbn [search] in H.
  - destruct (f "") eqn:E; [|discriminate]. injection H as <-.
    apply (HQ "" a); [reflexivity | exact E].
  - destruct (f (String c r)) eqn:E.
    + injection H as <-. apply (HQ (String c r) a); [|exact E].
      specialize (Hhead _ _ E). cbn in Hhead.
      unfold tailInRange in Ht. cbn [spanDigits] in Ht. rewrite Hhead in Ht.
      exact Ht.
    + apply (IH x); [|exact H]. apply (tailInRange_tail c r Ht).
Qed.

Lemma lookup_In (k : string) (m : list (string * Z)) (v : Z) :
  lookup k m = Some v -> In (k, v) m.
Proof.
  induction m as [|[k' v'] r IH]; cbn [lookup]; [discriminate|].
  destruct (String.eqb k' k) eqn:E.
  - apply String.eqb_eq in E. intros H. injection H as <-. subst. left. reflexivity.
  - intros H. right. apply IH, H.
Qed.

Lemma lookup_month (k : string) (mo : Z) :
  lookup k monthMap = Some mo ->
  0 <= mo <= 11 /\ String.length k = 3%nat /\ forallChars isLower k = true.
Proof.
  intros H. apply lookup_In in H. unfold monthMap in H. cbn [In] in H.
  repeat (destruct H as [H | H]; [injection H as <- <-; repeat split; lia|]).
  destruct H.
Qed.

Lemma existsb_lookup (k : string) (m : list (string * Z)) :
  existsb (fun kv => String.eqb (fst kv) k) m = true ->
  exists v, lookup k m = Some v.
Proof.
  induction m as [|[k' v'] r IH]; cbn [existsb lookup fst]; [discriminate|].
  destruct (String.eqb k' k); [eauto | exact IH].
Qed.

Lemma monthAt_some (s m r : string) :
  monthAt s = Some (m, r) ->
  exists a b c mo,
    s = String a (String b (String c r))
    /\ m = String a (String b (String c ""))
    /\ isDigit a = false /\ isDigit b = false /\ isDigit c = false
    /\ lookup (String.substring 0 3 (lowerLetters m)) monthMap = Some mo
    /\ 0 <= mo <= 11.
Proof.
  unfold monthAt. destruct s as [|a [|b [|c r']]]; try discriminate.
  destruct (existsb _ monthMap) eqn:E; [|discriminate].
  intros H. injection H as <- <-.
  apply existsb_lookup in E. destruct E as [mo E].
  destruct (lookup_month _ _ E) as (Hmo & _ & Hl).
  cbn [lowerLetters forallChars] in Hl.
  apply andb_true_iff in Hl. destruct Hl as [La Hl].
  apply andb_true_iff in Hl. destruct Hl as [Lb Hl].
  apply andb_true_iff in Hl. destruct Hl as [Lc _].
  exists a, b, c, mo. repeat split; try apply lower_letter_not_digit; try assumption; try lia.
Qed.

Lemma spacesThenDigits_day (s ds : string) :
  dayNumbersInRange s = true ->
  spacesThenDigits s = Some ds -> 1 <= parseInt ds <= 31.
Proof.
  intros H. unfold spacesThenDigits. destruct s as [|c r]; [discriminate|].
  destruct (isWhiteSpace c); [|discriminate].
  apply runs_trimStart in H. apply (runs_span _ None) in H. destruct H as [_ H].
  destruct (spanDigits (trimStart (String c r))) as [d rest]. cbn [fst] in H.
  destruct (isEmpty d); [discriminate|].
  intros E. injection E as <-. exact H.
Qed.

Lemma dateWithMonthAt_day (s : string) (x : string * string) :
  dayNumbersInRange s = true -> dateWithMonthAt s = Some x -> monthAndDay x.
Proof.
  intros H. unfold dateWithMonthAt.
  destruct (monthAt s) as [[m r]|] eqn:E; [|discriminate].
  apply monthAt_some in E.
  destruct E as (a & b & c & mo & -> & -> & Da & Db & Dc & Hl & Hmo).
  apply runs_nondigit in H; [|exact Da]. destruct H as [_ H].
  apply runs_nondigit in H; [|exact Db]. destruct H as [_ H].
  apply runs_nondigit in H; [|exact Dc]. destruct H as [_ H].
  assert (H' : dayNumbersInRange
                 (match r with String "." r1 => r1 | _ => r end) = true).
  { destruct r as [|d r1]; [exact H|].
    destruct (Ascii.eqb d ".") eqn:Ed.
    - apply Ascii.eqb_eq in Ed. subst d.
      apply (runs_nondigit "." r1 None); [reflexivity | exact H].
    - destruct d as [[] [] [] [] [] [] [] []]; try exact H; discriminate Ed. }
  destruct (spacesThenDigits _) as [ds|] eqn:Es; [|discriminate].
  intros Ex. injection Ex as <-. exists mo. cbn [fst snd].
  repeat split; try assumption; try lia;
    apply (spacesThenDigits_day _ _ H' Es).
Qed.

Lemma simpleDateAt_day (s : string) (x : string * string) :
  dayNumbersInRange s = true -> simpleDateAt s = Some x -> monthAndDay x.
Proof.
  intros H. unfold simpleDateAt.
  destruct (monthAt s) as [[m r]|] eqn:E; [|discriminate].
  apply monthAt_some in E.
  destruct E as (a & b & c & mo & -> & -> & Da & Db & Dc & Hl & Hmo).
  apply runs_nondigit in H; [|exact Da]. destruct H as [_ H].
  apply runs_nondigit in H; [|exact Db]. destruct H as [_ H].
  apply runs_nondigit in H; [|exact Dc]. destruct H as [_ H].
  destruct (spacesThenDigits r) as [ds|] eqn:Es; [|discriminate].
  intros Ex. injection Ex as <-. exists mo. cbn [fst snd].
  repeat split; try assumption; try lia;
    apply (spacesThenDigits_day _ _ H Es).
Qed.

Lemma monthAt_head (s : string) (x : string * string) :
  monthAt s = Some x ->
  isDigit (match s with String c _ => c | EmptyString => " "%char end) = false.
Proof.
  destruct x as [m r]. intros E. apply monthAt_some in E.
  destruct E as (a & b & c & mo & -> & _ & Da & _). exact Da.
Qed.

Lemma dateWithMonthAt_head (s : string) (x : string * string) :
  dateWithMonthAt s = Some x ->
  isDigit (match s with String c _ => c | EmptyString => " "%char end) = false.
Proof.
  unfold dateWithMonthAt. destruct (monthAt s) as [y|] eqn:E; [|discriminate].
  intros _. apply (monthAt_head s y E).
Qed.

Lemma simpleDateAt_head (s : string) (x : string * string) :
  simpleDateAt s = Some x ->
  isDigit (match s with String c _ => c | EmptyString => " "%char end) = false.
Proof.
  unfold simpleDateAt. destruct (monthAt s) as [y|] eqn:E; [|discriminate].
  intros _. apply (monthAt_head s y E).
Qed.

Lemma search_digitsAt_day (s ds : string) :
  dayNumbersInRange s = true ->
  search digitsAt s = Some ds -> 1 <= parseInt ds <= 31.
Proof.
  induction s as [|c r IH]; intros H; cbn [search]; unfold digitsAt at 1;
    cbn [spanDigits].
  - discriminate.
  - destruct (isDigit c) eqn:D.
    + pose proof (runs_span (String c r) None H) as [_ Hs].
      cbn [spanDigits] in Hs. rewrite D in Hs.
      destruct (spanDigits r) as [d rest]. cbn [fst isEmpty] in *.
      intros E. injection E as <-. exact Hs.
    + cbn [isEmpty]. apply IH. apply (runs_nondigit c r None D H).
Qed.

End DayRuns.

(** ** The season year *)

Section SeasonYear.
Import JS Date Dates.

Lemma civil_2025 (n : Z) :
  20089 <= n < 20454 ->
  exists m d, civilFromDay n = (2025, m, d) /\ 0 <= m <= 11.
Proof.
  intros Hn.
  assert (C : forallb
                (fun i => let '(y, m, _) := civilFromDay (20089 + Z.of_nat i) in
                          (y =? 2025) && (0 <=? m) && (m <=? 11))
                (seq 0 365) = true) by (vm_compute; reflexivity).
  rewrite forallb_forall in C.
  specialize (C (Z.to_nat (n - 20089))).
  replace (20089 + Z.of_nat (Z.to_nat (n - 20089))) with n in C by lia.
  destruct (civilFromDay n) as [[y m] d].
  assert (Hin : In (Z.to_nat (n - 20089)) (seq 0 365)) by (apply in_seq; lia).
  specialize (C Hin).
  apply andb_true_iff in C. destruct C as [C C3].
  apply andb_true_iff in C. destruct C as [C1 C2].
  apply Z.eqb_eq in C1. apply Z.leb_le in C2, C3. subst y.
  exists m, d. split; [reflexivity | lia].
Qed.

Lemma in2025_day (t : Z) :
  20089 * msPerDay <= t < 20454 * msPerDay -> 20089 <= t / msPerDay < 20454.
Proof.
  intros H. pose proof msPerDay_pos. split.
  - apply Z.div_le_lower_bound; lia.
  - apply Z.div_lt_upper_bound; lia.
Qed.

Lemma in2025_year (d : JSDate) :
  in2025 d ->
  getFullYear d = Some 2025 /\ exists mo, getMonth d = Some mo /\ 0 <= mo <= 11.
Proof.
  intros (t & -> & Ht). apply in2025_day in Ht.
  destruct (civil_2025 _ Ht) as (m & dd & E & Hm).
  cbn [getFullYear getMonth]. rewrite E. split; [reflexivity|].
  exists m. split; [reflexivity | exact Hm].
Qed.

Lemma makeDay_2025 (mo d : Z) :
  0 <= mo <= 11 -> 1 <= d <= 31 -> 20089 <= makeDay 2025 mo d < 20454.
Proof.
  intros Hmo Hd. unfold makeDay.
  assert (C : mo = 0 \/ mo = 1 \/ mo = 2 \/ mo = 3 \/ mo = 4 \/ mo = 5 \/ mo = 6
              \/ mo = 7 \/ mo = 8 \/ mo = 9 \/ mo = 10 \/ mo = 11) by lia.
  repeat (destruct C as [-> | C];
          [set (b := dayFromYearMonth _ _); vm_compute in b; subst b; lia|]).
  subst mo. set (b := dayFromYearMonth _ _); vm_compute in b; subst b; lia.
Qed.

Lemma make_in2025 (mo d : Z) :
  0 <= mo <= 11 -> 1 <= d <= 31 -> in2025 (make (Some 2025) (Some mo) (Some d)).
Proof.
  intros Hmo Hd. pose proof (makeDay_2025 mo d Hmo Hd) as Hb.
  unfold make. change ((0 <=? 2025) && (2025 <=? 99)) with false. cbv iota.
  pose proof msPerDay_pos.
  assert (Hmax : maxTime = 100000000 * msPerDay) by reflexivity.
  exists (makeDay 2025 mo d * msPerDay). split; [apply timeClip_valid; nia | nia].
Qed.

Lemma dateOfMatch_in2025 (x : string * string) (d : JSDate) :
  monthAndDay x -> dateOfMatch (Some x) = Some d -> in2025 d.
Proof.
  destruct x as [m ds]. intros (mo & Hl & Hmo & Hd). cbn [fst snd] in *.
  unfold dateOfMatch. rewrite Hl. intros E. injection E as <-.
  apply make_in2025; assumption.
Qed.

Lemma parseDateWithMonth_in2025 (s : string) (d : JSDate) :
  dayNumbersInRange s = true -> parseDateWithMonth s = Some d -> in2025 d.
Proof.
  intros H. unfold parseDateWithMonth.
  destruct (search dateWithMonthAt s) as [x|] eqn:E; [|discriminate].
  apply dateOfMatch_in2025.
  apply (search_in_range dateWithMonthAt monthAndDay
           dateWithMonthAt_head dateWithMonthAt_day s x);
    [apply tailInRange_start, H | exact E].
Qed.

Lemma parseSimpleDate_in2025 (s : string) (d : JSDate) :
  dayNumbersInRange s = true -> parseSimpleDate s = Some d -> in2025 d.
Proof.
  intros H. unfold parseSimpleDate.
  destruct (search simpleDateAt s) as [x|] eqn:E; [|discriminate].
  apply dateOfMatch_in2025.
  apply (search_in_range simpleDateAt monthAndDay
           simpleDateAt_head simpleDateAt_day s x);
    [apply tailInRange_start, H | exact E].
Qed.

Lemma daysFromTo_in2025 (sd ed x : JSDate) :
  in2025 sd -> in2025 ed -> In x (daysFromTo sd ed) -> in2025 x.
Proof.
  intros (ts & -> & Hs) (te & -> & He) Hx.
  apply forEachDay_bounds in Hx.
  destruct Hx as (td & te' & t & E1 & E2 & -> & Hb).
  injection E1 as <-. injection E2 as <-.
  exists t. split; [reflexivity | lia].
Qed.

Lemma parseEnd_in2025 (sd ed : JSDate) (endStr : string) :
  dayNumbersInRange endStr = true -> in2025 sd ->
  parseEnd (Some sd) endStr = Some ed -> in2025 ed.
Proof.
  intros H Hsd. unfold parseEnd.
  destruct (parseDateWithMonth endStr) as [e|] eqn:E.
  - intros X. injection X as <-. apply (parseDateWithMonth_in2025 endStr e H E).
  - destruct (search digitsAt endStr) as [ds|] eqn:Ed; [|discriminate].
    intros X. injection X as <-.
    destruct (in2025_year sd Hsd) as (_ & mo & -> & Hmo).
    apply make_in2025; [exact Hmo|].
    apply (search_digitsAt_day endStr ds H Ed).
Qed.

Lemma parsePipe_in2025 (range : string) (x : JSDate) :
  dayNumbersInRange range = true -> In x (parsePipe range) -> in2025 x.
Proof.
  intros H. unfold parsePipe.
  pose proof (runs_split_all "|" range eq_refl H) as Hp.
  destruct (split "|" range) as [|a [|b r]]; cbn [map]; try (intros []).
  inversion Hp as [|? ? Ha Hp']. inversion Hp' as [|? ? Hb _]. subst.
  destruct (negb (isEmpty (trim a)) && negb (isEmpty (trim b))); [|intros []].
  destruct (parseSimpleDate (trim a)) as [sd|] eqn:Ea; [|intros []].
  destruct (parseSimpleDate (trim b)) as [ed|] eqn:Eb; [|intros []].
  apply daysFromTo_in2025.
  - apply (parseSimpleDate_in2025 (trim a)); [apply runs_trim, Ha | exact Ea].
  - apply (parseSimpleDate_in2025 (trim b)); [apply runs_trim, Hb | exact Eb].
Qed.

Lemma parseDash_in2025 (range : string) (x : JSDate) :
  dayNumbersInRange range = true -> In x (parseDash range) -> in2025 x.
Proof.
  intros H. unfold parseDash.
  destruct (0 <? lastIndexOf "-" range) eqn:P; [|intros []].
  apply Z.ltb_lt in P.
  assert (Hsplit := lastIndexOf_split "-" range ltac:(lia)).
  set (l := JS.substring range 0 (lastIndexOf "-" range)) in *.
  set (r := substringFrom range (lastIndexOf "-" range + 1)) in *.
  unfold dayNumbersInRange in H. rewrite Hsplit in H.
  rewrite (runs_append "-" l r None eq_refl) in H.
  apply andb_true_iff in H. destruct H as [Hl Hr].
  destruct (parseDateWithMonth (trim l)) as [sd|] eqn:Es; [|intros []].
  assert (Hsd : in2025 sd).
  { apply (parseDateWithMonth_in2025 (trim l)); [apply runs_trim, Hl | exact Es]. }
  destruct (parseEnd (Some sd) (trim r)) as [ed|] eqn:Ee; [|intros []].
  apply daysFromTo_in2025; [exact Hsd|].
  apply (parseEnd_in2025 sd ed (trim r)); [apply runs_trim, Hr | exact Hsd | exact Ee].
Qed.

Lemma parseRange_in2025 (range : string) (x : JSDate) :
  dayNumbersInRange range = true -> In x (parseRange range) -> in2025 x.
Proof.
  intros H. unfold parseRange.
  destruct (includes range "|"); [apply parsePipe_in2025, H|].
  destruct (includes range "-"); [apply parseDash_in2025, H|].
  destruct (parseDateWithMonth range) as [d|] eqn:E; [|intros []].
  intros [<- | []]. apply (parseDateWithMonth_in2025 range d H E).
Qed.

Lemma parseMarketDates_in2025 (s : string) (x : JSDate) :
  dayNumbersInRange s = true -> In x (parseMarketDates s) -> in2025 x.
Proof.
  intros H. unfold parseMarketDates. rewrite in_flat_map.
  intros (range & Hin & Hx). apply in_map_iff in Hin.
  destruct Hin as (p & <- & Hp).
  apply (parseRange_in2025 (trim p)); [|exact Hx].
  apply runs_trim.
  pose proof (runs_split_all "," s eq_refl H) as Hall.
  rewrite Forall_forall in Hall. apply Hall, Hp.
Qed.

End SeasonYear.

(** C3, as the code has it. Day numbers are not validated: a date is
    built as day [d] of a month of 2025 and rolls over when [d] is not a
    day of that month. Every date returned has year 2025 provided every
    day number in the text (every maximal run of decimal digits) lies
    between 1 and 31. *)
Theorem parsed_dates_in_season_year :
  forall (dateString : string) (d : Date.JSDate),
    dayNumbersInRange dateString = true ->
    In d (Dates.parseMarketDates dateString) ->
    Date.getFullYear d = Some 2025.
Proof.
  intros s d H Hin.
  apply (in2025_year d). apply (parseMarketDates_in2025 s d H Hin).
Qed.

Lemma parsed_dates_in_season_year_witness :
  Date.getFullYear (Date.make (Some 2025) (Some 10) (Some 28)) = Some 2025.
Proof.
  apply (parsed_dates_in_season_year "Nov. 28-Dec. 1, Dec. 13-14").
  - reflexivity.
  - vm_compute. left. reflexivity.
Defined.

(** The claim of C3 without the proviso fails: "Dec. 32" is read as
    1 January 2026, and "Jan. 0" as 31 December 2024. *)
Lemma parsed_dates_leave_season_year :
  map Date.ymd (Dates.parseMarketDates "Dec. 32") = [Some (2026, 0, 1)]
  /\ map Date.ymd (Dates.parseMarketDates "Jan. 0") = [Some (2024, 11, 31)]
  /\ ~ (forall (dateString : string) (d : Date.JSDate),
           In d (Dates.parseMarketDates dateString) ->
           Date.getFullYear d = Some 2025).
Proof.
  split; [reflexivity|]. split; [reflexivity|].
  intros H.
  specialize (H "Dec. 32" (Date.make (Some 2025) (Some 11) (Some 32))).
  assert (E : Date.getFullYear (Date.make (Some 2025) (Some 11) (Some 32)) = Some 2025).
  { apply H. vm_compute. left. reflexivity. }
  vm_compute in E. discriminate E.
Qed.

(** ** Fragments of the dash format *)

Section Fragments.
Import JS Date Dates.

Lemma monthLetter_letter (c : ascii) :
  monthLetter c = true -> isUpper c || isLower c = true.
Proof.
  unfold monthLetter, lowerLetter. destruct (isUpper c); [reflexivity|].
  intros ->. reflexivity.
Qed.

Lemma monthLetter_not_whiteSpace (c : ascii) :
  monthLetter c = true -> isWhiteSpace c = false.
Proof.
  intros H. apply monthLetter_letter in H.
  destruct (isWhiteSpace c) eqn:W; [|reflexivity].
  unfold isUpper, isLower, isWhiteSpace in *. bool_cases; lia.
Qed.

Lemma monthLetter_neq (c x : ascii) :
  monthLetter c = true -> monthLetter x = false -> Ascii.eqb x c = false.
Proof.
  intros Hc Hx. destruct (Ascii.eqb x c) eqn:E; [|reflexivity].
  apply Ascii.eqb_eq in E. congruence.
Qed.

Lemma digit_neq (c x : ascii) :
  isDigit c = true -> isDigit x = false -> Ascii.eqb x c = false.
Proof.
  intros Hc Hx. destruct (Ascii.eqb x c) eqn:E; [|reflexivity].
  apply Ascii.eqb_eq in E. congruence.
Qed.

Lemma includes_none (p : ascii -> bool) (c : ascii) (s : string) :
  p c = false -> forallChars p s = true -> includes s (String c "") = false.
Proof.
  intros Hc Hs. rewrite includes_char_iff. apply negb_false_iff.
  apply (forallChars_impl p); [|exact Hs].
  intros a Ha. apply negb_true_iff.
  destruct (Ascii.eqb c a) eqn:E; [|reflexivity].
  apply Ascii.eqb_eq in E. congruence.
Qed.

Lemma forallChars_lowerLetters (p : ascii -> bool) (s : string) :
  forallChars p (lowerLetters s) = forallChars (fun c => p (lowerLetter c)) s.
Proof.
  induction s as [|c r IH]; cbn; [reflexivity | rewrite IH; reflexivity].
Qed.

Lemma length_lowerLetters (s : string) :
  String.length (lowerLetters s) = String.length s.
Proof.
  induction s as [|c r IH]; cbn; [reflexivity | rewrite IH; reflexivity].
Qed.

Lemma abbreviates_shape (mon : string) (mo : Z) :
  abbreviates mon mo ->
  0 <= mo <= 11
  /\ forallChars monthLetter mon = true
  /\ exists a b c, mon = String a (String b (String c "")).
Proof.
  intros H. apply lookup_month in H. destruct H as (Hmo & Hlen & Hl).
  rewrite length_lowerLetters in Hlen. rewrite forallChars_lowerLetters in Hl.
  split; [exact Hmo|]. split; [exact Hl|].
  destruct mon as [|a [|b [|c [|d r]]]]; try discriminate Hlen. eauto.
Qed.

Lemma lookup_existsb (k : string) (m : list (string * Z)) (v : Z) :
  lookup k m = Some v ->
  existsb (fun kv => String.eqb (fst kv) k) m = true.
Proof.
  induction m as [|[k' v'] r IH]; cbn [existsb lookup fst]; [discriminate|].
  destruct (String.eqb k' k); [reflexivity | exact IH].
Qed.

Lemma monthAt_abbreviation (mon rest : string) (mo : Z) :
  abbreviates mon mo -> monthAt (mon ++ rest) = Some (mon, rest).
Proof.
  intros H. destruct (abbreviates_shape mon mo H) as (_ & _ & a & b & c & ->).
  cbn [append]. unfold monthAt.
  rewrite (lookup_existsb _ _ _ H). reflexivity.
Qed.

Lemma spanDigits_all (ds : string) :
  forallChars isDigit ds = true -> spanDigits ds = (ds, "").
Proof.
  intros H. rewrite <- (append_empty_r ds) at 1.
  apply spanDigits_numeral; [exact H | reflexivity].
Qed.

Lemma numeral_head (ds : string) :
  numeral ds = true ->
  exists c r, ds = String c r /\ isDigit c = true /\ forallChars isDigit r = true.
Proof.
  unfold numeral. destruct ds as [|c r]; [discriminate|]. cbn.
  intros H. apply andb_true_iff in H. destruct H. eauto.
Qed.

Lemma numeral_digits (ds : string) : numeral ds = true -> forallChars isDigit ds = true.
Proof.
  unfold numeral. intros H. apply andb_true_iff in H. apply H.
Qed.

Lemma trim_numeral (ds : string) : numeral ds = true -> trim ds = ds.
Proof.
  intros H. destruct (numeral_head ds H) as (c & r & E & Hc & _).
  unfold trim. rewrite E at 1. rewrite trimStart_id by (apply digit_not_whiteSpace, Hc).
  rewrite <- E. apply (trimEnd_numeral "" ds H).
Qed.

Lemma spacesThenDigits_numeral (ds : string) :
  numeral ds = true -> spacesThenDigits (String " " ds) = Some ds.
Proof.
  intros H. destruct (numeral_head ds H) as (c & r & E & Hc & Hr).
  unfold spacesThenDigits. change (isWhiteSpace " ") with true. cbv iota.
  change (trimStart (String " " ds)) with (trimStart ds).
  rewrite E at 1. rewrite trimStart_id by (apply digit_not_whiteSpace, Hc).
  rewrite <- E. rewrite (spanDigits_all ds (numeral_digits ds H)).
  rewrite E. reflexivity.
Qed.

(** The left side [<Mon>. <day>] or [<Mon> <day>] is matched where it
    starts. *)
Lemma dateWithMonthAt_left (mon ds : string) (period : bool) (mo : Z) :
  abbreviates mon mo -> numeral ds = true ->
  dateWithMonthAt (mon ++ (if period then ". " else " ") ++ ds) = Some (mon, ds).
Proof.
  intros Hm Hd. unfold dateWithMonthAt.
  rewrite (monthAt_abbreviation mon _ mo Hm).
  destruct period; cbn [append]; rewrite (spacesThenDigits_numeral ds Hd);
    reflexivity.
Qed.

Lemma search_head {A : Type} (f : string -> option A) (s : string) (x : A) :
  f s = Some x -> search f s = Some x.
Proof. intros H. destruct s; cbn [search]; rewrite H; reflexivity. Qed.

Lemma parseDateWithMonth_left (mon ds : string) (period : bool) (mo : Z) :
  abbreviates mon mo -> numeral ds = true ->
  parseDateWithMonth (mon ++ (if period then ". " else " ") ++ ds)
  = Some (make (Some 2025) (Some mo) (Some (parseInt ds))).
Proof.
  intros Hm Hd. unfold parseDateWithMonth.
  rewrite (search_head _ _ _ (dateWithMonthAt_left mon ds period mo Hm Hd)).
  unfold dateOfMatch.
  destruct (abbreviates_shape mon mo Hm) as (_ & _ & a & b & c & E).
  replace (String.substring 0 3 (lowerLetters mon)) with (lowerLetters mon)
    by (rewrite E; reflexivity).
  unfold abbreviates in Hm. rewrite Hm. reflexivity.
Qed.

(** No month is found in a string of digits. *)
Lemma parseDateWithMonth_numeral (ds : string) :
  forallChars isDigit ds = true -> parseDateWithMonth ds = None.
Proof.
  intros H. unfold parseDateWithMonth.
  replace (search dateWithMonthAt ds) with (@None (string * string)); [reflexivity|].
  symmetry. induction ds as [|c r IH]; cbn [search].
  - reflexivity.
  - cbn in H. apply andb_true_iff in H. destruct H as [Hc Hr].
    destruct (dateWithMonthAt (String c r)) as [x|] eqn:E.
    + apply dateWithMonthAt_head in E. cbn in E. congruence.
    + apply IH, Hr.
Qed.

Lemma digitsValue_nonneg (ds : string) (acc : Z) :
  forallChars isDigit ds = true -> 0 <= acc -> 0 <= digitsValue acc ds.
Proof.
  revert acc. induction ds as [|c r IH]; intros acc H Hacc; cbn [digitsValue].
  - exact Hacc.
  - cbn in H. apply andb_true_iff in H. destruct H as [Hc Hr].
    apply IH; [exact Hr|]. unfold isDigit in Hc. bool_cases. lia.
Qed.

Lemma parseInt_nonneg (ds : string) :
  forallChars isDigit ds = true -> 0 <= parseInt ds.
Proof. intros H. apply digitsValue_nonneg; [exact H | lia]. Qed.

Lemma search_digitsAt_numeral (ds : string) :
  numeral ds = true -> search digitsAt ds = Some ds.
Proof.
  intros H. apply search_head. unfold digitsAt.
  rewrite (spanDigits_all ds (numeral_digits ds H)).
  destruct (numeral_head ds H) as (c & r & -> & _). reflexivity.
Qed.

(** *** The dash, located *)

Lemma parseDash_at (l r : string) :
  includes r "-" = false -> l <> "" ->
  parseDash (l ++ String "-" r) =
  match parseDateWithMonth (trim l) with
  | Some sd =>
      match parseEnd (Some sd) (trim r) with
      | Some ed => daysFromTo sd ed
      | None => []
      end
  | None => []
  end.
Proof.
  intros Hr Hl. unfold parseDash.
  rewrite (lastIndexOf_last "-" l r Hr).
  assert (Hlen : (0 < String.length l)%nat) by (destruct l; [congruence | cbn; lia]).
  replace (0 <? Z.of_nat (String.length l)) with true
    by (symmetry; apply Z.ltb_lt; lia).
  unfold JS.substring, substringFrom.
  replace (Z.to_nat (Z.of_nat (String.length l) - 0)) with (String.length l) by lia.
  change (Z.to_nat 0) with O. rewrite substring_prefix.
  replace (Z.to_nat (Z.of_nat (String.length l) + 1))
    with (String.length (l ++ String "-" "")) by (rewrite length_append; cbn; lia).
  replace (l ++ String "-" r) with ((l ++ String "-" "") ++ r)
    by (rewrite append_assoc; reflexivity).
  rewrite substring_suffix.
  replace (String.length ((l ++ String "-" "") ++ r)
           - String.length (l ++ String "-" ""))%nat
    with (String.length r) by (rewrite (length_append (l ++ String "-" "") r); lia).
  rewrite substring_all.
  destruct (parseDateWithMonth (trim l)) as [sd|]; [reflexivity|].
  destruct (parseEnd None (trim r)); reflexivity.
Qed.

Lemma includes_dash (l r : string) : includes (l ++ String "-" r) "-" = true.
Proof.
  rewrite includes_char_append, includes_char, Ascii.eqb_refl.
  apply orb_true_r.
Qed.

Lemma parseRange_dash (l r : string) :
  includes (l ++ String "-" r) "|" = false ->
  includes r "-" = false -> l <> "" ->
  parseRange (l ++ String "-" r) =
  match parseDateWithMonth (trim l) with
  | Some sd =>
      match parseEnd (Some sd) (trim r) with
      | Some ed => daysFromTo sd ed
      | None => []
      end
  | None => []
  end.
Proof.
  intros Hp Hr Hl. unfold parseRange. rewrite Hp, includes_dash.
  apply parseDash_at; assumption.
Qed.

(** *** Days of a month *)

Lemma make_ymd (mo d : Z) :
  0 <= mo <= 11 -> 1 <= d <= daysInMonth mo ->
  ymd (make (Some 2025) (Some mo) (Some d)) = Some (2025, mo, d).
Proof.
  intros Hmo Hd.
  assert (C : forallb
                (fun m =>
                   forallb
                     (fun k =>
                        match ymd (make (Some 2025) (Some (Z.of_nat m))
                                     (Some (Z.of_nat k))) with
                        | Some (y, m', d') =>
                            (y =? 2025) && (m' =? Z.of_nat m) && (d' =? Z.of_nat k)
                        | None => false
                        end)
                     (seq 1 (Z.to_nat (daysInMonth (Z.of_nat m)))))
                (seq 0 12) = true) by (vm_compute; reflexivity).
  rewrite forallb_forall in C.
  specialize (C (Z.to_nat mo)). rewrite Z2Nat.id in C by lia.
  assert (Hin : In (Z.to_nat mo) (seq 0 12)) by (apply in_seq; lia).
  specialize (C Hin). rewrite forallb_forall in C.
  specialize (C (Z.to_nat d)). rewrite Z2Nat.id in C by lia.
  assert (Hin' : In (Z.to_nat d) (seq 1 (Z.to_nat (daysInMonth mo))))
    by (apply in_seq; lia).
  specialize (C Hin').
  destruct (ymd (make (Some 2025) (Some mo) (Some d))) as [[[y m'] d']|];
    [|discriminate].
  apply andb_true_iff in C. destruct C as [C C3].
  apply andb_true_iff in C. destruct C as [C1 C2].
  apply Z.eqb_eq in C1, C2, C3. subst. reflexivity.
Qed.

Lemma make_getMonth (mo d : Z) :
  0 <= mo <= 11 -> 1 <= d <= daysInMonth mo ->
  getMonth (make (Some 2025) (Some mo) (Some d)) = Some mo
  /\ getDate (make (Some 2025) (Some mo) (Some d)) = Some d.
Proof.
  intros Hmo Hd. pose proof (make_ymd mo d Hmo Hd) as H.
  destruct (make (Some 2025) (Some mo) (Some d)) as [t|]; [|discriminate].
  unfold ymd in H. unfold getMonth, getDate.
  assert (E : civilFromDay (t / msPerDay) = (2025, mo, d)) by congruence.
  rewrite E. split; reflexivity.
Qed.

(** An earlier day of the same month is not after a later one. *)
Lemma make_reversed (mo d1 d2 : Z) :
  d1 < d2 ->
  leq (make (Some 2025) (Some mo) (Some d2)) (make (Some 2025) (Some mo) (Some d1))
  = false.
Proof.
  intros H. unfold make. change ((0 <=? 2025) && (2025 <=? 99)) with false.
  cbv iota. unfold makeDay, timeClip. pose proof msPerDay_pos.
  set (b := dayFromYearMonth _ _).
  destruct (Z.abs ((b + d2 - 1) * msPerDay) <=? maxTime); [|reflexivity].
  destruct (Z.abs ((b + d1 - 1) * msPerDay) <=? maxTime); [|reflexivity].
  cbn [leq]. apply Z.leb_gt. nia.
Qed.

End Fragments.

Section SameMonth.
Import JS Date Dates.

Variables (mon startDay endDay : string) (period : bool) (mo : Z).
Hypothesis Hmon : abbreviates mon mo.
Hypothesis Hstart : numeral startDay = true.
Hypothesis Hend : numeral endDay = true.

Lemma sameMonthRange_sides :
  sameMonthRange mon period startDay endDay
  = leftSide mon period startDay ++ String "-" endDay.
Proof.
  unfold sameMonthRange, leftSide. rewrite !append_assoc. reflexivity.
Qed.

Lemma left_head :
  exists a r, leftSide mon period startDay = String a r /\ monthLetter a = true.
Proof.
  destruct (abbreviates_shape mon mo Hmon) as (_ & Hl & a & b & c & E).
  unfold leftSide. rewrite E in *. cbn [append]. cbn in Hl.
  apply andb_true_iff in Hl. destruct Hl as [Ha _]. eauto.
Qed.

Lemma left_nonempty : leftSide mon period startDay <> "".
Proof. destruct left_head as (a & r & -> & _). discriminate. Qed.

Lemma trim_left : trim (leftSide mon period startDay) = leftSide mon period startDay.
Proof.
  destruct left_head as (a & r & E & Ha). unfold trim.
  rewrite E at 1. rewrite trimStart_id by (apply monthLetter_not_whiteSpace, Ha).
  rewrite <- E. unfold leftSide. rewrite <- append_assoc.
  apply trimEnd_numeral, Hstart.
Qed.

Lemma trim_sameMonthRange :
  trim (sameMonthRange mon period startDay endDay)
  = sameMonthRange mon period startDay endDay.
Proof.
  rewrite sameMonthRange_sides.
  destruct left_head as (a & r & E & Ha). unfold trim.
  rewrite E at 1. cbn [append].
  rewrite trimStart_id by (apply monthLetter_not_whiteSpace, Ha).
  change (String a (r ++ String "-" endDay)) with (String a r ++ String "-" endDay).
  rewrite <- E.
  replace (leftSide mon period startDay ++ String "-" endDay)
    with ((leftSide mon period startDay ++ String "-" "") ++ endDay)
    by (rewrite append_assoc; reflexivity).
  apply trimEnd_numeral, Hend.
Qed.

(** Neither a comma nor a pipe occurs in the fragment. *)
Lemma sameMonthRange_excludes (c : ascii) :
  c = ","%char \/ c = "|"%char ->
  includes (sameMonthRange mon period startDay endDay) (String c "") = false.
Proof.
  intros Hc. unfold sameMonthRange. rewrite !includes_char_append.
  destruct (abbreviates_shape mon mo Hmon) as (_ & Hl & _).
  rewrite (includes_none monthLetter c mon), (includes_none isDigit c startDay),
    (includes_none isDigit c endDay);
    try (apply numeral_digits; assumption); try assumption;
    try (destruct Hc as [-> | ->]; reflexivity).
  destruct Hc as [-> | ->]; destruct period; reflexivity.
Qed.

Lemma sameMonthRange_dates :
  parseRange (sameMonthRange mon period startDay endDay) =
  daysFromTo (make (Some 2025) (Some mo) (Some (parseInt startDay)))
    (make (Some 2025) (getMonth (make (Some 2025) (Some mo) (Some (parseInt startDay))))
       (Some (parseInt endDay))).
Proof.
  pose proof (sameMonthRange_excludes "|" (or_intror eq_refl)) as Hp.
  rewrite sameMonthRange_sides in *.
  rewrite parseRange_dash;
    [| exact Hp
     | apply (includes_none isDigit); [reflexivity | apply numeral_digits, Hend]
     | apply left_nonempty].
  rewrite trim_left, (trim_numeral endDay Hend). unfold leftSide.
  rewrite (parseDateWithMonth_left mon startDay period mo Hmon Hstart).
  unfold parseEnd.
  rewrite (parseDateWithMonth_numeral endDay (numeral_digits endDay Hend)).
  rewrite (search_digitsAt_numeral endDay Hend). reflexivity.
Qed.

Lemma parseMarketDates_sameMonthRange :
  parseMarketDates (sameMonthRange mon period startDay endDay)
  = parseRange (sameMonthRange mon period startDay endDay).
Proof.
  unfold parseMarketDates.
  rewrite (split_absent "," _ (sameMonthRange_excludes "," (or_introl eq_refl))).
  cbn [map flat_map]. rewrite trim_sameMonthRange. apply app_nil_r.
Qed.

End SameMonth.

(** C9, as the code has it. A fragment [<Mon>. <startDay>-<endDay>]
    (period optional) whose end day is below its start day yields no date,
    with no exception and no swap of the ends, provided the start day is a
    day of that month; the end is then the day [endDay] of the same month,
    which lies before the start. *)
Theorem reversed_range_is_empty :
  forall (mon startDay endDay : string) (period : bool) (mo : Z),
    abbreviates mon mo ->
    numeral startDay = true ->
    numeral endDay = true ->
    JS.parseInt startDay <= daysInMonth mo ->
    JS.parseInt endDay < JS.parseInt startDay ->
    Dates.parseRange (sameMonthRange mon period startDay endDay) = []
    /\ Dates.parseMarketDates (sameMonthRange mon period startDay endDay) = [].
Proof.
  intros mon startDay endDay period mo Hmon Hs He Hday Hlt.
  pose proof (parseInt_nonneg endDay (numeral_digits endDay He)) as Hpos.
  assert (E : Dates.parseRange (sameMonthRange mon period startDay endDay) = []).
  { rewrite (sameMonthRange_dates mon startDay endDay period mo Hmon Hs He).
    destruct (abbreviates_shape mon mo Hmon) as (Hmo & _).
    destruct (make_getMonth mo (JS.parseInt startDay) Hmo) as [-> _]; [lia|].
    apply daysFromTo_reversed, make_reversed, Hlt. }
  split; [exact E|].
  rewrite (parseMarketDates_sameMonthRange mon startDay endDay period mo Hmon Hs He).
  exact E.
Qed.

Lemma reversed_range_is_empty_witness :
  Dates.parseRange "Dec. 14-13" = [] /\ Dates.parseMarketDates "Dec. 14-13" = [].
Proof.
  apply (reversed_range_is_empty "Dec" "14" "13" true 11).
  - reflexivity.
  - reflexivity.
  - reflexivity.
  - vm_compute. discriminate.
  - reflexivity.
Defined.

(** The claim of C9 without the proviso fails: in "Nov. 31-30" the end
    day is below the start day, the start rolls over to 1 December, the
    end becomes 30 December, and thirty dates are produced. *)
Lemma reversed_range_with_rollover :
  sameMonthRange "Nov" true "31" "30" = "Nov. 31-30"
  /\ abbreviates "Nov" 10
  /\ JS.parseInt "30" < JS.parseInt "31"
  /\ map Date.ymd (Dates.parseMarketDates "Nov. 31-30")
     = map (fun d => Some (2025, 11, Z.of_nat d)) (seq 1 30)
  /\ ~ (forall (mon startDay endDay : string) (period : bool) (mo : Z),
           abbreviates mon mo ->
           numeral startDay = true ->
           numeral endDay = true ->
           JS.parseInt endDay < JS.parseInt startDay ->
           Dates.parseMarketDates (sameMonthRange mon period startDay endDay) = []).
Proof.
  split; [reflexivity|]. split; [reflexivity|]. split; [reflexivity|].
  split; [vm_compute; reflexivity|].
  intros H. specialize (H "Nov" "31" "30" true 10).
  assert (E : Dates.parseMarketDates (sameMonthRange "Nov" true "31" "30") = []).
  { apply H; reflexivity. }
  apply (f_equal (@List.length _)) in E. vm_compute in E. discriminate E.
Qed.

(** ** Worked examples *)

Example trim_example : JS.trim "  a b  " = "a b".
Proof. reflexivity. Qed.

Example split_example : JS.split "," "a,,b," = ["a"; ""; "b"; ""].
Proof. reflexivity. Qed.

Example lastIndexOf_example : JS.lastIndexOf "-" "ab-c-d" = 4.
Proof. reflexivity. Qed.

Example includes_example :
  JS.includes "abc" "" = true /\ JS.includes "" "" = true
  /\ JS.includes "abc" "bc" = true /\ JS.includes "abc" "cb" = false.
Proof. repeat split. Qed.

Example parseFloat_examples :
  JS.parseFloat " -12.50e1x" = JS.Decimal true 1250 (-1)
  /\ JS.parseFloat "." = JS.NaN
  /\ JS.parseFloat ".5" = JS.Decimal false 5 (-1)
  /\ JS.parseFloat "abc" = JS.NaN
  /\ JS.truthy (JS.parseFloat "0.000") = false
  /\ JS.truthy (JS.parseFloat "39.7392") = true.
Proof. repeat split. Qed.

Example civil_examples :
  Date.makeDay 2025 0 1 = 20089
  /\ Date.civilFromDay 20089 = (2025, 0, 1)
  /\ Date.civilFromDay 0 = (1970, 0, 1)
  /\ Date.civilFromDay (-1) = (1969, 11, 31)
  /\ Date.civilFromDay (Date.makeDay 2024 1 29) = (2024, 1, 29)
  /\ Date.civilFromDay (Date.makeDay 1900 1 29) = (1900, 2, 1)
  /\ Date.makeDay 2000 0 1 = 10957.
Proof. repeat split. Qed.

Example same_month_example :
  map Date.ymd (Dates.parseMarketDates "Dec. 13-14")
  = [Some (2025, 11, 13); Some (2025, 11, 14)].
Proof. vm_compute. reflexivity. Qed.

Example pipe_example :
  map Date.ymd (Dates.parseMarketDates "Nov 29|Nov 30")
  = [Some (2025, 10, 29); Some (2025, 10, 30)].
Proof. vm_compute. reflexivity. Qed.

Example row_filter_example :
  Csv.parseRow "Market,north,-105.5" = None
  /\ Csv.parseRow " ,39.7,-105.5" = None
  /\ Csv.parseRow "Market,39.7" = None.
Proof. repeat split. Qed.

(** * Further properties *)

(** ** The calendar *)

Section Calendar.
Import Date.

Lemma yearOfEra_bounds (doe : Z) :
  0 <= doe <= 146096 ->
  let yoe := (doe - doe / 1460 + doe / 36524 - doe / 146096) / 365 in
  0 <= yoe <= 399 /\ 0 <= doe - (365 * yoe + yoe / 4 - yoe / 100) <= 365.
Proof.
  intros H yoe. subst yoe. Z.div_mod_to_equations. lia.
Qed.

Lemma dayFromYearMonth_era (yoe era mp : Z) :
  0 <= yoe <= 399 -> 0 <= mp <= 11 ->
  let mn := if mp <? 10 then mp + 2 else mp - 10 in
  let y := yoe + era * 400 + (if mn <=? 1 then 1 else 0) in
  dayFromYearMonth (y + mn / 12) (mn mod 12)
  = era * 146097 + (yoe * 365 + yoe / 4 - yoe / 100 + (153 * mp + 2) / 5) - 719468
  /\ 0 <= mn <= 11.
Proof.
  intros Hy Hm mn y.
  assert (Hmn : 0 <= mn <= 11).
  { subst mn.
    destruct (mp <? 10) eqn:E; [apply Z.ltb_lt in E | apply Z.ltb_ge in E]; lia. }
  split; [|exact Hmn].
  rewrite Z.div_small, Z.mod_small by lia. rewrite Z.add_0_r.
  unfold dayFromYearMonth.
  assert (Hy' : (if mn <=? 1 then y - 1 else y) = yoe + era * 400).
  { subst y. destruct (mn <=? 1); lia. }
  rewrite Hy'.
  assert (He : (yoe + era * 400) / 400 = era).
  { rewrite Z.div_add by lia. rewrite Z.div_small by lia. lia. }
  rewrite He.
  assert (Hmp : (if 2 <=? mn then mn - 2 else mn + 10) = mp).
  { subst mn.
    destruct (mp <? 10) eqn:E; [apply Z.ltb_lt in E | apply Z.ltb_ge in E].
    - replace (2 <=? mp + 2) with true by (symmetry; apply Z.leb_le; lia). lia.
    - replace (2 <=? mp - 10) with false by (symmetry; apply Z.leb_gt; lia). lia. }
  rewrite Hmp.
  replace (yoe + era * 400 - era * 400) with yoe by lia. reflexivity.
Qed.

(** The day number of the year, month and day of a day number is that
    day number, in every year. *)
Lemma civil_roundtrip (z : Z) :
  let '(y, m, d) := civilFromDay z in
  makeDay y m d = z /\ 0 <= m <= 11 /\ 1 <= d <= 31
  /\ (z + 719468) / 146097 * 400 <= y.
Proof.
  unfold civilFromDay.
  set (z' := z + 719468). set (era := z' / 146097).
  set (doe := z' - era * 146097).
  assert (Hdoe : 0 <= doe <= 146096).
  { subst doe era. pose proof (Z.mod_pos_bound z' 146097 ltac:(lia)) as H.
    rewrite Z.mod_eq in H by lia. lia. }
  destruct (yearOfEra_bounds doe Hdoe) as [Hyoe Hdoy].
  set (yoe := (doe - doe / 1460 + doe / 36524 - doe / 146096) / 365) in *.
  set (doy := doe - (365 * yoe + yoe / 4 - yoe / 100)) in *.
  set (mp := (5 * doy + 2) / 153).
  assert (Hmp : 0 <= mp <= 11).
  { subst mp. clearbody doy. clear - Hdoy. Z.div_mod_to_equations. lia. }
  destruct (dayFromYearMonth_era yoe era mp Hyoe Hmp) as [E Hmn].
  cbv zeta in E. unfold makeDay. rewrite E.
  split.
  { subst doy doe z'. clearbody mp era yoe. clear. lia. }
  split; [exact Hmn|].
  split.
  { subst mp. clearbody doy. clear - Hdoy. Z.div_mod_to_equations. lia. }
  destruct (_ <=? 1); lia.
Qed.

(** [new Date(d.getFullYear(), d.getMonth(), d.getDate())] is the local
    midnight of the day of [d], for a date from 1970 on. *)
Lemma make_startOfDay (t : Z) :
  0 <= t <= maxTime ->
  make (getFullYear (Ms t)) (getMonth (Ms t)) (getDate (Ms t))
  = Ms (t / msPerDay * msPerDay).
Proof.
  intros Ht. pose proof msPerDay_pos as Hpos.
  assert (Hz : 0 <= t / msPerDay) by (apply Z.div_pos; lia).
  pose proof (civil_roundtrip (t / msPerDay)) as R.
  unfold getFullYear, getMonth, getDate.
  destruct (civilFromDay (t / msPerDay)) as [[y m] d].
  destruct R as (R1 & _ & _ & Ry).
  assert (Hera : 4 <= (t / msPerDay + 719468) / 146097)
    by (apply Z.div_le_lower_bound; lia).
  unfold make.
  replace ((0 <=? y) && (y <=? 99)) with false
    by (symmetry; apply andb_false_iff; right; apply Z.leb_gt; lia).
  rewrite R1. apply timeClip_valid.
  pose proof (Z.mul_div_le t msPerDay Hpos). lia.
Qed.

Lemma sameDay_startOfDay (d : JSDate) (t : Z) :
  sameDay d (Ms (t / msPerDay * msPerDay)) = sameDay d (Ms t).
Proof.
  unfold sameDay, getFullYear, getMonth, getDate.
  rewrite Z.div_mul by (pose proof msPerDay_pos; lia). reflexivity.
Qed.

Lemma existsb_pointwise {A : Type} (f g : A -> bool) (l : list A) :
  (forall x, f x = g x) -> existsb f l = existsb g l.
Proof.
  intros H. induction l as [|x r IH]; simpl; [reflexivity|].
  rewrite H, IH. reflexivity.
Qed.

End Calendar.

(** X1. For a session whose reference dates are valid and not before
    1970, the "today" filter keeps a record with dates exactly when one of
    them has the year, month and day of [state.today], and the "tomorrow"
    filter when one has those of [state.tomorrow]; the time of day of the
    reference plays no part. *)
Theorem today_and_tomorrow_filters :
  forall (st : Catalog.State) (m : Catalog.Market) (t u : Z),
    Catalog.today st = Date.Ms t -> 0 <= t <= Date.maxTime ->
    Catalog.tomorrow st = Date.Ms u -> 0 <= u <= Date.maxTime ->
    Csv.dates m <> [] ->
    Catalog.marketIsOpenOnDate st m "today"
    = JS.Normal (existsb (fun d => Date.sameDay d (Date.Ms t)) (Csv.dates m))
    /\ Catalog.marketIsOpenOnDate st m "tomorrow"
       = JS.Normal (existsb (fun d => Date.sameDay d (Date.Ms u)) (Csv.dates m)).
Proof.
  intros st m t u Et Ht Eu Hu Hd. unfold Catalog.marketIsOpenOnDate.
  destruct (Nat.eqb (List.length (Csv.dates m)) 0) eqn:E.
  { apply Nat.eqb_eq, length_zero_iff_nil in E. contradiction. }
  change (String.eqb "today" "today") with true.
  change (String.eqb "tomorrow" "today") with false.
  change (String.eqb "tomorrow" "tomorrow") with true.
  cbv iota. rewrite Et, Eu, !make_startOfDay by assumption.
  rewrite !some_total. split; f_equal; apply existsb_pointwise; intros d;
    apply sameDay_startOfDay.
Qed.

Lemma today_and_tomorrow_filters_witness :
  Catalog.marketIsOpenOnDate (Sample.session "" "today") Sample.marketA "today"
  = JS.Normal
      (existsb (fun d => Date.sameDay d (Date.Ms Sample.noonDec13))
         (Csv.dates Sample.marketA))
  /\ Catalog.marketIsOpenOnDate (Sample.session "" "today") Sample.marketA "tomorrow"
     = JS.Normal
         (existsb (fun d => Date.sameDay d (Date.Ms (Sample.noonDec13 + 86400000)))
            (Csv.dates Sample.marketA)).
Proof.
  apply (today_and_tomorrow_filters (Sample.session "" "today") Sample.marketA).
  - reflexivity.
  - split; vm_compute; discriminate.
  - reflexivity.
  - split; vm_compute; discriminate.
  - discriminate.
Defined.

(** ** The line tokenizer *)

Section Tokenizer.
Import JS Csv.

Lemma split_cons (sep : ascii) (s : string) : exists h t, split sep s = h :: t.
Proof.
  induction s as [|c r IH]; cbn [split]; [eauto|].
  destruct (Ascii.eqb c sep); [eauto|].
  destruct IH as (h & t & ->). eauto.
Qed.

Lemma split_append (sep : ascii) (a b : string) :
  split sep (a ++ String sep b) = (split sep a ++ split sep b)%list.
Proof.
  induction a as [|c r IH]; cbn [append split].
  - rewrite Ascii.eqb_refl. reflexivity.
  - destruct (Ascii.eqb c sep); [rewrite IH; reflexivity|].
    rewrite IH. destruct (split_cons sep r) as (h & t & ->). reflexivity.
Qed.

Lemma without_includes (c : ascii) (s : string) :
  without c s = true -> includes s (String c "") = false.
Proof.
  intros H. rewrite includes_char_iff. apply negb_false_iff.
  apply (forallChars_impl (fun a => negb (Ascii.eqb a c))); [|exact H].
  intros a Ha. rewrite Ascii.eqb_sym. exact Ha.
Qed.

(** Outside quotes, and with no quote ahead, the tokenizer splits at the
    commas. *)
Lemma parseCSVLine_from_plain (line current : string) (result : list string) :
  without dquote line = true ->
  exists h t,
    split "," line = h :: t
    /\ parseCSVLine_from line current false result
       = (result ++ (current ++ h)%string :: t)%list.
Proof.
  revert current result. induction line as [|c r IH]; intros current result H.
  - exists "", []. split; [reflexivity|]. cbn. rewrite append_empty_r. reflexivity.
  - unfold without in H. cbn [forallChars] in H.
    apply andb_true_iff in H. destruct H as [Hc Hr].
    apply negb_true_iff in Hc. cbn [parseCSVLine_from split]. rewrite Hc.
    destruct (Ascii.eqb c ",") eqn:E; cbn [andb negb].
    + destruct (IH "" (result ++ [current])%list Hr) as (h & t & Es & ->).
      exists "", (h :: t). rewrite Es. split; [reflexivity|].
      rewrite append_empty_r, <- app_assoc. reflexivity.
    + destruct (IH (current ++ String c "") result Hr) as (h & t & Es & ->).
      exists (String c h), t. rewrite Es. split; [reflexivity|].
      rewrite append_assoc. reflexivity.
Qed.

(** Inside a quote that never closes, everything is one field. *)
Lemma parseCSVLine_from_open (line current : string) (result : list string) :
  without dquote line = true ->
  parseCSVLine_from line current true result
  = (result ++ [(current ++ line)%string])%list.
Proof.
  revert current. induction line as [|c r IH]; intros current H.
  - cbn. rewrite append_empty_r. reflexivity.
  - unfold without in H. cbn [forallChars] in H.
    apply andb_true_iff in H. destruct H as [Hc Hr].
    apply negb_true_iff in Hc. cbn [parseCSVLine_from]. rewrite Hc.
    rewrite andb_false_r. rewrite (IH _ Hr), append_assoc. reflexivity.
Qed.

(** A quoted field is read back, up to its closing quote. *)
Lemma parseCSVLine_from_quoted (field rest current : string) (result : list string) :
  (rest = "" \/ exists more, rest = String "," more) ->
  parseCSVLine_from (doubleQuotes field ++ String dquote rest) current true result
  = parseCSVLine_from rest (current ++ field) false result.
Proof.
  intros Hrest. revert current. induction field as [|c r IH]; intros current.
  - cbn [doubleQuotes append parseCSVLine_from]. rewrite Ascii.eqb_refl.
    rewrite append_empty_r.
    destruct Hrest as [-> | [more ->]]; [reflexivity|].
    change (Ascii.eqb "," dquote) with false. rewrite andb_false_r. reflexivity.
  - cbn [doubleQuotes]. destruct (Ascii.eqb c dquote) eqn:E.
    + apply Ascii.eqb_eq in E. subst c.
      cbn [append parseCSVLine_from]. rewrite Ascii.eqb_refl. cbn [andb].
      rewrite IH, append_assoc. reflexivity.
    + cbn [append parseCSVLine_from]. rewrite E, andb_false_r.
      rewrite IH, append_assoc. reflexivity.
Qed.

Lemma parseCSVLine_from_field (field rest current : string) (result : list string) :
  (rest = "" \/ exists more, rest = String "," more) ->
  parseCSVLine_from (quoted field ++ rest) current false result
  = parseCSVLine_from rest (current ++ field) false result.
Proof.
  intros Hrest. unfold quoted. cbn [append]. rewrite append_assoc. cbn [append].
  cbn [parseCSVLine_from]. rewrite Ascii.eqb_refl. cbn [andb negb].
  destruct (doubleQuotes field ++ String dquote rest) eqn:E.
  - destruct (doubleQuotes field); discriminate.
  - rewrite <- E. apply parseCSVLine_from_quoted, Hrest.
Qed.

Lemma parseCSVLine_from_csvLine (fields : list string) (result : list string) :
  fields <> [] ->
  parseCSVLine_from (csvLine fields) "" false result = (result ++ fields)%list.
Proof.
  revert result. induction fields as [|f r IH]; intros result H; [congruence|].
  unfold csvLine. cbn [map joinWith]. destruct r as [|g r'].
  - cbn [map]. rewrite <- (append_empty_r (quoted f)).
    rewrite parseCSVLine_from_field by (left; reflexivity). reflexivity.
  - cbn [map]. change (map quoted (g :: r')) with (map quoted (g :: r')).
    rewrite parseCSVLine_from_field by (right; eexists; reflexivity).
    cbn [append parseCSVLine_from].
    change (Ascii.eqb "," dquote) with false. cbv iota.
    rewrite Ascii.eqb_refl. cbn [andb negb].
    change (joinWith "," (quoted g :: map quoted r')) with (csvLine (g :: r')).
    rewrite IH by discriminate. rewrite <- app_assoc. reflexivity.
Qed.

Lemma split_joinWith (fields : list string) :
  fields <> [] ->
  Forall (fun f => without "," f = true) fields ->
  split "," (joinWith "," fields) = fields.
Proof.
  induction fields as [|f r IH]; intros H Hall; [congruence|].
  inversion Hall as [|? ? Hf Hr]; subst. cbn [joinWith]. destruct r as [|g r'].
  - apply split_absent, without_includes, Hf.
  - cbn [append]. rewrite split_append.
    rewrite (split_absent "," f (without_includes "," f Hf)).
    rewrite IH by (discriminate || assumption). reflexivity.
Qed.

Lemma without_joinWith (c : ascii) (fields : list string) :
  Ascii.eqb "," c = false ->
  Forall (fun f => without c f = true) fields ->
  without c (joinWith "," fields) = true.
Proof.
  intros Hc Hall. induction Hall as [|f r Hf Hr IH]; [reflexivity|].
  cbn [joinWith]. destruct r as [|g r']; [exact Hf|].
  unfold without in *. rewrite forallChars_append. cbn [append forallChars].
  rewrite Hf, Hc, IH. reflexivity.
Qed.

End Tokenizer.

(** X2. On a line with no double quote, [parseCSVLine] is the split at
    the commas; after a quote that is never closed, the rest of the line,
    commas included, is one field. *)
Theorem tokenizer_without_quotes :
  forall line : string,
    without JS.dquote line = true ->
    Csv.parseCSVLine line = JS.split "," line
    /\ Csv.parseCSVLine (String JS.dquote line) = [line].
Proof.
  intros line H. unfold Csv.parseCSVLine. split.
  - destruct (parseCSVLine_from_plain line "" [] H) as (h & t & -> & ->).
    reflexivity.
  - cbn [Csv.parseCSVLine_from]. rewrite Ascii.eqb_refl. cbn [andb].
    destruct line as [|c r]; [reflexivity|].
    apply (parseCSVLine_from_open (String c r) "" [] H).
Qed.

Lemma tokenizer_without_quotes_witness :
  Csv.parseCSVLine "Market,39.7,-105.5" = JS.split "," "Market,39.7,-105.5"
  /\ Csv.parseCSVLine (String JS.dquote "Market,39.7,-105.5") = ["Market,39.7,-105.5"].
Proof.
  apply (tokenizer_without_quotes "Market,39.7,-105.5"). reflexivity.
Defined.

(** X3. The tokenizer undoes quoting: a line made of one or more fields,
    each written between double quotes with its own double quotes doubled,
    and joined by commas, is read back as these fields, whatever commas and
    quotes they hold; so is a line of unquoted fields that hold neither. *)
Theorem tokenizer_round_trip :
  forall fields : list string,
    fields <> [] ->
    Csv.parseCSVLine (csvLine fields) = fields
    /\ (Forall (fun f => without "," f = true /\ without JS.dquote f = true) fields ->
        Csv.parseCSVLine (joinWith "," fields) = fields).
Proof.
  intros fields H. split.
  - apply (parseCSVLine_from_csvLine fields [] H).
  - intros Hall.
    assert (Hq : without JS.dquote (joinWith "," fields) = true).
    { apply without_joinWith; [reflexivity|].
      eapply Forall_impl; [|exact Hall]. intros f [_ Hf]. exact Hf. }
    unfold Csv.parseCSVLine.
    destruct (parseCSVLine_from_plain _ "" [] Hq) as (h & t & Es & ->).
    cbn [app append]. rewrite <- Es. apply split_joinWith; [exact H|].
    eapply Forall_impl; [|exact Hall]. intros f [Hf _]. exact Hf.
Qed.

Lemma tokenizer_round_trip_witness :
  Csv.parseCSVLine
    (csvLine ["Union Station, Denver"; String JS.dquote "Winter" ++ String JS.dquote ""])
  = ["Union Station, Denver"; String JS.dquote "Winter" ++ String JS.dquote ""]
  /\ Csv.parseCSVLine (joinWith "," ["Market"; "39.7"]) = ["Market"; "39.7"].
Proof.
  split.
  - apply (tokenizer_round_trip
             ["Union Station, Denver"; String JS.dquote "Winter" ++ String JS.dquote ""]).
    discriminate.
  - apply (tokenizer_round_trip ["Market"; "39.7"]); [discriminate|].
    repeat constructor.
Defined.

(** ** Records and cities *)

Section Records.
Import JS Csv City.

Lemma extractCity_cases (address : string) :
  extractCityFromAddress address = "Unknown"
  \/ cityLike (extractCityFromAddress address) = true.
Proof.
  unfold extractCityFromAddress.
  destruct (isEmpty address || isEmpty (trim address)); [left; reflexivity|].
  destruct (scanFromEnd _) as [c|] eqn:Es.
  - right. apply scanFromEnd_some in Es. apply Es.
  - destruct (fallback _) as [c|] eqn:Ef; [|left; reflexivity].
    right. apply fallback_some in Ef. apply Ef.
Qed.

Lemma fieldOr_nonempty (values : list string) (i : nat) (dflt : string) :
  dflt <> "" -> fieldOr values i dflt <> "".
Proof.
  intros H. unfold fieldOr. destruct (nth_error values i) as [v|]; [|exact H].
  destruct (isEmpty (trim v)) eqn:E; [exact H|].
  intros E'. rewrite E' in E. discriminate E.
Qed.

Lemma parseRow_wellFormed (line : string) (m : Market) :
  parseRow line = Some m -> wellFormed m.
Proof.
  unfold parseRow. set (values := parseCSVLine line).
  destruct (Z.of_nat (List.length values) <? 3) eqn:L; [discriminate|].
  destruct (isEmpty (trim (nth 0 values ""))) eqn:N; [discriminate|].
  cbn [orb]. unfold orNull.
  destruct (truthy (parseFloat (nth 1 values ""))) eqn:T1; [|discriminate].
  destruct (truthy (parseFloat (nth 2 values ""))) eqn:T2; [|discriminate].
  intros H. injection H as <-. unfold wellFormed. cbn.
  split.
  { unfold fieldOr. destruct values as [|v r]; [cbn in L; discriminate|].
    cbn [nth_error nth] in *. rewrite N. intros E. rewrite E in N. discriminate N. }
  split; [eauto|]. split; [eauto|].
  split; [apply fieldOr_nonempty; discriminate|].
  split; [apply fieldOr_nonempty; discriminate|].
  split; [reflexivity|].
  split; [|reflexivity].
  destruct (extractCity_cases (fieldOr values 5 "")) as [-> | H];
    [discriminate | apply cityLike_nonempty, H].
Qed.

Lemma flat_map_option_length {A B : Type} (f : A -> option B) (l : list A) :
  (List.length (flat_map (fun a => optionToList (f a)) l) <= List.length l)%nat.
Proof.
  induction l as [|a r IH]; cbn; [lia|].
  destruct (f a); cbn; lia.
Qed.

End Records.

(** X4. Every record [parseCSV] returns has a name that is not empty,
    two coordinates that are numbers other than NaN and zero, a region, a
    cost and a city that are not empty, the city being the one extracted
    from its address and its dates the ones parsed from its date text; and
    there are never more records than lines after the header. *)
Theorem records_are_well_formed :
  (forall (csv : string) (m : Csv.Market),
      In m (Csv.parseCSV csv) -> wellFormed m)
  /\ (forall csv : string,
        (List.length (Csv.parseCSV csv)
         <= List.length (JS.split JS.newline (JS.trim csv)) - 1)%nat).
Proof.
  split.
  - intros csv m H. apply parseCSV_In in H. destruct H as (line & _ & H).
    apply (parseRow_wellFormed line m H).
  - intros csv. unfold Csv.parseCSV.
    destruct (Z.of_nat (List.length (JS.split JS.newline (JS.trim csv))) <? 2);
      [cbn; lia|].
    eapply Nat.le_trans; [apply flat_map_option_length|].
    destruct (JS.split JS.newline (JS.trim csv)); cbn; lia.
Qed.

Lemma records_are_well_formed_witness :
  wellFormed
    {| Csv.name := "Market";
       Csv.lat := Some (JS.Decimal false 397 (-1));
       Csv.lon := Some (JS.Decimal true 1055 (-1));
       Csv.region := "Unknown";
       Csv.city := "Unknown";
       Csv.zipCode := "";
       Csv.address := "";
       Csv.date := "";
       Csv.cost := "Free";
       Csv.website := "";
       Csv.description := "";
       Csv.dates := [] |}.
Proof.
  apply (proj1 records_are_well_formed
           ("Name,Lat,Lon" ++ String JS.newline "Market,39.7,-105.5")).
  vm_compute. left. reflexivity.
Defined.

(** X5. [extractCityFromAddress] never returns an empty string and never
    returns a part that starts like a street number (digits followed by
    white space). *)
Theorem city_is_never_a_street_number :
  forall address : string,
    City.extractCityFromAddress address <> ""
    /\ City.streetNumber (City.extractCityFromAddress address) = false.
Proof.
  intros address.
  destruct (extractCity_cases address) as [-> | H]; [split; [discriminate | reflexivity]|].
  split; [apply cityLike_nonempty, H|].
  unfold City.cityLike in H.
  apply andb_true_iff in H. destruct H as [H _].
  apply andb_true_iff in H. destruct H as [_ H].
  apply negb_true_iff in H. exact H.
Qed.

(** X6. When the last comma-separated part of a non-blank address is a
    state part (state code and zip between word boundaries, or a bare
    state code) and the part before it is not empty and does not start
    like a street number, that part is the city. *)
Theorem city_is_the_part_before_the_state :
  forall (address city state : string) (before : list string),
    JS.trim address <> "" ->
    map JS.trim (JS.split "," address) = (before ++ [city; state])%list ->
    City.stateZip state || City.bareState state = true ->
    City.cityLike city = true ->
    City.extractCityFromAddress address = city.
Proof.
  intros address city state before Hblank Hparts Hstate Hcity.
  unfold City.extractCityFromAddress.
  assert (E1 : JS.isEmpty address = false).
  { destruct address; [exfalso; apply Hblank; reflexivity | reflexivity]. }
  assert (E2 : JS.isEmpty (JS.trim address) = false).
  { destruct (JS.trim address); [congruence | reflexivity]. }
  rewrite E1, E2, Hparts. cbn [orb].
  rewrite rev_app_distr. cbn [rev app City.scanFromEnd].
  rewrite Hstate, Hcity. reflexivity.
Qed.

Lemma city_is_the_part_before_the_state_witness :
  City.extractCityFromAddress "2500 E 1st Ave, Denver, CO 80206" = "Denver".
Proof.
  apply (city_is_the_part_before_the_state
           "2500 E 1st Ave, Denver, CO 80206" "Denver" "CO 80206" ["2500 E 1st Ave"]);
    [discriminate | reflexivity | reflexivity | reflexivity].
Defined.

(** ** More of the date grammar *)

Section Grammar.
Import JS Date Dates.

Lemma forallChars_trimStart (p : ascii -> bool) (s : string) :
  forallChars p s = true -> forallChars p (trimStart s) = true.
Proof.
  induction s as [|c r IH]; intros H; cbn [trimStart]; [exact H|].
  destruct (isWhiteSpace c); [|exact H].
  cbn in H. apply andb_true_iff in H. apply IH, H.
Qed.

Lemma forallChars_trimEnd (p : ascii -> bool) (s : string) :
  forallChars p s = true -> forallChars p (trimEnd s) = true.
Proof.
  induction s as [|c r IH]; intros H; cbn [trimEnd]; [exact H|].
  cbn in H. apply andb_true_iff in H. destruct H as [Hc Hr].
  specialize (IH Hr). destruct (trimEnd r) eqn:E.
  - destruct (isWhiteSpace c); cbn; [reflexivity | rewrite Hc; reflexivity].
  - cbn [forallChars]. rewrite Hc. exact IH.
Qed.

Lemma forallChars_trim (p : ascii -> bool) (s : string) :
  forallChars p s = true -> forallChars p (trim s) = true.
Proof.
  intros H. apply forallChars_trimEnd, forallChars_trimStart, H.
Qed.

Lemma forallChars_substring (p : ascii -> bool) (s : string) (n m : nat) :
  forallChars p s = true -> forallChars p (String.substring n m s) = true.
Proof.
  revert n m. induction s as [|c r IH]; intros n m H.
  - destruct n, m; reflexivity.
  - cbn in H. apply andb_true_iff in H. destruct H as [Hc Hr].
    destruct n as [|n]; cbn [String.substring].
    + destruct m as [|m]; [reflexivity|]. cbn [forallChars].
      rewrite Hc. apply IH, Hr.
    + apply IH, Hr.
Qed.

Lemma forallChars_split (p : ascii -> bool) (sep : ascii) (s : string) :
  forallChars p s = true ->
  Forall (fun piece => forallChars p piece = true) (split sep s).
Proof.
  induction s as [|c r IH]; intros H; cbn [split].
  - repeat constructor.
  - cbn in H. apply andb_true_iff in H. destruct H as [Hc Hr].
    specialize (IH Hr). destruct (Ascii.eqb c sep).
    + constructor; [reflexivity | exact IH].
    + destruct (split sep r) as [|h t]; [repeat constructor; cbn; rewrite Hc; reflexivity|].
      inversion IH as [|? ? Hh Ht]; subst.
      constructor; [cbn; rewrite Hc; exact Hh | exact Ht].
Qed.

Lemma spacesThenDigits_noDigits (s : string) :
  noDigits s = true -> spacesThenDigits s = None.
Proof.
  intros H. unfold spacesThenDigits. destruct s as [|c r]; [reflexivity|].
  destruct (isWhiteSpace c); [|reflexivity].
  apply (forallChars_trimStart _ (String c r)) in H.
  destruct (trimStart (String c r)) as [|d r'] eqn:E; [reflexivity|].
  cbn in H. apply andb_true_iff in H. destruct H as [Hd _].
  apply negb_true_iff in Hd. cbn [spanDigits]. rewrite Hd. reflexivity.
Qed.

Lemma forallChars_tail3 (p : ascii -> bool) (a b c : ascii) (r : string) :
  forallChars p (String a (String b (String c r))) = true -> forallChars p r = true.
Proof.
  cbn. intros H.
  apply andb_true_iff in H. destruct H as [_ H].
  apply andb_true_iff in H. destruct H as [_ H].
  apply andb_true_iff in H. apply H.
Qed.

Lemma dateWithMonthAt_noDigits (s : string) :
  noDigits s = true -> dateWithMonthAt s = None.
Proof.
  intros H. unfold dateWithMonthAt.
  destruct (monthAt s) as [[m r]|] eqn:E; [|reflexivity].
  apply monthAt_some in E. destruct E as (a & b & c & mo & -> & _).
  apply forallChars_tail3 in H.
  rewrite spacesThenDigits_noDigits; [reflexivity|].
  destruct r as [|d r1]; [exact H|].
  destruct (Ascii.eqb d ".") eqn:Ed.
  - apply Ascii.eqb_eq in Ed. subst d. cbn in H. exact H.
  - destruct d as [[] [] [] [] [] [] [] []]; try exact H; discriminate Ed.
Qed.

Lemma simpleDateAt_noDigits (s : string) :
  noDigits s = true -> simpleDateAt s = None.
Proof.
  intros H. unfold simpleDateAt.
  destruct (monthAt s) as [[m r]|] eqn:E; [|reflexivity].
  apply monthAt_some in E. destruct E as (a & b & c & mo & -> & _).
  apply forallChars_tail3 in H.
  rewrite spacesThenDigits_noDigits; [reflexivity | exact H].
Qed.

Lemma search_noDigits {A : Type} (f : string -> option A) (s : string) :
  (forall t, noDigits t = true -> f t = None) ->
  noDigits s = true -> search f s = None.
Proof.
  intros Hf. induction s as [|c r IH]; intros H; cbn [search]; rewrite (Hf _ H).
  - reflexivity.
  - apply IH. cbn in H. apply andb_true_iff in H. apply H.
Qed.

Lemma parseRange_noDigits (range : string) :
  noDigits range = true -> parseRange range = [].
Proof.
  intros H. unfold parseRange.
  destruct (includes range "|").
  { unfold parsePipe.
    pose proof (forallChars_split _ "|" range H) as Hp.
    destruct (split "|" range) as [|a [|b r]]; cbn [map]; try reflexivity.
    inversion Hp as [|? ? Ha _]; subst.
    destruct (negb (isEmpty (trim a)) && negb (isEmpty (trim b))); [|reflexivity].
    unfold parseSimpleDate at 1.
    rewrite (search_noDigits simpleDateAt (trim a) simpleDateAt_noDigits);
      [reflexivity | apply forallChars_trim, Ha]. }
  destruct (includes range "-").
  { unfold parseDash. destruct (0 <? lastIndexOf "-" range); [|reflexivity].
    unfold parseDateWithMonth at 1.
    rewrite (search_noDigits dateWithMonthAt _ dateWithMonthAt_noDigits);
      [reflexivity|].
    apply forallChars_trim. unfold JS.substring. apply forallChars_substring, H. }
  unfold parseDateWithMonth.
  rewrite (search_noDigits dateWithMonthAt _ dateWithMonthAt_noDigits H).
  reflexivity.
Qed.

Lemma flat_map_nil {A B : Type} (f : A -> list B) (l : list A) :
  Forall (fun a => f a = []) l -> flat_map f l = [].
Proof.
  induction 1 as [|a r Ha _ IH]; cbn; [reflexivity|]. rewrite Ha, IH. reflexivity.
Qed.

Lemma parseMarketDates_noDigits (s : string) :
  noDigits s = true -> parseMarketDates s = [].
Proof.
  intros H. unfold parseMarketDates. apply flat_map_nil.
  apply Forall_map. eapply Forall_impl; [|apply (forallChars_split _ "," s H)].
  intros piece Hp. cbn beta in Hp. apply parseRange_noDigits, forallChars_trim, Hp.
Qed.

End Grammar.

(** X7. The ranges of a date text are read one by one: the dates of
    [a,b] are the dates of [a] followed by the dates of [b]. *)
Theorem dates_of_a_comma_list :
  forall a b : string,
    Dates.parseMarketDates (a ++ "," ++ b)
    = (Dates.parseMarketDates a ++ Dates.parseMarketDates b)%list.
Proof.
  intros a b. unfold Dates.parseMarketDates.
  change (a ++ "," ++ b) with (a ++ String "," b).
  rewrite split_append, map_app, flat_map_app. reflexivity.
Qed.

(** X8. A date text without any decimal digit ("Daily", "TBD", the
    empty text) yields no date, and a record with such dates passes every
    date filter. *)
Theorem text_without_digits_has_no_dates :
  forall s : string,
    noDigits s = true ->
    Dates.parseMarketDates s = []
    /\ (forall (st : Catalog.State) (m : Catalog.Market) (kind : string),
          Csv.dates m = Dates.parseMarketDates s ->
          Catalog.marketIsOpenOnDate st m kind = JS.Normal true).
Proof.
  intros s H. pose proof (parseMarketDates_noDigits s H) as E.
  split; [exact E|].
  intros st m kind Hm. apply marketIsOpenOnDate_empty. rewrite Hm. exact E.
Qed.

Lemma text_without_digits_has_no_dates_witness :
  Dates.parseMarketDates "Daily, Nov-Dec" = [].
Proof.
  apply (text_without_digits_has_no_dates "Daily, Nov-Dec"). reflexivity.
Defined.

(** ** Well-formed ranges *)

Section ForwardRanges.
Import JS Date Dates.






(** *** The pipe format *)




End ForwardRanges.

Section DashRanges.
Import JS Date Dates.



End DashRanges.








(** ** The month of a date text *)

Section MonthOfText.
Import JS Dates.

(** A pattern that matches wherever another one does is found whenever
    the other one is. *)
Lemma search_weaken {A B : Type} (f : string -> option A) (g : string -> option B) :
  (forall t x, f t = Some x -> exists y, g t = Some y) ->
  forall s x, search f s = Some x -> exists y, search g s = Some y.
Proof.
  intros Hfg. induction s as [|c r IH]; intros x H; cbn [search] in *.
  - destruct (f "") as [a|] eqn:E; [|discriminate].
    destruct (Hfg _ _ E) as [y ->]. eauto.
  - destruct (g (String c r)) as [y|] eqn:Eg; [eauto|].
    destruct (f (String c r)) as [a|] eqn:E.
    + destruct (Hfg _ _ E) as [y Hy]. congruence.
    + apply (IH x), H.
Qed.

(** What a pattern finds, it matches at the head of some suffix. *)
Lemma search_some {A : Type} (f : string -> option A) (s : string) (x : A) :
  search f s = Some x -> exists t, f t = Some x.
Proof.
  induction s as [|c r IH]; cbn [search].
  - destruct (f "") eqn:E; [|discriminate]. intros H. injection H as <-. eauto.
  - destruct (f (String c r)) eqn:E.
    + intros H. injection H as <-. eauto.
    + exact IH.
Qed.

Lemma monthNameAt_lookup (t m : string) :
  Page.monthNameAt t = Some m ->
  exists mo, lookup (String.substring 0 3 (lowerLetters m)) monthMap = Some mo
             /\ 0 <= mo <= 11.
Proof.
  unfold Page.monthNameAt. destruct (monthAt t) as [[m' r]|] eqn:E; [|discriminate].
  intros H. injection H as <-.
  destruct (monthAt_some _ _ _ E) as (a & b & c & mo & _ & _ & _ & _ & _ & Hl & Hmo).
  eauto.
Qed.

Lemma getMonthFromString_found (s m : string) :
  search Page.monthNameAt s = Some m ->
  exists mo, Page.getMonthFromString s = Some mo /\ 0 <= mo <= 11.
Proof.
  intros H. unfold Page.getMonthFromString. rewrite H.
  destruct (search_some _ _ _ H) as [t Ht].
  apply (monthNameAt_lookup t m Ht).
Qed.

End MonthOfText.

(** X11. [getMonthFromString] answers with a month number from 0 to 11
    or with null; on a text that begins with a month abbreviation, in any
    letter case, it answers with that month; and it finds a month in every
    text in which [parseDateWithMonth] finds a date. *)
Theorem getMonthFromString_months :
  (forall (s : string) (mo : Z),
      Page.getMonthFromString s = Some mo -> 0 <= mo <= 11)
  /\ (forall (mon rest : string) (mo : Z),
        abbreviates mon mo -> Page.getMonthFromString (mon ++ rest) = Some mo)
  /\ (forall (s : string) (d : Date.JSDate),
        Dates.parseDateWithMonth s = Some d ->
        exists mo, Page.getMonthFromString s = Some mo).
Proof.
  split; [|split].
  - intros s mo H. unfold Page.getMonthFromString in H.
    destruct (Dates.search Page.monthNameAt s) as [m|] eqn:E; [|discriminate].
    destruct (getMonthFromString_found s m E) as (mo' & E' & Hmo).
    unfold Page.getMonthFromString in E'. rewrite E in E'. congruence.
  - intros mon rest mo Hmon. unfold Page.getMonthFromString.
    assert (E : Page.monthNameAt (mon ++ rest) = Some mon).
    { unfold Page.monthNameAt. rewrite (monthAt_abbreviation mon rest mo Hmon).
      reflexivity. }
    rewrite (search_head _ _ _ E).
    destruct (abbreviates_shape mon mo Hmon) as (_ & _ & a & b & c & Es).
    replace (String.substring 0 3 (Dates.lowerLetters mon))
      with (Dates.lowerLetters mon) by (rewrite Es; reflexivity).
    exact Hmon.
  - intros s d H. unfold Dates.parseDateWithMonth in H.
    destruct (Dates.search Dates.dateWithMonthAt s) as [x|] eqn:E;
      [|discriminate H].
    destruct (search_weaken Dates.dateWithMonthAt Page.monthNameAt) with (s := s) (x := x)
      as [m Hm]; [|exact E|].
    + intros t y Ht. unfold Dates.dateWithMonthAt in Ht. unfold Page.monthNameAt.
      destruct (Dates.monthAt t) as [[m r]|]; [eauto | discriminate].
    + destruct (getMonthFromString_found s m Hm) as (mo & Hmo & _). eauto.
Qed.

Lemma getMonthFromString_months_witness :
  Page.getMonthFromString "DEC. 13-14" = Some 11.
Proof.
  destruct getMonthFromString_months as (_ & H & _).
  apply (H "DEC" ". 13-14" 11). reflexivity.
Defined.

(** ** The options of the city control *)

Section CityOptions.
Import JS Catalog.

Lemma existsb_eqb_In (x : string) (l : list string) :
  existsb (String.eqb x) l = true <-> In x l.
Proof.
  rewrite existsb_exists. split.
  - intros (y & Hy & E). apply String.eqb_eq in E. subst. exact Hy.
  - intros H. exists x. split; [exact H | apply String.eqb_refl].
Qed.

Lemma distinct_In (seen xs : list string) (c : string) :
  In c (Page.distinct seen xs) <-> In c xs /\ ~ In c seen.
Proof.
  revert seen. induction xs as [|x r IH]; intros seen; cbn [Page.distinct In].
  - tauto.
  - destruct (existsb (String.eqb x) seen) eqn:E.
    + apply existsb_eqb_In in E. rewrite IH. split.
      * tauto.
      * intros [[-> | H] Hn]; [contradiction | tauto].
    + assert (Hx : ~ In x seen).
      { intros H. apply existsb_eqb_In in H. congruence. }
      cbn [In]. rewrite IH. cbn [In]. split.
      * intros [<- | (H & Hn)]; [tauto|]. split; [tauto|]. intros H'. apply Hn. tauto.
      * intros [[<- | H] Hn]; [tauto|].
        destruct (string_dec x c) as [-> | N]; [tauto|]. right. split; [exact H|].
        intros [E' | H']; [congruence | contradiction].
Qed.

Lemma distinct_NoDup (seen xs : list string) : NoDup (Page.distinct seen xs).
Proof.
  revert seen. induction xs as [|x r IH]; intros seen; cbn [Page.distinct].
  - constructor.
  - destruct (existsb (String.eqb x) seen); [apply IH|].
    constructor; [|apply IH]. rewrite distinct_In. cbn [In]. tauto.
Qed.

Lemma defaultCompare_antisym (a b : string) :
  0 < Page.defaultCompare a b -> Page.defaultCompare b a <= 0.
Proof.
  unfold Page.defaultCompare.
  destruct (String.ltb a b) eqn:E1; [lia|].
  destruct (String.ltb b a) eqn:E2; lia.
Qed.

(** Strings that the default order does not put after one another are
    in strict order, or equal. *)
Lemma defaultCompare_le (a b : string) :
  Page.defaultCompare a b <= 0 -> String.ltb a b = true \/ a = b.
Proof.
  unfold Page.defaultCompare.
  destruct (String.ltb a b) eqn:E1; [auto|].
  destruct (String.ltb b a) eqn:E2; [lia|]. intros _. right.
  unfold String.ltb in *. pose proof (String.compare_antisym a b) as H.
  destruct (String.compare a b) eqn:Ea, (String.compare b a) eqn:Eb;
    simpl in H; try discriminate; apply String.compare_eq_iff, Ea.
Qed.

Lemma Sorted_strict {A : Type} (R R' : A -> A -> Prop) (l : list A) :
  (forall a b, R a b -> R' a b \/ a = b) ->
  NoDup l -> Sorted R l -> Sorted R' l.
Proof.
  intros HR. induction l as [|x r IH]; intros Hn Hs; [constructor|].
  inversion Hn as [|? ? Hx Hr]; subst. inversion Hs as [|? ? Hs' Hhd]; subst.
  constructor; [apply IH; assumption|].
  destruct r as [|y r']; constructor.
  inversion Hhd; subst. destruct (HR x y) as [H | ->]; [assumption | exact H|].
  exfalso. apply Hx. left. reflexivity.
Qed.

Lemma compare_lt_trans (a b c : string) :
  String.compare a b = Lt -> String.compare b c = Lt -> String.compare a c = Lt.
Proof.
  revert b c. induction a as [|x a IH]; intros [|y b] [|z c];
    cbn [String.compare]; try discriminate; auto.
  unfold Ascii.compare.
  destruct (N.compare_spec (N_of_ascii x) (N_of_ascii y)),
    (N.compare_spec (N_of_ascii y) (N_of_ascii z)),
    (N.compare_spec (N_of_ascii x) (N_of_ascii z));
    intros Hab Hbc; try discriminate; try reflexivity; try lia; eauto.
Qed.

Lemma ltb_trans (a b c : string) :
  String.ltb a b = true -> String.ltb b c = true -> String.ltb a c = true.
Proof.
  unfold String.ltb. intros Hab Hbc.
  rewrite (compare_lt_trans a b c); [reflexivity | |].
  - destruct (String.compare a b); congruence.
  - destruct (String.compare b c); congruence.
Qed.

Lemma ltb_total (a b : string) :
  String.ltb b a = false -> String.ltb a b = true \/ a = b.
Proof.
  intros H. destruct (String.ltb a b) eqn:E; [auto|]. right.
  unfold String.ltb in *. pose proof (String.compare_antisym a b) as Ha.
  destruct (String.compare a b) eqn:Ea, (String.compare b a) eqn:Eb;
    simpl in Ha; try discriminate; apply String.compare_eq_iff, Ea.
Qed.

(** "Not after" is transitive. *)
Lemma not_after_trans (a b c : string) :
  String.ltb b a = false -> String.ltb c b = false -> String.ltb c a = false.
Proof.
  intros Hab Hbc. destruct (String.ltb c a) eqn:E; [|reflexivity].
  destruct (ltb_total a b Hab) as [H | ->]; [|congruence].
  rewrite (ltb_trans c a b E H) in Hbc. discriminate.
Qed.

Lemma before_related {A : Type} (R : A -> A -> Prop) (a b : A) (l : list A) :
  StronglySorted R l -> before a b l -> R a b.
Proof.
  intros Hs (l1 & l2 & l3 & ->).
  induction l1 as [|x r IH]; cbn [app] in Hs.
  - apply StronglySorted_inv in Hs. destruct Hs as [_ Hall].
    rewrite Forall_forall in Hall. apply Hall. apply in_or_app. right. left. reflexivity.
  - apply StronglySorted_inv in Hs. apply IH, Hs.
Qed.

Lemma includes_infix (a sub b : string) : includes (a ++ sub ++ b) sub = true.
Proof.
  induction a as [|c r IH]; cbn [append].
  - assert (P : String.prefix sub (sub ++ b) = true).
    { induction sub as [|x t IHt]; [destruct b; reflexivity|].
      cbn [append String.prefix].
      destruct (ascii_dec x x) as [_ | N]; [exact IHt | congruence]. }
    destruct (sub ++ b); cbn [includes]; rewrite P; reflexivity.
  - cbn [includes]. rewrite IH. apply orb_true_r.
Qed.

End CityOptions.

(** X12. The options [populateRegionFilter] adds to the city control
    are the cities of the ingested records: each city once, every option
    strictly before all the later ones in the order of their code
    units. *)
Theorem city_options_sorted_and_unique :
  forall st : Catalog.State,
    NoDup (Page.populateRegionFilter st)
    /\ StronglySorted (fun a b => String.ltb a b = true)
         (Page.populateRegionFilter st)
    /\ (forall c : string,
           In c (Page.populateRegionFilter st)
           <-> exists m, In m (Catalog.markets st) /\ Csv.city m = c).
Proof.
  intros st. unfold Page.populateRegionFilter.
  set (cities := map Csv.city (Catalog.markets st)).
  assert (Hn : NoDup (JS.sort Page.defaultCompare (Page.distinct [] cities))).
  { apply (Permutation_NoDup (sort_perm Page.defaultCompare _)), distinct_NoDup. }
  split; [exact Hn|]. split.
  - apply Sorted_StronglySorted; [intros a b c; apply ltb_trans|].
    apply (Sorted_strict (fun a b => Page.defaultCompare a b <= 0));
      [apply defaultCompare_le | exact Hn |].
    apply sort_sorted, defaultCompare_antisym.
  - intros c. rewrite sort_In, distinct_In. unfold cities. rewrite in_map_iff.
    cbn [In]. split.
    + intros [(m & E & H) _]. eauto.
    + intros (m & H & E). split; [eauto | tauto].
Qed.

(** X13. [fetchAndProcessData] leaves the state as it was when the
    response is not ok, when its body is empty, and when the body holds
    [<!DOCTYPE] or [<html] anywhere, be it inside a field of an otherwise
    valid sheet. Every other body replaces the records by those
    [parseCSV] reads from it and leaves filters, sort order and the
    reference dates alone; none of the records has an empty city. *)
Theorem ingestion_accepts_or_keeps_state :
  forall (toLowerCase : string -> string) (responseOk : bool) (body : string)
         (st : Catalog.State),
    (responseOk = false
     \/ body = ""
     \/ (exists a b, body = a ++ "<!DOCTYPE" ++ b)
     \/ (exists a b, body = a ++ "<html" ++ b) ->
     Page.fetchAndProcessData toLowerCase responseOk body st = st)
    /\ (responseOk = true ->
        Page.looksLikeHtml body = false ->
        let st' := Page.fetchAndProcessData toLowerCase responseOk body st in
        Catalog.markets st' = Csv.parseCSV body
        /\ Catalog.currentFilters st' = Catalog.currentFilters st
        /\ Catalog.sortColumn st' = Catalog.sortColumn st
        /\ Catalog.sortAscending st' = Catalog.sortAscending st
        /\ Catalog.today st' = Catalog.today st
        /\ Catalog.tomorrow st' = Catalog.tomorrow st
        /\ Catalog.weekendStart st' = Catalog.weekendStart st
        /\ Catalog.weekendEnd st' = Catalog.weekendEnd st
        /\ ~ In "" (Page.populateRegionFilter st')).
Proof.
  intros toLowerCase responseOk body st. split.
  - intros H. unfold Page.fetchAndProcessData.
    destruct H as [-> | H]; [reflexivity|].
    destruct responseOk; [|reflexivity]. cbn [negb].
    replace (Page.looksLikeHtml body) with true; [reflexivity|].
    symmetry. unfold Page.looksLikeHtml.
    destruct H as [-> | [(a & b & ->) | (a & b & ->)]].
    + reflexivity.
    + rewrite includes_infix. rewrite orb_true_r. reflexivity.
    + rewrite includes_infix. apply orb_true_r.
  - intros -> Hbody st'.
    assert (Hm : Catalog.markets st' = Csv.parseCSV body
                 /\ Catalog.currentFilters st' = Catalog.currentFilters st
                 /\ Catalog.sortColumn st' = Catalog.sortColumn st
                 /\ Catalog.sortAscending st' = Catalog.sortAscending st
                 /\ Catalog.today st' = Catalog.today st
                 /\ Catalog.tomorrow st' = Catalog.tomorrow st
                 /\ Catalog.weekendStart st' = Catalog.weekendStart st
                 /\ Catalog.weekendEnd st' = Catalog.weekendEnd st).
    { unfold st', Page.fetchAndProcessData. cbn [negb]. rewrite Hbody.
      unfold Page.updateDisplay, Catalog.applyFilters.
      destruct (JS.filter _ _) as [kept|]; cbn; repeat split; reflexivity. }
    destruct Hm as (Hm & Hrest).
    split; [exact Hm|]. repeat (split; [apply Hrest|]).
    intros Hin. unfold Page.populateRegionFilter in Hin.
    apply sort_In, distinct_In in Hin. destruct Hin as [Hin _].
    apply in_map_iff in Hin. destruct Hin as (m & E & Hin).
    rewrite Hm in Hin. apply parseCSV_In in Hin. destruct Hin as (line & _ & Hrow).
    apply parseRow_wellFormed in Hrow.
    destruct Hrow as (_ & _ & _ & _ & _ & _ & Hcity & _). contradiction.
Qed.

Lemma ingestion_accepts_or_keeps_state_witness :
  Page.fetchAndProcessData Dates.lowerLetters true
    ("Name,Lat,Lon,Description" ++ String JS.newline "Market,39.7,-105.5,<html>")
    (Page.startup Date.utc 0 0)
  = Page.startup Date.utc 0 0.
Proof.
  apply (proj1 (ingestion_accepts_or_keeps_state Dates.lowerLetters true _ _)).
  right. right. right.
  exists ("Name,Lat,Lon,Description" ++ String JS.newline "Market,39.7,-105.5,"), ">".
  reflexivity.
Defined.

(** ** The listeners *)

Section Listeners.
Import JS Catalog.
Variable toLowerCase : string -> string.

(** Recomputing the view brings it in sync and changes nothing else. *)
Lemma updateDisplay_known (st : State) :
  In (Filters.dateFilter (currentFilters st)) knownKinds ->
  exists st',
    Page.updateDisplay toLowerCase st = Normal st'
    /\ inSync toLowerCase st'
    /\ markets st' = markets st
    /\ currentFilters st' = currentFilters st
    /\ sortColumn st' = sortColumn st
    /\ sortAscending st' = sortAscending st
    /\ today st' = today st
    /\ tomorrow st' = tomorrow st
    /\ weekendStart st' = weekendStart st
    /\ weekendEnd st' = weekendEnd st.
Proof.
  intros Hk. eexists. split; [apply applyFilters_known, Hk|].
  split; [|repeat split; reflexivity].
  split; [exact Hk | reflexivity].
Qed.

Lemma assigned_known (ev : Page.Event) (st : State) :
  In (Filters.dateFilter (currentFilters st)) knownKinds ->
  In (Filters.dateFilter (currentFilters (Page.assigned ev st))) knownKinds.
Proof.
  intros Hk.
  destruct ev; cbn [Page.assigned]; try exact Hk;
    try (unfold Page.toggledFilter; destruct (String.eqb _ _); cbn; tauto).
  unfold Page.sortedBy. destruct (String.eqb _ _); exact Hk.
Qed.

Lemma assigned_dates (ev : Page.Event) (st : State) :
  today (Page.assigned ev st) = today st
  /\ tomorrow (Page.assigned ev st) = tomorrow st
  /\ weekendStart (Page.assigned ev st) = weekendStart st
  /\ weekendEnd (Page.assigned ev st) = weekendEnd st.
Proof.
  destruct ev; cbn [Page.assigned]; try (repeat split; reflexivity);
    unfold Page.toggledFilter, Page.sortedBy; destruct (String.eqb _ _);
    repeat split; reflexivity.
Qed.

Lemma handle_inSync (ev : Page.Event) (st : State) :
  inSync toLowerCase st ->
  exists st',
    Page.handle toLowerCase ev st = Normal st'
    /\ inSync toLowerCase st'
    /\ today st' = today st
    /\ tomorrow st' = tomorrow st
    /\ weekendStart st' = weekendStart st
    /\ weekendEnd st' = weekendEnd st.
Proof.
  intros Hs.
  assert (Hother :
            exists st',
              Page.updateDisplay toLowerCase (Page.assigned ev st) = Normal st'
              /\ inSync toLowerCase st'
              /\ today st' = today st
              /\ tomorrow st' = tomorrow st
              /\ weekendStart st' = weekendStart st
              /\ weekendEnd st' = weekendEnd st).
  { destruct (updateDisplay_known (Page.assigned ev st)
                (assigned_known ev st (proj1 Hs)))
      as (st' & E & Hs' & _ & _ & _ & _ & T1 & T2 & T3 & T4).
    destruct (assigned_dates ev st) as (A1 & A2 & A3 & A4).
    exists st'. repeat split; try apply Hs'; congruence. }
  destruct ev as [responseOk body| | | | | |]; try exact Hother.
  cbn [Page.handle]. eexists. split; [reflexivity|].
  unfold Page.fetchAndProcessData.
  destruct (negb responseOk); [repeat split; try apply Hs; reflexivity|].
  destruct (Page.looksLikeHtml body); [repeat split; try apply Hs; reflexivity|].
  destruct (updateDisplay_known (Page.setMarkets st (Csv.parseCSV body)) (proj1 Hs))
    as (st' & -> & Hs' & _ & _ & _ & _ & T1 & T2 & T3 & T4).
  repeat split; try apply Hs'; assumption.
Qed.

Lemma dispatch_inSync (evs : list Page.Event) (st : State) :
  inSync toLowerCase st ->
  Page.completes toLowerCase evs st = true
  /\ inSync toLowerCase (Page.dispatch toLowerCase evs st)
  /\ today (Page.dispatch toLowerCase evs st) = today st
  /\ tomorrow (Page.dispatch toLowerCase evs st) = tomorrow st
  /\ weekendStart (Page.dispatch toLowerCase evs st) = weekendStart st
  /\ weekendEnd (Page.dispatch toLowerCase evs st) = weekendEnd st.
Proof.
  revert st. induction evs as [|ev rest IH]; intros st Hs.
  - cbn. repeat split; apply Hs.
  - destruct (handle_inSync ev st Hs) as (st' & E & Hs' & T1 & T2 & T3 & T4).
    cbn [Page.completes Page.dispatch]. rewrite E.
    destruct (IH st' Hs') as (C & S & U1 & U2 & U3 & U4).
    repeat split; try apply S; congruence.
Qed.

Lemma startup_inSync (zone : Date.Zone) (loaded ready : Z) :
  inSync toLowerCase (Page.startup zone loaded ready).
Proof. split; [left; reflexivity | reflexivity]. Qed.

Lemma filters_eta (f : Filters.t) :
  {| Filters.search := Filters.search f;
     Filters.city := Filters.city f;
     Filters.dateFilter := Filters.dateFilter f |} = f.
Proof. destruct f; reflexivity. Qed.

End Listeners.

(** X14. From the state the page starts with, whatever the listeners
    receive and in whatever order (responses of the fetch, typed search
    text, a chosen city, clicks on sortable headers and on the three
    quick-filter buttons), no listener throws, the date filter is always
    empty or one of today, tomorrow and weekend, the view is always what
    the current filters and sort order make of the current records, and
    the reference dates computed at start are never written again. *)
Theorem listeners_keep_the_view_in_sync :
  forall (toLowerCase : string -> string) (zone : Date.Zone) (loaded ready : Z)
         (evs : list Page.Event),
    let st0 := Page.startup zone loaded ready in
    let st := Page.dispatch toLowerCase evs st0 in
    Page.completes toLowerCase evs st0 = true
    /\ In (Filters.dateFilter (Catalog.currentFilters st)) knownKinds
    /\ Catalog.filteredMarkets st
       = JS.sort (Catalog.compareMarkets toLowerCase st)
           (List.filter (passes toLowerCase st) (Catalog.markets st))
    /\ Catalog.today st = Catalog.today st0
    /\ Catalog.tomorrow st = Catalog.tomorrow st0
    /\ Catalog.weekendStart st = Catalog.weekendStart st0
    /\ Catalog.weekendEnd st = Catalog.weekendEnd st0.
Proof.
  intros toLowerCase zone loaded ready evs st0 st.
  destruct (dispatch_inSync toLowerCase evs st0
              (startup_inSync toLowerCase zone loaded ready))
    as (C & [K V] & T).
  split; [exact C|]. split; [exact K|]. split; [exact V | exact T].
Qed.

(** X15. A second click on the same quick-filter button undoes the
    first: when the view is in sync and the date filter is empty or the
    one of the button, two clicks in a row on that button leave the whole
    state as it was. *)
Theorem quick_filter_clicked_twice :
  forall (toLowerCase : string -> string) (st : Catalog.State) (kind : string),
    inSync toLowerCase st ->
    In kind quickFilters ->
    Filters.dateFilter (Catalog.currentFilters st) = ""
    \/ Filters.dateFilter (Catalog.currentFilters st) = kind ->
    (st' <- Page.toggleQuickFilter toLowerCase kind st ;;
     Page.toggleQuickFilter toLowerCase kind st') = JS.Normal st.
Proof.
  intros toLowerCase st kind [Hk Hv] Hkind Hcur.
  assert (Hne : String.eqb "" kind = false).
  { apply String.eqb_neq. destruct Hkind as [<- | [<- | [<- | []]]]; discriminate. }
  assert (Hkk : In kind knownKinds) by (right; exact Hkind).
  assert (He : In "" knownKinds) by (left; reflexivity).
  destruct st as [ms view col asc [search city dateFilter] td tm ws we].
  cbn [Catalog.currentFilters Filters.dateFilter] in Hcur.
  unfold Page.toggleQuickFilter, Page.updateDisplay, Page.toggledFilter.
  cbn [Catalog.currentFilters Filters.dateFilter].
  destruct Hcur as [-> | ->].
  - rewrite Hne. rewrite applyFilters_known by exact Hkk. cbn [JS.bind].
    cbn [Catalog.currentFilters Filters.dateFilter Catalog.setFilteredMarkets
           Page.setDateFilter Page.setFilters].
    rewrite String.eqb_refl. rewrite applyFilters_known by exact He.
    unfold Catalog.setFilteredMarkets. cbn. cbn in Hv. do 2 f_equal.
    symmetry. exact Hv.
  - rewrite String.eqb_refl. rewrite applyFilters_known by exact He. cbn [JS.bind].
    cbn [Catalog.currentFilters Filters.dateFilter Catalog.setFilteredMarkets
           Page.setDateFilter Page.setFilters].
    rewrite Hne. rewrite applyFilters_known by exact Hkk.
    unfold Catalog.setFilteredMarkets. cbn. cbn in Hv. do 2 f_equal.
    symmetry. exact Hv.
Qed.

Lemma quick_filter_clicked_twice_witness :
  (st' <- Page.toggleQuickFilter Dates.lowerLetters "weekend" (Page.startup Date.utc 0 0) ;;
   Page.toggleQuickFilter Dates.lowerLetters "weekend" st')
  = JS.Normal (Page.startup Date.utc 0 0).
Proof.
  apply (quick_filter_clicked_twice Dates.lowerLetters (Page.startup Date.utc 0 0) "weekend").
  - split; [left; reflexivity | reflexivity].
  - right. right. left. reflexivity.
  - left. reflexivity.
Defined.

(** ** The order of the view *)

Section ViewOrder.
Import JS Catalog.
Variable toLowerCase : string -> string.

(** Whether a record has a sort key depends on the column alone. *)
Lemma sortKey_none (column : string) (a b : Market) :
  sortKey toLowerCase column a = None -> sortKey toLowerCase column b = None.
Proof.
  unfold sortKey. destruct (String.eqb column "name"); [discriminate|].
  destruct (String.eqb column "date"); [discriminate|].
  destruct (String.eqb column "city"); [discriminate | reflexivity].
Qed.

Lemma sortKey_other (column : string) (a : Market) :
  ~ In column ["name"; "date"; "city"] -> sortKey toLowerCase column a = None.
Proof.
  intros H. unfold sortKey.
  destruct (String.eqb_spec column "name") as [-> | _]; [exfalso; apply H; simpl; auto|].
  destruct (String.eqb_spec column "date") as [-> | _]; [exfalso; apply H; simpl; auto|].
  destruct (String.eqb_spec column "city") as [-> | _]; [exfalso; apply H; simpl; auto|].
  reflexivity.
Qed.

(** What "not after" means for the comparator. *)
Lemma compareMarkets_le (st : State) (a b : Market) (ka kb : string) :
  sortKey toLowerCase (sortColumn st) a = Some ka ->
  sortKey toLowerCase (sortColumn st) b = Some kb ->
  (compareMarkets toLowerCase st a b <= 0
   <-> (if sortAscending st then String.ltb kb ka else String.ltb ka kb) = false).
Proof.
  intros Ea Eb. unfold compareMarkets. rewrite Ea, Eb.
  destruct (String.ltb ka kb) eqn:E1.
  - rewrite (ltb_asym ka kb E1). destruct (sortAscending st); split; intros; try lia;
      congruence.
  - destruct (String.ltb kb ka) eqn:E2; destruct (sortAscending st); split; intros;
      try lia; congruence.
Qed.

Lemma compareMarkets_trans (st : State) (a b c : Market) :
  compareMarkets toLowerCase st a b <= 0 ->
  compareMarkets toLowerCase st b c <= 0 ->
  compareMarkets toLowerCase st a c <= 0.
Proof.
  destruct (sortKey toLowerCase (sortColumn st) a) as [ka|] eqn:Ea.
  2: { intros _ _. unfold compareMarkets. rewrite Ea. lia. }
  destruct (sortKey toLowerCase (sortColumn st) b) as [kb|] eqn:Eb.
  2: { rewrite (sortKey_none _ b a Eb) in Ea. discriminate. }
  destruct (sortKey toLowerCase (sortColumn st) c) as [kc|] eqn:Ec.
  2: { rewrite (sortKey_none _ c a Ec) in Ea. discriminate. }
  rewrite (compareMarkets_le st a b ka kb Ea Eb), (compareMarkets_le st b c kb kc Eb Ec),
    (compareMarkets_le st a c ka kc Ea Ec).
  destruct (sortAscending st); intros H1 H2.
  - apply (not_after_trans ka kb kc); assumption.
  - apply (not_after_trans kc kb ka); assumption.
Qed.

Lemma sort_strongly_sorted (st : State) (l : list Market) :
  StronglySorted (fun a b => compareMarkets toLowerCase st a b <= 0)
    (JS.sort (compareMarkets toLowerCase st) l).
Proof.
  apply Sorted_StronglySorted; [intros a b c; apply compareMarkets_trans|].
  apply sort_sorted, compareMarkets_antisym.
Qed.

(** Without a sort key the order is left alone. *)
Lemma sort_without_key (st : State) (l : list Market) :
  ~ In (sortColumn st) ["name"; "date"; "city"] ->
  JS.sort (compareMarkets toLowerCase st) l = l.
Proof.
  intros H.
  assert (F : forall k : list Market, List.filter (fun _ => true) k = k).
  { induction k as [|x r IH]; cbn; [reflexivity | rewrite IH; reflexivity]. }
  rewrite <- (F (JS.sort _ l)).
  rewrite sort_stable; [apply F|].
  intros x y _ _. unfold compareMarkets.
  rewrite (sortKey_other _ x H). lia.
Qed.

End ViewOrder.

(** X16. Whenever [applyFilters] recomputes the view, the view holds the
    records that pass the filters, each as often as the ingested list
    holds it; a record of the view never has a sort key after the key of a
    record further down (ascending order), nor before it (descending
    order); and with a sort column other than name, date and city the
    passing records keep the order of ingestion. *)
Theorem view_is_ordered_by_the_sort_key :
  forall (toLowerCase : string -> string) (st st' : Catalog.State),
    Catalog.applyFilters toLowerCase st = JS.Normal st' ->
    Permutation (List.filter (passes toLowerCase st) (Catalog.markets st))
      (Catalog.filteredMarkets st')
    /\ (forall (a b : Catalog.Market) (ka kb : string),
          before a b (Catalog.filteredMarkets st') ->
          Catalog.sortKey toLowerCase (Catalog.sortColumn st) a = Some ka ->
          Catalog.sortKey toLowerCase (Catalog.sortColumn st) b = Some kb ->
          (if Catalog.sortAscending st then String.ltb kb ka else String.ltb ka kb)
          = false)
    /\ (~ In (Catalog.sortColumn st) ["name"; "date"; "city"] ->
        Catalog.filteredMarkets st'
        = List.filter (passes toLowerCase st) (Catalog.markets st)).
Proof.
  intros toLowerCase st st' Hrun. apply applyFilters_normal in Hrun.
  rewrite Hrun. split; [apply sort_perm|]. split.
  - intros a b ka kb Hab Ea Eb.
    apply (compareMarkets_le toLowerCase st a b ka kb Ea Eb).
    apply (before_related _ a b _ (sort_strongly_sorted toLowerCase st _) Hab).
  - apply sort_without_key.
Qed.

Lemma view_is_ordered_by_the_sort_key_witness :
  Permutation
    (List.filter (passes Dates.lowerLetters (Sample.session "" ""))
       (Catalog.markets (Sample.session "" "")))
    [Sample.marketA; Sample.marketB].
Proof.
  apply (proj1 (view_is_ordered_by_the_sort_key Dates.lowerLetters
                  (Sample.session "" "")
                  (Catalog.setFilteredMarkets (Sample.session "" "")
                     [Sample.marketA; Sample.marketB])
                  eq_refl)).
Defined.

(** ** The month grids *)

Section MonthGrids.
Import JS Date Calendar.

Lemma gridDays_more (fuel extra : nat) (d e : JSDate) (days : list JSDate) :
  gridDays fuel d e = Some days -> gridDays (fuel + extra) d e = Some days.
Proof.
  revert d days. induction fuel as [|k IH]; intros d days; cbn [gridDays Nat.add].
  - discriminate.
  - destruct (leq d e || negb (numEq (getDay d) (Some 0))); [|auto].
    destruct (gridDays k (nextDay d) e) as [rest|] eqn:E; [|discriminate].
    rewrite (IH _ _ E). auto.
Qed.

(** The dates of the grid of each month of 2025: whole weeks, and the
    days of the month among them once each, in order. *)
Lemma gridDays_2025 (month : Z) :
  0 <= month <= 11 ->
  exists days,
    gridDays 43 (startDate month) (monthEnd month) = Some days
    /\ (exists weeks, List.length days = (7 * weeks)%nat)
    /\ getDay (hd Invalid days) = Some 0
    /\ map ymd (inMonth month days)
       = daysOfMonth month 1 (Z.to_nat (daysInMonth month)).
Proof.
  intros H.
  assert (C : month = 0 \/ month = 1 \/ month = 2 \/ month = 3 \/ month = 4
              \/ month = 5 \/ month = 6 \/ month = 7 \/ month = 8 \/ month = 9
              \/ month = 10 \/ month = 11) by lia.
  repeat (destruct C as [-> | C]);
    try subst month;
    (eexists; split; [vm_compute; reflexivity|];
     split; [first [exists 5%nat; reflexivity | exists 6%nat; reflexivity]|];
     split; vm_compute; reflexivity).
Qed.

Lemma numEq_eq (a b : option Z) : numEq a b = true <-> exists x, a = Some x /\ b = Some x.
Proof.
  destruct a as [x|], b as [y|]; cbn; split; try discriminate;
    try (intros (z & E1 & E2); discriminate).
  - intros E. apply Z.eqb_eq in E. subst. eauto.
  - intros (z & E1 & E2). apply Z.eqb_eq. congruence.
Qed.

(** The comparison by year, month and day holds between valid dates of
    the same day. *)
Lemma sameDay_ymd (a b : JSDate) :
  sameDay a b = true <-> exists x, ymd a = Some x /\ ymd b = Some x.
Proof.
  unfold sameDay. rewrite !andb_true_iff, !numEq_eq.
  destruct a as [s|], b as [t|]; cbn [getFullYear getMonth getDate ymd].
  - destruct (civilFromDay (s / msPerDay)) as [[y1 m1] d1].
    destruct (civilFromDay (t / msPerDay)) as [[y2 m2] d2]. split.
    + intros [[(y & E1 & E2) (m & E3 & E4)] (d & E5 & E6)].
      exists (y1, m1, d1). split; congruence.
    + intros (x & E1 & E2). assert (E : (y1, m1, d1) = (y2, m2, d2)) by congruence.
      injection E as -> -> ->. repeat split; eauto.
  - split; [intros [[(y & _ & E) _] _]; discriminate | intros (x & _ & E); discriminate].
  - split; [intros [[(y & E & _) _] _]; discriminate | intros (x & E & _); discriminate].
  - split; [intros [[(y & E & _) _] _]; discriminate | intros (x & E & _); discriminate].
Qed.

Lemma cell_in_month (st : Catalog.State) (month k : Z) (marketDates : list JSDate)
    (d : JSDate) :
  ymd d = Some (2025, month, k) ->
  label (cell st month marketDates d) = Some k
  /\ ~ In "other-month" (classes (cell st month marketDates d))
  /\ (In "highlight" (classes (cell st month marketDates d))
      <-> exists md, In md marketDates /\ ymd md = Some (2025, month, k)).
Proof.
  intros E. destruct d as [t|]; [|discriminate]. cbn [ymd] in E.
  assert (E' : civilFromDay (t / msPerDay) = (2025, month, k)) by congruence.
  unfold cell. cbn [label classes getDate getMonth].
  rewrite E'. cbn [numEq]. rewrite Z.eqb_refl. cbn [negb app].
  split; [reflexivity|].
  assert (Hh : existsb (fun md => sameDay md (Ms t)) marketDates = true
               <-> exists md, In md marketDates /\ ymd md = Some (2025, month, k)).
  { rewrite existsb_exists. split.
    - intros (md & Hin & Hs). exists md. split; [exact Hin|].
      apply sameDay_ymd in Hs. destruct Hs as (x & E1 & E2).
      cbn [ymd] in E2. congruence.
    - intros (md & Hin & Hy). exists md. split; [exact Hin|].
      apply sameDay_ymd. exists (2025, month, k). split; [exact Hy|].
      cbn [ymd]. congruence. }
  destruct (existsb _ marketDates);
    destruct (sameDateString (Ms t) (Catalog.today st)); cbn [app In].
  - split; [intros [H | [H | []]]; discriminate|].
    split; [intros _; apply Hh; reflexivity | auto].
  - split; [intros [H | []]; discriminate|].
    split; [intros _; apply Hh; reflexivity | auto].
  - split; [intros [H | []]; discriminate|].
    split; [intros [H | []]; discriminate | intros H; apply Hh in H; discriminate].
  - split; [intros []|].
    split; [intros [] | intros H; apply Hh in H; discriminate].
Qed.

End MonthGrids.

(** X17. For each month of 2025, [generateMonthCalendar] ends after at
    most 42 days and builds whole weeks that begin on a Sunday; the days
    of the month are in the grid once each, in order; and the element of
    day [k] of the month shows [k], is not marked as of another month, and
    is highlighted exactly when the market has a date on that day. *)
Theorem month_grid_shows_the_market_days :
  forall (fuel : nat) (st : Catalog.State) (month : Z)
         (marketDates : list Date.JSDate),
    0 <= month <= 11 ->
    (43 <= fuel)%nat ->
    exists days,
      Calendar.generateMonthCalendar fuel st month marketDates
      = Some (map (Calendar.cell st month marketDates) days)
      /\ (exists weeks, List.length days = (7 * weeks)%nat)
      /\ Date.getDay (hd Date.Invalid days) = Some 0
      /\ map Date.ymd (inMonth month days)
         = daysOfMonth month 1 (Z.to_nat (daysInMonth month))
      /\ (forall k : Z,
             1 <= k <= daysInMonth month ->
             exists d,
               In d days
               /\ Calendar.label (Calendar.cell st month marketDates d) = Some k
               /\ ~ In "other-month"
                      (Calendar.classes (Calendar.cell st month marketDates d))
               /\ (In "highlight"
                     (Calendar.classes (Calendar.cell st month marketDates d))
                   <-> exists md, In md marketDates
                                  /\ Date.ymd md = Some (2025, month, k))).
Proof.
  intros fuel st month marketDates Hmonth Hfuel.
  destruct (gridDays_2025 month Hmonth) as (days & Hrun & Hweeks & Hsun & Hdays).
  exists days. split.
  { unfold Calendar.generateMonthCalendar.
    replace fuel with (43 + (fuel - 43))%nat by lia.
    rewrite (gridDays_more 43 _ _ _ days Hrun). reflexivity. }
  split; [exact Hweeks|]. split; [exact Hsun|]. split; [exact Hdays|].
  intros k Hk.
  assert (Hin : In (Some (2025, month, k)) (map Date.ymd (inMonth month days))).
  { rewrite Hdays. unfold daysOfMonth. apply in_map_iff.
    exists (Z.to_nat (k - 1)). split; [f_equal; f_equal; lia|].
    apply in_seq. lia. }
  apply in_map_iff in Hin. destruct Hin as (d & Hy & Hd).
  unfold inMonth in Hd. apply filter_In in Hd. destruct Hd as [Hd _].
  exists d. split; [exact Hd|]. apply cell_in_month, Hy.
Qed.

Lemma month_grid_shows_the_market_days_witness :
  exists days,
    Calendar.generateMonthCalendar 43 (Page.startup Date.utc 0 0) 10
      (Dates.parseMarketDates "Nov. 28-Dec. 1")
    = Some (map (Calendar.cell (Page.startup Date.utc 0 0) 10
                   (Dates.parseMarketDates "Nov. 28-Dec. 1")) days)
    /\ List.length days = 42%nat.
Proof.
  destruct (month_grid_shows_the_market_days 43 (Page.startup Date.utc 0 0) 10
              (Dates.parseMarketDates "Nov. 28-Dec. 1"))
    as (days & Hrun & _); [lia | lia |].
  exists days. split; [exact Hrun|].
  unfold Calendar.generateMonthCalendar in Hrun.
  destruct (Calendar.gridDays 43 (Calendar.startDate 10) (Calendar.monthEnd 10))
    as [days'|] eqn:E; [|discriminate Hrun].
  injection Hrun as Hrun. apply (f_equal (@List.length _)) in Hrun.
  rewrite !length_map in Hrun. rewrite <- Hrun.
  vm_compute in E. injection E as <-. reflexivity.
Defined.

(** ** Lines of a sheet *)

Section SheetLines.
Import JS Csv.

Lemma split_lines (sep : ascii) (lines : list string) :
  lines <> [] ->
  Forall (fun l => without sep l = true) lines ->
  split sep (joinWith (String sep "") lines) = lines.
Proof.
  induction lines as [|l r IH]; intros H Hall; [congruence|].
  inversion Hall as [|? ? Hl Hr]; subst. cbn [joinWith]. destruct r as [|g r'].
  - apply split_absent, without_includes, Hl.
  - cbn [append]. rewrite split_append.
    rewrite (split_absent sep l (without_includes sep l Hl)).
    rewrite IH by (discriminate || assumption). reflexivity.
Qed.

(** With an empty search text and no date filter, the city test alone
    decides. *)
Lemma passes_city_only (toLowerCase : string -> string) (st : Catalog.State)
    (m : Catalog.Market) :
  toLowerCase "" = "" ->
  Filters.search (Catalog.currentFilters st) = "" ->
  Filters.dateFilter (Catalog.currentFilters st) = "" ->
  passes toLowerCase st m = Catalog.matchesCity st m.
Proof.
  intros Hlow Hs Hd. unfold passes, Catalog.keeps, Catalog.matchesDate,
    Catalog.matchesSearch.
  rewrite Hs, Hd, Hlow, includes_empty. cbn. apply andb_true_r.
Qed.

End SheetLines.

(** X18. [parseCSV] never reads the header line and reads the sheet line
    by line: for a text without white space at its ends, the records are
    those of the lines after the first, in the order of the lines, whatever
    the header says; a line break always ends a row, inside quotes too. *)
Theorem header_is_never_read :
  forall (header : string) (rows : list string),
    rows <> [] ->
    without JS.newline header = true ->
    Forall (fun r => without JS.newline r = true) rows ->
    JS.trim (joinWith (String JS.newline "") (header :: rows))
    = joinWith (String JS.newline "") (header :: rows) ->
    Csv.parseCSV (joinWith (String JS.newline "") (header :: rows))
    = flat_map (fun line => Csv.optionToList (Csv.parseRow line)) rows.
Proof.
  intros header rows Hrows Hh Hr Htrim. unfold Csv.parseCSV.
  rewrite Htrim, split_lines; [|discriminate | constructor; assumption].
  destruct rows as [|r rest]; [congruence|]. cbn [List.length tl].
  replace (Z.of_nat (S (S (List.length rest))) <? 2) with false; [reflexivity|].
  symmetry. apply Z.ltb_ge. lia.
Qed.

Lemma header_is_never_read_witness :
  Csv.parseCSV
    (joinWith (String JS.newline "") ["Lon,Lat,Name"; "Market,39.7,-105.5"])
  = flat_map (fun line => Csv.optionToList (Csv.parseRow line))
      ["Market,39.7,-105.5"].
Proof.
  apply (header_is_never_read "Lon,Lat,Name" ["Market,39.7,-105.5"]).
  - discriminate.
  - reflexivity.
  - repeat constructor.
  - reflexivity.
Defined.

(** X19. After a sheet has been ingested, with an empty search text and
    no date filter, choosing any option of the city control shows the
    records of that city and no others, and shows at least one. *)
Theorem every_city_option_selects_records :
  forall (toLowerCase : string -> string) (body : string) (st : Catalog.State)
         (c : string),
    toLowerCase "" = "" ->
    Catalog.markets st = Csv.parseCSV body ->
    Filters.search (Catalog.currentFilters st) = "" ->
    Filters.dateFilter (Catalog.currentFilters st) = "" ->
    In c (Page.populateRegionFilter st) ->
    exists st',
      Page.handle toLowerCase (Page.CityChange c) st = JS.Normal st'
      /\ Catalog.filteredMarkets st' <> []
      /\ (forall m : Catalog.Market,
             In m (Catalog.filteredMarkets st')
             <-> In m (Catalog.markets st) /\ Csv.city m = c).
Proof.
  intros toLowerCase body st c Hlow Hm Hs Hd Hc.
  unfold Page.populateRegionFilter in Hc.
  apply sort_In, distinct_In in Hc. destruct Hc as [Hc _].
  apply in_map_iff in Hc. destruct Hc as (m0 & Ecity & Hin0).
  assert (Hne : c <> "").
  { rewrite Hm in Hin0. apply parseCSV_In in Hin0.
    destruct Hin0 as (line & _ & Hrow). apply parseRow_wellFormed in Hrow.
    destruct Hrow as (_ & _ & _ & _ & _ & _ & Hcity & _). congruence. }
  assert (Hk : In (Filters.dateFilter
                     (Catalog.currentFilters (Page.setCity st c))) knownKinds).
  { cbn. rewrite Hd. left. reflexivity. }
  assert (Hview : forall m : Catalog.Market,
             In m (JS.sort (Catalog.compareMarkets toLowerCase (Page.setCity st c))
                     (List.filter (passes toLowerCase (Page.setCity st c))
                        (Catalog.markets (Page.setCity st c))))
             <-> In m (Catalog.markets st) /\ Csv.city m = c).
  { intros m. rewrite sort_In, filter_In.
    rewrite (passes_city_only toLowerCase (Page.setCity st c) m Hlow Hs Hd).
    rewrite matchesCity_iff. cbn. split.
    - intros [H [E | E]]; [congruence | auto].
    - intros [H E]. auto. }
  exists (Catalog.setFilteredMarkets (Page.setCity st c)
            (JS.sort (Catalog.compareMarkets toLowerCase (Page.setCity st c))
               (List.filter (passes toLowerCase (Page.setCity st c))
                  (Catalog.markets (Page.setCity st c))))).
  split; [exact (applyFilters_known toLowerCase (Page.setCity st c) Hk)|].
  cbn [Catalog.filteredMarkets Catalog.setFilteredMarkets]. split.
  - intros E. assert (H : In m0 (Catalog.markets st) /\ Csv.city m0 = c) by auto.
    apply Hview in H. rewrite E in H. destruct H.
  - exact Hview.
Qed.

Lemma every_city_option_selects_records_witness :
  exists st',
    Page.handle Dates.lowerLetters (Page.CityChange "Denver")
      (Page.setMarkets (Page.startup Date.utc 0 0)
         (Csv.parseCSV
            (joinWith (String JS.newline "")
               ["Name,Lat,Lon,Region,Zip,Address";
                "Market,39.7,-105.5,Metro,80206," ++ quoted "2500 E 1st Ave, Denver, CO 80206"])))
    = JS.Normal st'
    /\ Catalog.filteredMarkets st' <> [].
Proof.
  destruct (every_city_option_selects_records Dates.lowerLetters
              (joinWith (String JS.newline "")
                 ["Name,Lat,Lon,Region,Zip,Address";
                  "Market,39.7,-105.5,Metro,80206," ++ quoted "2500 E 1st Ave, Denver, CO 80206"])
              (Page.setMarkets (Page.startup Date.utc 0 0)
                 (Csv.parseCSV
                    (joinWith (String JS.newline "")
                       ["Name,Lat,Lon,Region,Zip,Address";
                        "Market,39.7,-105.5,Metro,80206," ++ quoted "2500 E 1st Ave, Denver, CO 80206"])))
              "Denver")
    as (st' & H1 & H2 & _); try reflexivity.
  - vm_compute. left. reflexivity.
  - exists st'. split; assumption.
Defined.
